(** * Gradual type checker for fx graphs

    A shallow embedding of [torch/fx/experimental/graph_gradual_typechecker.py]
    together with the properties its specification states about it.

    Python objects are modelled as follows:
    - a node's mutable [type] attribute lives in a store indexed by the
      node's identity, so that two references to one node alias;
    - an exception is a value of [exn]; a function that may raise returns a
      [result], a function that also reads or writes [type] attributes is a
      computation in [M], which hands back the store also when it raises;
    - integers are [Z], with Python's floor division and modulo;
    - a tensor-shape type records which Python sequence, tuple or list, it
      was built from: [==] and [!=] tell the two apart. *)

From Stdlib Require Import ZArith Lia.
From stdpp Require Import base option list gmap strings.

Local Open Scope Z_scope.

(** ** The shape lattice *)

(** A dimension value: the [Dyn] placeholder, an integer, or [None] (which
    only a pooling rule can put there). *)
Inductive dim : Type :=
  | DDyn
  | DInt (z : Z)
  | DNone.

(** The Python sequence that holds the [__args__] of a tensor-shape type.
    [TensorType(dims)] keeps the object it is given: a tuple where the
    code writes [TensorType(tuple(...))] or [TensorType((...))], a list
    where it writes [TensorType(new_type)] or [TensorType([...])] on a
    list. [len], indexing, [in], [zip], [reduce], [list()] and [tuple()]
    treat both alike; [==] and [!=] do not: a tuple never equals a list. *)
Inductive container : Type :=
  | PyTuple
  | PyList.

(** The value of a [type] attribute: unset ([None]), the class [int] of a
    scalar, the dynamic type, or a tensor-shape type with its [__args__],
    the dimension values and the sequence that holds them. *)
Inductive ty : Type :=
  | NoneT
  | IntT
  | Dyn
  | TensorType (c : container) (__args__ : list dim).

#[global] Instance dim_eq_dec : EqDecision dim.
Proof. solve_decision. Defined.

#[global] Instance container_eq_dec : EqDecision container.
Proof. solve_decision. Defined.

#[global] Instance ty_eq_dec : EqDecision ty.
Proof. solve_decision. Defined.

Definition isinstance_TensorType (t : ty) : bool :=
  match t with TensorType _ _ => true | _ => false end.

(** ** The graph and the modules *)

(** A node is identified by its [name], unique in a graph. *)
Definition node_id := string.

Inductive function_ref : Type :=
  | torch_add
  | operator_add
  | torch_transpose
  | torch_reshape
  | other_function (qualname : string).

Inductive target : Type :=
  | TFun (f : function_ref)
  | TStr (s : string).

Inductive opcode : Type :=
  | placeholder
  | call_function
  | call_module
  | output
  | call_method
  | get_attr.

(** An element of [n.args]: a node, an [int] literal or a list literal. *)
Inductive arg : Type :=
  | ANode (a : node_id)
  | AInt (z : Z)
  | AList (l : list Z).

Record Node : Type := mkNode {
  name : node_id;
  op : opcode;
  node_target : target;
  args : list arg
}.

(** A module attribute that is an [int] or a pair of them. *)
Inductive int_or_pair : Type :=
  | IntV (z : Z)
  | PairV (a b : Z).

(** The attributes [calculate] reads. *)
Record conv_params : Type := mkParams {
  padding : int_or_pair;
  kernel_size : int_or_pair;
  stride : int_or_pair;
  dilation : int_or_pair
}.

(** [output_size] of an adaptive pool: an [int] or a pair whose components
    may be [None]. *)
Inductive out_size : Type :=
  | OInt (z : Z)
  | OTuple (h w : option Z).

Inductive module : Type :=
  | BatchNorm2d (num_features : Z)
  | Conv2d (in_channels out_channels : Z) (p : conv_params)
  | ReLU
  | MaxPool2d (p : conv_params)
  | Linear (in_features out_features : Z)
  | AdaptiveAvgPool2d (output_size : out_size)
  | OtherModule (class_name : string).

Inductive module_class : Type :=
  | BatchNorm2d_cls
  | Conv2d_cls
  | ReLU_cls
  | MaxPool2d_cls
  | Linear_cls
  | AdaptiveAvgPool2d_cls
  | Other_cls (class_name : string).

Definition type_of (m : module) : module_class :=
  match m with
  | BatchNorm2d _ => BatchNorm2d_cls
  | Conv2d _ _ _ => Conv2d_cls
  | ReLU => ReLU_cls
  | MaxPool2d _ => MaxPool2d_cls
  | Linear _ _ => Linear_cls
  | AdaptiveAvgPool2d _ => AdaptiveAvgPool2d_cls
  | OtherModule c => Other_cls c
  end.

#[global] Instance function_ref_eq_dec : EqDecision function_ref.
Proof. solve_decision. Defined.

#[global] Instance target_eq_dec : EqDecision target.
Proof. solve_decision. Defined.

#[global] Instance module_class_eq_dec : EqDecision module_class.
Proof. solve_decision. Defined.

(** ** Exceptions *)

(** What a [TypeError] of this file says, with the values it interpolates. *)
Inductive type_error : Type :=
  | CannotExtend (t : ty) (rank : nat) (n : nat)
  | CannotMatch (t : ty)
  | CannotBroadcastTensors (t1 t2 : ty)
  | InPlaceShape
  | CannotBroadcastTypes (t1 t2 : ty)
  | CannotAdd (a0 : node_id) (t0 : ty) (a1 : node_id) (t1 : ty) (n : node_id)
  | CannotTranspose (dim1 dim2 : Z) (t : ty) (n : node_id)
  | CannotReshape (n : node_id) (t1 t2_type : ty)
  | CannotApply (m : module) (arg_type n_type : ty) (n : node_id)
  | InconsistentTypes (new_type curr_node_type : ty)
  | ShapeMismatch (m : module) (n_type arg_type : ty)
  | WrongSize (typ : ty) (m : module)
  | InconsistentFeatures (in_features : Z) (d : dim) (m : module)
  | RankBelowTwo (t : ty)
  | ArgNodeInconsistent (arg_type n_type : ty) (m : module) (n : node_id)
  | WrongTypes (n_type arg_type : ty) (m : module)
  | RankNot3Or4 (t : ty)
  | ReduceEmpty
  | UnsupportedOperand
  | WrongArity.

Inductive runtime_error : Type :=
  | AlreadyRegistered
  | NoRuleForTarget (t : target)
  | NoRuleForClass (c : module_class).

Inductive exn : Type :=
  | TypeError (e : type_error)
  | RuntimeError (e : runtime_error)
  | NotImplementedError
  | AssertionError
  | AttributeError
  | IndexError
  | ZeroDivisionError.

Inductive result (A : Type) : Type :=
  | Ok (a : A)
  | Raise (e : exn).
Arguments Ok {A} a.
Arguments Raise {A} e.

Definition rbind {A B} (r : result A) (k : A → result B) : result B :=
  match r with
  | Ok a => k a
  | Raise e => Raise e
  end.

Notation "'let?' x ':=' r 'in' k" := (rbind r (λ x, k))
  (at level 10, x pattern, r at level 100, k at level 200).

(** ** Computations over the nodes' [type] attributes *)

Definition M (A : Type) : Type := gmap node_id ty → result A * gmap node_id ty.

Definition ret {A} (a : A) : M A := λ σ, (Ok a, σ).

Definition raise {A} (e : exn) : M A := λ σ, (Raise e, σ).

Definition lift {A} (r : result A) : M A := λ σ, (r, σ).

Definition bind {A B} (m : M A) (k : A → M B) : M B :=
  λ σ, match m σ with
       | (Ok a, σ') => k a σ'
       | (Raise e, σ') => (Raise e, σ')
       end.

Notation "'let*' x ':=' m 'in' k" := (bind m (λ x, k))
  (at level 10, x pattern, m at level 100, k at level 200).

(** [a.type]; an attribute never assigned is [None]. *)
Definition type_at (σ : gmap node_id ty) (a : node_id) : ty :=
  default NoneT (σ !! a).

Definition get_type (a : node_id) : M ty := λ σ, (Ok (type_at σ a), σ).

Definition set_type (a : node_id) (t : ty) : M unit :=
  λ σ, (Ok tt, <[a := t]> σ).

(** [assert isinstance(n.args[i], Node)] followed by the use of that node. *)
Definition arg_node (n : Node) (i : nat) : M node_id :=
  match args n !! i with
  | Some (ANode a) => ret a
  | Some _ => raise AssertionError
  | None => raise IndexError
  end.

Definition arg_int (n : Node) (i : nat) : M Z :=
  match args n !! i with
  | Some (AInt z) => ret z
  | Some _ => raise AssertionError
  | None => raise IndexError
  end.

Definition arg_list (n : Node) (i : nat) : M (list Z) :=
  match args n !! i with
  | Some (AList l) => ret l
  | Some _ => raise AssertionError
  | None => raise IndexError
  end.

(** ** Python sequences *)

(** The position [l[i]] denotes, negative [i] counting from the end. *)
Definition py_index {A} (l : list A) (i : Z) : option nat :=
  let j := if i <? 0 then i + Z.of_nat (length l) else i in
  if (0 <=? j) && (j <? Z.of_nat (length l)) then Some (Z.to_nat j) else None.

Definition getitem {A} (l : list A) (i : Z) : result A :=
  match py_index l i with
  | Some j => match l !! j with Some x => Ok x | None => Raise IndexError end
  | None => Raise IndexError
  end.

Definition setitem {A} (l : list A) (i : Z) (x : A) : result (list A) :=
  match py_index l i with
  | Some j => Ok (<[j := x]> l)
  | None => Raise IndexError
  end.

(** A Python operand of [*], [%] and [==]: an [int], or ([None]) a value
    that arithmetic rejects with a [TypeError]. *)
Definition operand := option Z.

Definition py_mul (x y : operand) : result operand :=
  match x, y with
  | Some a, Some b => Ok (Some (a * b))
  | _, _ => Raise (TypeError UnsupportedOperand)
  end.

(** [x % y], of the sign of [y] as [Z.modulo] is. *)
Definition py_mod (x y : operand) : result Z :=
  match x, y with
  | Some a, Some b => if b =? 0 then Raise ZeroDivisionError else Ok (a mod b)
  | _, _ => Raise (TypeError UnsupportedOperand)
  end.

(** [x // y], rounding down as [Z.div] does. *)
Definition py_floordiv (x y : Z) : result Z :=
  if y =? 0 then Raise ZeroDivisionError else Ok (x / y).

Fixpoint reduce_from (acc : operand) (l : list operand) : result operand :=
  match l with
  | [] => Ok acc
  | y :: r => let? acc' := py_mul acc y in reduce_from acc' r
  end.

(** [reduce(lambda x, y: x * y, l)]: an empty sequence raises, a sequence
    of one element is that element, untouched. *)
Definition reduce_mul (l : list operand) : result operand :=
  match l with
  | [] => Raise (TypeError ReduceEmpty)
  | x :: r => reduce_from x r
  end.

(** A dimension value as an operand: only an [int] is a number. *)
Definition operand_of_dim (d : dim) : operand :=
  match d with
  | DInt z => Some z
  | _ => None
  end.

(** ** Consistency and precision *)

Module tensor_type.

(** Modelled from the spec: [is_consistent] of [torch.fx.tensor_type],
    on dimension values. A pair of dimensions is consistent when the two
    are equal or either side is dynamic. *)
Definition is_consistent_dim (d1 d2 : dim) : bool :=
  match d1, d2 with
  | DDyn, _ | _, DDyn => true
  | _, _ => bool_decide (d1 = d2)
  end.

(** Modelled from the spec: [is_consistent] of [torch.fx.tensor_type],
    on types. The dynamic type is consistent with anything, the relation
    is reflexive, and two tensor-shape types are consistent iff they have
    the same rank and their dimensions are pairwise consistent. *)
Definition is_consistent (t1 t2 : ty) : bool :=
  match t1, t2 with
  | Dyn, _ | _, Dyn => true
  | TensorType _ a1, TensorType _ a2 =>
      bool_decide (length a1 = length a2)
      && forallb (λ p, is_consistent_dim p.1 p.2) (zip a1 a2)
  | _, _ => bool_decide (t1 = t2)
  end.

(** Modelled from the spec: [is_more_precise] of [torch.fx.tensor_type],
    on dimension values. [d1] is more precise than [d2] when [d2] is
    dynamic and [d1] a known integer, or both are equal integers; a
    dynamic [d1] is more precise than nothing, itself included. *)
Definition is_more_precise_dim (d1 d2 : dim) : bool :=
  match d1, d2 with
  | DInt _, DDyn => true
  | DInt a, DInt b => bool_decide (a = b)
  | _, _ => false
  end.

(** Modelled from the spec: [is_more_precise] of [torch.fx.tensor_type],
    on types. The dynamic type is more precise than nothing, itself
    included; a tensor-shape type is more precise than the dynamic type,
    and than a tensor-shape type of the same rank when it is so in every
    dimension. *)
Definition is_more_precise (t1 t2 : ty) : bool :=
  match t1, t2 with
  | TensorType _ _, Dyn => true
  | TensorType _ a1, TensorType _ a2 =>
      bool_decide (length a1 = length a2)
      && forallb (λ p, is_more_precise_dim p.1 p.2) (zip a1 a2)
  | _, _ => false
  end.

End tensor_type.
Import tensor_type.

(** ** Shape arithmetic *)

Definition expand_to_tensor_dim (t : ty) (n : nat) : result ty :=
  match t with
  | Dyn => Ok (TensorType PyTuple (replicate n DDyn))
  | TensorType _ a =>
      if bool_decide (length a ≠ n)
      then Raise (TypeError (CannotExtend t (length a) n))
      else Ok t
  | _ => Raise (TypeError (CannotMatch t))
  end.

(** The loop over [enumerate(zip(new_t1, new_t2))]: position [i] of either
    list is only written at step [i], after [zip] has read it, so the loop
    acts on each pair of entries on its own. *)
Fixpoint broadcast_loop (new_t1 new_t2 : list dim) : list dim * list dim :=
  match new_t1, new_t2 with
  | x :: r1, y :: r2 =>
      let '(r1', r2') := broadcast_loop r1 r2 in
      if bool_decide (x = DInt 1) then (y :: r1', y :: r2')
      else if bool_decide (y = DInt 1) then (x :: r1', x :: r2')
      else (x :: r1', y :: r2')
  | _, _ => (new_t1, new_t2)
  end.

(** [tuple(new_t) != t.__args__], for [__args__] held in [c]: against a
    tuple the entries decide, against a list the two are never equal. *)
Definition tuple_ne (new_t : list dim) (c : container) (__args__ : list dim)
    : bool :=
  match c with
  | PyTuple => bool_decide (new_t ≠ __args__)
  | PyList => true
  end.

Definition broadcast_types (t1 t2 : ty) : result (ty * ty) :=
  if bool_decide (t1 = Dyn) || bool_decide (t2 = Dyn) then Ok (t1, t2)
  else
    match t1, t2 with
    | TensorType c1 a1, TensorType c2 a2 =>
        let s1 := Z.of_nat (length a1) in
        let s2 := Z.of_nat (length a2) in
        if (Z.abs (s1 - s2) >? 1) || (s1 =? 0) || (s2 =? 0)
        then Raise (TypeError (CannotBroadcastTensors t1 t2))
        else
          let? (new_t1, new_t2) :=
            if s1 >? s2 then
              let? x := getitem a1 0 in Ok (a1, x :: a2)
            else if s2 >? s1 then
              let? x := getitem a2 0 in Ok (x :: a1, a2)
            else Ok (a1, a2) in
          let '(new_t1, new_t2) := broadcast_loop new_t1 new_t2 in
          if tuple_ne new_t1 c1 a1 && tuple_ne new_t2 c2 a2
          then Raise (TypeError InPlaceShape)
          else Ok (TensorType PyTuple new_t1, TensorType PyTuple new_t2)
    | _, _ => Raise (TypeError (CannotBroadcastTypes t1 t2))
    end.

(** The entries of [t.__args__], where the code reads them by [len], by
    index or through [list()]. *)
Definition args_of (t : ty) : result (list dim) :=
  match t with
  | TensorType _ a => Ok a
  | _ => Raise AttributeError
  end.

(** ** Module attributes *)

Definition get_num_features (m : module) : result Z :=
  match m with BatchNorm2d f => Ok f | _ => Raise AttributeError end.

Definition get_in_channels (m : module) : result Z :=
  match m with Conv2d i _ _ => Ok i | _ => Raise AttributeError end.

Definition get_out_channels (m : module) : result Z :=
  match m with Conv2d _ o _ => Ok o | _ => Raise AttributeError end.

Definition get_conv_params (m : module) : result conv_params :=
  match m with
  | Conv2d _ _ p | MaxPool2d p => Ok p
  | _ => Raise AttributeError
  end.

Definition get_in_features (m : module) : result Z :=
  match m with Linear i _ => Ok i | _ => Raise AttributeError end.

Definition get_out_features (m : module) : result Z :=
  match m with Linear _ o => Ok o | _ => Raise AttributeError end.

Definition get_output_size (m : module) : result out_size :=
  match m with AdaptiveAvgPool2d o => Ok o | _ => Raise AttributeError end.

(** [(v, v) if isinstance(v, int) else v] *)
Definition as_pair (v : int_or_pair) : Z * Z :=
  match v with
  | IntV z => (z, z)
  | PairV a b => (a, b)
  end.

Definition pair_getitem (p : Z * Z) (index : nat) : result Z :=
  match index with
  | 0%nat => Ok p.1
  | 1%nat => Ok p.2
  | _ => Raise IndexError
  end.

(** ** The registry *)

Inductive rule : Type :=
  | NodeRule (fn : Node → M ty)
  | ModuleRule (fn : Node → module → M ty).

Inductive rule_key : Type :=
  | KTarget (t : target)
  | KClass (c : module_class).

#[global] Instance rule_key_eq_dec : EqDecision rule_key.
Proof. solve_decision. Defined.

Fixpoint lookup_rule (rules : list (rule_key * rule)) (k : rule_key) : option rule :=
  match rules with
  | [] => None
  | (k', fn) :: r => if bool_decide (k' = k) then Some fn else lookup_rule r k
  end.

(** [register_inference_rule(call_target)(fn)], on the table it extends. *)
Definition register_inference_rule (call_target : rule_key) (fn : rule)
    (rules : list (rule_key * rule)) : result (list (rule_key * rule)) :=
  match lookup_rule rules call_target with
  | Some _ => Raise (RuntimeError AlreadyRegistered)
  | None => Ok (rules ++ [(call_target, fn)])
  end.

(** ** Inference rules *)

Definition add_inference_rule (n : Node) : M ty :=
  let* a0 := arg_node n 0 in
  let* a1 := arg_node n 1 in
  let* t1 := get_type a0 in
  let* t2 := get_type a1 in
  (* handle scalar addition *)
  if bool_decide (t1 = IntT) && isinstance_TensorType t2 then
    let* _ := set_type (name n) t2 in
    get_type (name n)
  else if bool_decide (t2 = IntT) && isinstance_TensorType t1 then
    let* _ := set_type (name n) t1 in
    get_type (name n)
  else
    let* (new_t1, new_t2) := lift (broadcast_types t1 t2) in
    let* _ := set_type a0 new_t1 in
    let* _ := set_type a1 new_t2 in
    if is_consistent new_t1 new_t2 then
      (* we return the more precise type *)
      let* _ := (if is_more_precise new_t1 new_t2
                 then set_type (name n) new_t2
                 else set_type (name n) new_t1) in
      get_type (name n)
    else
      let* t1' := get_type a0 in
      let* t2' := get_type a1 in
      raise (TypeError (CannotAdd a0 t1' a1 t2' (name n))).

Definition transpose_inference_rule (n : Node) : M ty :=
  if bool_decide (node_target n = TFun torch_transpose) then
    let* a0 := arg_node n 0 in
    let* t := get_type a0 in
    let* dim1 := arg_int n 1 in
    let* dim2 := arg_int n 2 in
    if bool_decide (t = Dyn) then
      let* _ := set_type (name n) Dyn in
      get_type (name n)
    else
      match t with
      | TensorType _ a =>
          let len := Z.of_nat (length a) in
          if (0 <=? dim1) && (dim1 <? len) && (0 <=? dim2) && (dim2 <? len)
          then
            let* v2 := lift (getitem a dim2) in
            let* v1 := lift (getitem a dim1) in
            let* new_type := lift (setitem a dim1 v2) in
            let* new_type := lift (setitem new_type dim2 v1) in
            let* _ := set_type (name n) (TensorType PyList new_type) in
            get_type (name n)
          else raise (TypeError (CannotTranspose dim1 dim2 t (name n)))
      | _ => raise (TypeError (CannotTranspose dim1 dim2 t (name n)))
      end
  else ret NoneT.

Definition reshape_inference_rule (n : Node) : M ty :=
  let* a0 := arg_node n 0 in
  let* t1 := get_type a0 in
  let* t2 := arg_list n 1 in
  let t2_type :=
    TensorType PyList
      ((λ elem, if bool_decide (elem = -1) then DDyn else DInt elem) <$> t2) in
  (* if we do not know the original tensor dimension,
     we return the required dimension *)
  if bool_decide (t1 = Dyn) then
    let* _ := set_type (name n) t2_type in
    ret t2_type
  (* if any of the dimensions are unknown, we check for divisibility *)
  else if match t1 with
          | TensorType _ a1 => bool_decide (DDyn ∈ a1)
          | _ => false
          end || bool_decide (-1 ∈ t2) then
    match t1 with
    | TensorType _ a1 =>
        let a := (λ e, if bool_decide (e ≠ DDyn) then e else DInt 1) <$> a1 in
        let* p1 := lift (reduce_mul (operand_of_dim <$> a)) in
        let* p2 := lift (reduce_mul (Some <$> t2)) in
        let* r1 := lift (py_mod p1 p2) in
        let* divides :=
          (if r1 =? 0 then ret true
           else let* r2 := lift (py_mod p2 p1) in ret (r2 =? 0)) in
        if divides : bool then
          let* _ := set_type (name n) t2_type in
          ret t2_type
        else raise (TypeError (CannotReshape (name n) t1 t2_type))
    | _ => raise AssertionError
    end
  (* if all dimensions are known we check the products *)
  else
    match t1 with
    | TensorType _ a1 =>
        let* p1 := lift (reduce_mul (operand_of_dim <$> a1)) in
        let* p2 := lift (reduce_mul (Some <$> t2)) in
        if bool_decide (p1 = p2) then
          let* _ := set_type (name n) t2_type in
          ret t2_type
        else raise (TypeError (CannotReshape (name n) t1 t2_type))
    | _ => raise (TypeError (CannotReshape (name n) t1 t2_type))
    end.

Definition bn2d_inference_rule (n : Node) (module_instance : module) : M ty :=
  let* a0 := arg_node n 0 in
  let* t0 := get_type a0 in
  let* e0 := lift (expand_to_tensor_dim t0 4) in
  let* _ := set_type a0 e0 in
  let* arg_type := get_type a0 in
  let* tn := get_type (name n) in
  let* en := lift (expand_to_tensor_dim tn 4) in
  let* _ := set_type (name n) en in
  (* we check the conditions on the incoming argument and any existing
     annotation; we also check for consistency between both annotations *)
  let* cond1 :=
    (let* aa := lift (args_of arg_type) in
     let* c := lift (getitem aa 1) in
     let* f := lift (get_num_features module_instance) in
     ret (is_consistent_dim c (DInt f))) in
  let* cond2 :=
    (if cond1 : bool then
       let* tn := get_type (name n) in
       let* na := lift (args_of tn) in
       let* c := lift (getitem na 1) in
       let* f := lift (get_num_features module_instance) in
       ret (is_consistent_dim c (DInt f))
     else ret false) in
  let* cond3 :=
    (if cond2 : bool then
       let* tn := get_type (name n) in
       ret (is_consistent arg_type tn)
     else ret false) in
  if cond3 : bool then
    (* we choose the more precise type to be the node type, so if an
       incoming argument has more type information we set this node's
       type to be the argument type *)
    let* tn := get_type (name n) in
    let* _ := (if is_more_precise arg_type tn
               then set_type (name n) arg_type
               else ret tt) in
    get_type (name n)
  else
    let* tn := get_type (name n) in
    raise (TypeError (CannotApply module_instance arg_type tn (name n))).

(** For calculating h_in and w_out. *)
Definition calculate (d_in : dim) (module_instance : module) (index : nat)
    : result dim :=
  let? p := get_conv_params module_instance in
  let padding := as_pair (padding p) in
  let kernel_size := as_pair (kernel_size p) in
  let stride := as_pair (stride p) in
  let dilation := as_pair (dilation p) in
  match d_in with
  | DDyn => Ok DDyn
  | DInt d_in =>
      let? pad := pair_getitem padding index in
      let? dil := pair_getitem dilation index in
      let? k := pair_getitem kernel_size index in
      let n := d_in + 2 * pad - dil * (k - 1) - 1 in
      let? s := pair_getitem stride 0 in
      let? q := py_floordiv n s in
      Ok (DInt (q + 1))
  | DNone => Ok DNone
  end.

(** Get the most precise type that's consistent with the given types *)
Definition get_greatest_upper_bound (type1 type2 : ty) : result ty :=
  if bool_decide (type1 = Dyn) then Ok type2
  else if bool_decide (type2 = Dyn) then Ok type1
  else
    match type1, type2 with
    | TensorType _ a1, TensorType _ a2 =>
        if bool_decide (length a1 = length a2) then
          Ok (TensorType PyTuple
                ((λ p, if is_more_precise_dim p.1 p.2 then p.1 else p.2)
                   <$> zip a1 a2))
        else Raise AssertionError
    | _, _ => Ok NoneT
    end.

Definition conv2d_inference_rule (n : Node) (module_instance : module) : M ty :=
  let* a0 := arg_node n 0 in
  let* t0 := get_type a0 in
  let* e0 := lift (expand_to_tensor_dim t0 4) in
  let* _ := set_type a0 e0 in
  let* arg_type := get_type a0 in
  let* tn := get_type (name n) in
  let* curr_node_type := lift (expand_to_tensor_dim tn 4) in
  let* aa := lift (args_of arg_type) in
  let* c := lift (getitem aa 1) in
  let* in_channels := lift (get_in_channels module_instance) in
  if is_consistent_dim c (DInt in_channels) then
    let* w_in := lift (getitem aa 3) in
    let* h_in := lift (getitem aa 2) in
    let* h_out := lift (calculate h_in module_instance 0) in
    let* w_out := lift (calculate w_in module_instance 1) in
    let* b := lift (getitem aa 0) in
    let* out_channels := lift (get_out_channels module_instance) in
    let new_type := TensorType PyTuple [b; DInt out_channels; h_out; w_out] in
    if negb (is_consistent new_type curr_node_type) then
      raise (TypeError (InconsistentTypes new_type curr_node_type))
    else
      let* gub := lift (get_greatest_upper_bound new_type curr_node_type) in
      let* _ := set_type (name n) gub in
      get_type (name n)
  else
    let* tn := get_type (name n) in
    raise (TypeError (CannotApply module_instance arg_type tn (name n))).

Definition relu_inference_rule (n : Node) (module_instance : module) : M ty :=
  let* a0 := arg_node n 0 in
  let* arg_type := get_type a0 in
  let* tn := get_type (name n) in
  if is_consistent arg_type tn then
    let* _ := (if is_more_precise arg_type tn
               then set_type (name n) arg_type
               else ret tt) in
    get_type (name n)
  else raise (TypeError (ShapeMismatch module_instance tn arg_type)).

Definition maxpool2d_check (typ : ty) (module_instance : module) : result ty :=
  let? new_type_list := args_of typ in
  if bool_decide (length new_type_list = 4%nat)
     || bool_decide (length new_type_list = 3%nat) then
    let? w_in := getitem new_type_list (-1) in
    let? h_in := getitem new_type_list (-2) in
    let? h_out := calculate h_in module_instance 0 in
    let? w_out := calculate w_in module_instance 1 in
    let? new_type_list := setitem new_type_list (-1) w_out in
    let? new_type_list := setitem new_type_list (-2) h_out in
    Ok (TensorType PyTuple new_type_list)
  else Raise (TypeError (WrongSize typ module_instance)).

(** [n.args[0].type] and [n.type] are read once: nothing is written between
    the tests of the [if] chain. *)
Definition maxpool2d_inference_rule (n : Node) (module_instance : module)
    : M ty :=
  let* a0 := arg_node n 0 in
  let* t0 := get_type a0 in
  let* tn := get_type (name n) in
  if bool_decide (t0 = Dyn) && bool_decide (tn = Dyn) then ret Dyn
  (* Todo backwards propagation *)
  else if bool_decide (t0 = Dyn) && isinstance_TensorType tn then
    let* r := lift (maxpool2d_check tn module_instance) in
    let* _ := set_type (name n) r in
    get_type (name n)
  else if bool_decide (tn = Dyn) && isinstance_TensorType t0 then
    let* r := lift (maxpool2d_check t0 module_instance) in
    let* _ := set_type (name n) r in
    get_type (name n)
  else if isinstance_TensorType t0 && isinstance_TensorType tn then
    let* new_arg := lift (maxpool2d_check t0 module_instance) in
    let* new_node_type := lift (maxpool2d_check tn module_instance) in
    let* _ := set_type (name n) new_node_type in
    let* tn' := get_type (name n) in
    let* _ := (if is_more_precise new_arg tn'
               then set_type (name n) new_arg
               else ret tt) in
    get_type (name n)
  else raise (TypeError (CannotApply module_instance t0 tn (name n))).

(** Checks that an input tensor type satisfies the conditions for linear
    operation and returns the output type based on in and out features
    given by op_type *)
Definition linear_check (tensor_type : ty) (op_type : module) : result ty :=
  let? a := args_of tensor_type in
  if bool_decide (2 ≤ length a)%nat then
    let? in_features := get_in_features op_type in
    let? last := getitem a (-1) in
    if is_consistent_dim (DInt in_features) last then
      (* Todo backwards propagation *)
      let? out_features := get_out_features op_type in
      let? new_type_args := setitem a (-1) (DInt out_features) in
      Ok (TensorType PyTuple new_type_args)
    else Raise (TypeError (InconsistentFeatures in_features last op_type))
  else Raise (TypeError (RankBelowTwo tensor_type)).

Definition linear_inference_rule (n : Node) (op_type : module) : M ty :=
  let* a0 := arg_node n 0 in
  let* t0 := get_type a0 in
  let* tn := get_type (name n) in
  if isinstance_TensorType t0 && isinstance_TensorType tn then
    if is_consistent t0 tn then
      (* Todo: type inference for argument *)
      let* new_res_type_from_arg := lift (linear_check t0 op_type) in
      let* new_res_type_from_node := lift (linear_check tn op_type) in
      let* _ := set_type (name n) new_res_type_from_node in
      let* tn' := get_type (name n) in
      let* _ := (if is_more_precise new_res_type_from_arg tn'
                 then set_type (name n) new_res_type_from_arg
                 else ret tt) in
      get_type (name n)
    else raise (TypeError (ArgNodeInconsistent t0 tn op_type (name n)))
  else if isinstance_TensorType t0 && bool_decide (tn = Dyn) then
    let* new_type := lift (linear_check t0 op_type) in
    let* _ := set_type (name n) new_type in
    get_type (name n)
  else if isinstance_TensorType tn && bool_decide (t0 = Dyn) then
    (* Todo: type inference for argument *)
    let* new_type := lift (linear_check tn op_type) in
    let* _ := set_type (name n) new_type in
    get_type (name n)
  else if bool_decide (t0 = Dyn) && bool_decide (tn = Dyn) then ret Dyn
  else raise (TypeError (WrongTypes tn t0 op_type)).

Definition dim_of_size (o : option Z) : dim :=
  match o with
  | Some z => DInt z
  | None => DNone
  end.

Definition adaptiveavgpool2d_check (tensor_type : ty) (op_type : module)
    : result ty :=
  let? output_size := get_output_size op_type in
  let '(output_size0, output_size1) :=
    match output_size with
    | OInt z => (Some z, Some z)
    | OTuple h w =>
        let h := if bool_decide (h = None) then w else h in
        (* [output_size[1] == output_size[0]] is evaluated and dropped *)
        let w := if bool_decide (w = None)
                 then (let _ := bool_decide (w = h) in w)
                 else w in
        (h, w)
    end in
  let? new_type_list := args_of tensor_type in
  if bool_decide (length new_type_list = 4%nat)
     || bool_decide (length new_type_list = 3%nat) then
    let? new_type_list := setitem new_type_list (-1) (dim_of_size output_size1) in
    let? new_type_list := setitem new_type_list (-2) (dim_of_size output_size0) in
    Ok (TensorType PyTuple new_type_list)
  else Raise (TypeError (RankNot3Or4 tensor_type)).

Definition adaptiveavgpool2d_inference_rule (n : Node) (op_type : module)
    : M ty :=
  let* a0 := arg_node n 0 in
  let* t0 := get_type a0 in
  let* tn := get_type (name n) in
  if isinstance_TensorType t0 && isinstance_TensorType tn then
    if is_consistent t0 tn then
      let* new_res_type_from_arg := lift (adaptiveavgpool2d_check t0 op_type) in
      let* new_res_type_from_node := lift (adaptiveavgpool2d_check tn op_type) in
      let* _ := set_type (name n) new_res_type_from_node in
      let* tn' := get_type (name n) in
      let* _ := (if is_more_precise new_res_type_from_arg tn'
                 then set_type (name n) new_res_type_from_arg
                 else ret tt) in
      get_type (name n)
    else raise (TypeError (ArgNodeInconsistent t0 tn op_type (name n)))
  else if bool_decide (t0 = Dyn) && isinstance_TensorType tn then
    let* new_type := lift (adaptiveavgpool2d_check tn op_type) in
    let* _ := set_type (name n) new_type in
    get_type (name n)
  else if isinstance_TensorType t0 && bool_decide (tn = Dyn) then
    let* new_type := lift (adaptiveavgpool2d_check t0 op_type) in
    let* _ := set_type (name n) new_type in
    get_type (name n)
  else if bool_decide (tn = Dyn) && bool_decide (t0 = Dyn) then ret Dyn
  else raise (TypeError (WrongTypes tn t0 op_type)).

(** The table the decorators leave behind, in the order they run: of two
    stacked decorators the inner one registers first. *)
Definition _INFERENCE_RULES : list (rule_key * rule) :=
  [ (KTarget (TFun operator_add), NodeRule add_inference_rule);
    (KTarget (TFun torch_add), NodeRule add_inference_rule);
    (KTarget (TFun torch_transpose), NodeRule transpose_inference_rule);
    (KTarget (TFun torch_reshape), NodeRule reshape_inference_rule);
    (KClass BatchNorm2d_cls, ModuleRule bn2d_inference_rule);
    (KClass Conv2d_cls, ModuleRule conv2d_inference_rule);
    (KClass ReLU_cls, ModuleRule relu_inference_rule);
    (KClass MaxPool2d_cls, ModuleRule maxpool2d_inference_rule);
    (KClass Linear_cls, ModuleRule linear_inference_rule);
    (KClass AdaptiveAvgPool2d_cls, ModuleRule adaptiveavgpool2d_inference_rule) ].

(** ** The driver *)

(** The traced module: the nodes of its graph, in order, and its
    submodules by attribute name. *)
Record GraphModule : Type := mkGraphModule {
  graph_nodes : list Node;
  submodules : gmap string module
}.

Record GraphTypeChecker : Type := mkGraphTypeChecker {
  env : gmap string ty;
  traced : GraphModule
}.

(** [getattr(self.traced, str(n.target))] *)
Definition getattr (g : GraphModule) (t : target) : result module :=
  match t with
  | TStr s =>
      match submodules g !! s with
      | Some m => Ok m
      | None => Raise AttributeError
      end
  | TFun _ => Raise AttributeError
  end.

(** Type check a given fx node. *)
Definition type_check_node (self : GraphTypeChecker) (n : Node) : M ty :=
  let* t := get_type (name n) in
  let* _ := (if bool_decide (t = NoneT) then set_type (name n) Dyn else ret tt) in
  match op n with
  | placeholder => get_type (name n)
  | call_function =>
      match lookup_rule _INFERENCE_RULES (KTarget (node_target n)) with
      | Some (NodeRule fn) => fn n
      | Some (ModuleRule _) => raise (TypeError WrongArity)
      | None => raise (RuntimeError (NoRuleForTarget (node_target n)))
      end
  | call_module =>
      let* module_instance := lift (getattr (traced self) (node_target n)) in
      match lookup_rule _INFERENCE_RULES (KClass (type_of module_instance)) with
      | Some (ModuleRule fn) => fn n module_instance
      | Some (NodeRule _) => raise (TypeError WrongArity)
      | None => raise (RuntimeError (NoRuleForClass (type_of module_instance)))
      end
  | output =>
      let* a0 := arg_node n 0 in
      let* t := get_type a0 in
      let* _ := set_type (name n) t in
      get_type (name n)
  | _ => raise NotImplementedError
  end.

(** The loop [for n in graph.nodes: self.type_check_node(n)]. *)
Fixpoint type_check_nodes (self : GraphTypeChecker) (nodes : list Node) : M unit :=
  match nodes with
  | [] => ret tt
  | n :: rest =>
      let* _ := type_check_node self n in
      type_check_nodes self rest
  end.

(** A gradual type checker for graphs.
    Effect: every node's field type will be populated with a type after
    type-checking is done *)
Definition type_check (self : GraphTypeChecker) : M bool :=
  let* _ := type_check_nodes self (graph_nodes (traced self)) in
  ret true.

(** ** Notions the properties are stated with *)

(** A tensor-shape type all of whose dimensions are known, as
    [TensorType((d1, ..., dn))] builds it. *)
Definition shape (l : list Z) : ty := TensorType PyTuple (DInt <$> l).

(** The value of a module attribute at an axis, a scalar counting for both
    axes. *)
Definition component (v : int_or_pair) (index : nat) : Z :=
  match index with
  | 0%nat => (as_pair v).1
  | _ => (as_pair v).2
  end.

(** The output size of a convolution or pooling along axis [index] for the
    input size [d]: floor((d + 2p - δ(k-1) - 1) / s) + 1, with the stride
    of axis 0 whatever the axis. *)
Definition output_size_formula (p : conv_params) (d : Z) (index : nat) : Z :=
  (d + 2 * component (padding p) index
     - component (dilation p) index * (component (kernel_size p) index - 1) - 1)
  / component (stride p) 0 + 1.

(** The product of the entries of a list, 1 for the empty list. *)
Definition product (l : list Z) : Z := foldr Z.mul 1 l.

(** The size a dimension contributes to a product of known dimensions. *)
Definition known_size (d : dim) : Z :=
  match d with
  | DInt z => z
  | _ => 1
  end.

(** The type a reshape target stands for, [-1] being the wildcard. *)
Definition target_type (t2 : list Z) : ty :=
  TensorType PyList
    ((λ elem, if bool_decide (elem = -1) then DDyn else DInt elem) <$> t2).

(** Equal as types: the same kind of type and, for two tensor-shape types,
    the same dimension values, whichever sequence holds them. *)
Definition same_type (t1 t2 : ty) : bool :=
  match t1, t2 with
  | TensorType _ a1, TensorType _ a2 => bool_decide (a1 = a2)
  | _, _ => bool_decide (t1 = t2)
  end.

(** "At least as precise": more precise, or equal. *)
Definition at_least_as_precise (t1 t2 : ty) : bool :=
  is_more_precise t1 t2 || same_type t1 t2.

Definition at_least_as_precise_dim (d1 d2 : dim) : bool :=
  is_more_precise_dim d1 d2 || bool_decide (d1 = d2).

(** The choice the rules make between the type coming from the input and
    the one coming from the node's annotation. *)
Definition more_precise_of (from_input from_annotation : ty) : ty :=
  if is_more_precise from_input from_annotation then from_input
  else from_annotation.

(** [t] is the rule's choice between the two types, hence at least as
    precise as both once one of them is at least as precise as the other. *)
Definition chosen_between (t from_input from_annotation : ty) : Prop :=
  t = more_precise_of from_input from_annotation
  ∧ (at_least_as_precise from_input from_annotation
     || at_least_as_precise from_annotation from_input = true →
     at_least_as_precise t from_annotation = true
     ∧ at_least_as_precise t from_input = true).

(** The candidate a pooling or linear rule draws from a type: what the
    rule's check makes of a tensor-shape type, and the dynamic type for the
    dynamic type, which the rule does not hand to its check. *)
Definition candidate (check : ty → module → result ty) (t : ty) (m : module)
    : result ty :=
  if bool_decide (t = Dyn) then Ok Dyn else check t m.

(** A type of the data model: every dimension of a tensor-shape type is an
    integer or dynamic. *)
Definition well_formed (t : ty) : Prop :=
  match t with
  | TensorType _ l => DNone ∉ l
  | _ => True
  end.

(** The store once [type_check_node] has replaced a type of [None]. *)
Definition visited (n : Node) (σ : gmap node_id ty) : gmap node_id ty :=
  if bool_decide (type_at σ (name n) = NoneT) then <[name n := Dyn]> σ else σ.

(** Every node operand of a node of the list is in [seen] or is an earlier
    node of the list: the order [graph.nodes] comes in. *)
Fixpoint operands_defined (seen : list node_id) (nodes : list Node) : Prop :=
  match nodes with
  | [] => True
  | n :: rest =>
      (∀ a, ANode a ∈ args n → a ∈ seen) ∧ operands_defined (name n :: seen) rest
  end.

(** * Properties *)

(** ** The store *)

Lemma type_at_insert_eq (σ : gmap node_id ty) a t :
  type_at (<[a := t]> σ) a = t.
Proof. unfold type_at. by rewrite lookup_insert_eq. Qed.

Lemma type_at_insert_ne (σ : gmap node_id ty) a b t :
  a ≠ b → type_at (<[a := t]> σ) b = type_at σ b.
Proof. intros Hne. unfold type_at. by rewrite lookup_insert_ne. Qed.

(** Unfolds the plumbing of [M], leaving the tests of the rule at hand. *)
Ltac unfold_M :=
  cbv beta delta [bind ret raise lift get_type set_type arg_node arg_int arg_list].

(** Runs a rule through all its branches. *)
Ltac run_rule :=
  unfold_M; intros;
  repeat (first [progress simplify_eq | case_match]; cbv beta in *; try done).

(** ** The relations *)

Lemma is_consistent_dim_refl d : is_consistent_dim d d = true.
Proof. destruct d; cbn; by rewrite ?bool_decide_eq_true_2. Qed.

Lemma is_consistent_dim_sym d1 d2 :
  is_consistent_dim d1 d2 = is_consistent_dim d2 d1.
Proof.
  destruct d1, d2; cbn; try done; apply bool_decide_ext; split; congruence.
Qed.

Lemma is_consistent_refl t : is_consistent t t = true.
Proof.
  destruct t as [| | |c a]; cbn; try by rewrite ?bool_decide_eq_true_2.
  rewrite bool_decide_eq_true_2 by done. cbn [andb].
  induction a as [|d a IH]; [done|].
  cbn. by rewrite is_consistent_dim_refl, IH.
Qed.

Lemma is_consistent_sym t1 t2 : is_consistent t1 t2 = is_consistent t2 t1.
Proof.
  destruct t1 as [| | |c1 a1], t2 as [| | |c2 a2]; cbn; try done.
  f_equal; [apply bool_decide_ext; split; congruence|].
  revert a2. induction a1 as [|d1 a1 IH]; intros [|d2 a2]; cbn; try done.
  by rewrite is_consistent_dim_sym, IH.
Qed.

Lemma is_consistent_Dyn t : is_consistent Dyn t = true.
Proof. by destruct t. Qed.

Lemma is_more_precise_Dyn t :
  is_more_precise Dyn t = false
  ∧ (isinstance_TensorType t = true → is_more_precise t Dyn = true).
Proof. by destruct t. Qed.

(** ** Broadcasting *)

Lemma broadcast_loop_same (a : list dim) : broadcast_loop a a = (a, a).
Proof.
  induction a as [|x a IH]; [done|].
  cbn [broadcast_loop]. rewrite IH.
  by destruct (bool_decide (x = DInt 1)).
Qed.

(** Broadcasting a tensor-shape type of rank at least one against itself
    changes no entry; the test for a change of both shapes then depends on
    the sequence holding [__args__] alone. *)
Lemma broadcast_types_self (c1 c2 : container) (a : list dim) :
  a ≠ [] →
  broadcast_types (TensorType c1 a) (TensorType c2 a)
  = if tuple_ne a c1 a && tuple_ne a c2 a
    then Raise (TypeError InPlaceShape)
    else Ok (TensorType PyTuple a, TensorType PyTuple a).
Proof.
  intros Hne. unfold broadcast_types.
  rewrite !bool_decide_eq_false_2 by discriminate. cbn [orb].
  rewrite Z.sub_diag. cbn [Z.abs].
  replace (0 >? 1) with false by reflexivity.
  destruct (Z.eqb_spec (Z.of_nat (length a)) 0) as [H0|H0].
  { destruct a; [done | cbn in H0; lia]. }
  cbn [orb].
  replace (Z.of_nat (length a) >? Z.of_nat (length a)) with false
    by (symmetry; rewrite Z.gtb_ltb; apply Z.ltb_irrefl).
  cbn [rbind]. by rewrite broadcast_loop_same.
Qed.

(** C9, as the code has it. Broadcasting a tensor-shape type of rank at
    least one against itself returns that type twice and raises nothing
    when its [__args__] is a tuple; when it is a list, as in the types the
    transpose and the reshape rule build, it raises the [TypeError] for a
    change of both shapes, although no entry has changed. *)
Theorem broadcast_types_same (c : container) (a : list dim) :
  a ≠ [] →
  broadcast_types (TensorType c a) (TensorType c a)
  = match c with
    | PyTuple => Ok (TensorType PyTuple a, TensorType PyTuple a)
    | PyList => Raise (TypeError InPlaceShape)
    end.
Proof.
  intros Hne. rewrite (broadcast_types_self c c a Hne).
  destruct c; cbn [tuple_ne andb]; [|done].
  by rewrite (bool_decide_eq_false_2 (a ≠ a)) by (intros H; by apply H).
Qed.

(** The failing input of C9: the type a transpose node gets from an input
    of type (2,3), broadcast against itself. *)
Lemma broadcast_types_same_witness :
  (transpose_inference_rule
     (mkNode "t" call_function (TFun torch_transpose) [ANode "x"; AInt 0; AInt 1])
     {[ "x" := shape [2; 3] ]}).1
  = Ok (TensorType PyList [DInt 3; DInt 2])
  ∧ broadcast_types (TensorType PyList [DInt 3; DInt 2])
                    (TensorType PyList [DInt 3; DInt 2])
    = Raise (TypeError InPlaceShape)
  ∧ broadcast_types (TensorType PyTuple [DInt 3; DInt 2])
                    (TensorType PyTuple [DInt 3; DInt 2])
    = Ok (TensorType PyTuple [DInt 3; DInt 2], TensorType PyTuple [DInt 3; DInt 2]).
Proof.
  split; [reflexivity|]. split.
  - apply (broadcast_types_same PyList [DInt 3; DInt 2]). discriminate.
  - apply (broadcast_types_same PyTuple [DInt 3; DInt 2]). discriminate.
Defined.

(** ** The output size of a convolution or a pooling *)

Lemma calculate_int m p d index :
  get_conv_params m = Ok p →
  (index < 2)%nat →
  component (stride p) 0 ≠ 0 →
  calculate (DInt d) m index = Ok (DInt (output_size_formula p d index)).
Proof.
  intros Hp Hi Hs. unfold calculate, output_size_formula. rewrite Hp. cbn [rbind].
  assert (Hget : ∀ v, pair_getitem (as_pair v) index = Ok (component v index)).
  { intros v. destruct index as [|[|?]]; [done | done | lia]. }
  rewrite !Hget. cbn [rbind pair_getitem].
  unfold py_floordiv. cbn [component] in Hs.
  destruct (Z.eqb_spec (as_pair (stride p)).1 0) as [H0|H0]; [done|].
  done.
Qed.

Lemma calculate_Dyn m p index :
  get_conv_params m = Ok p → calculate DDyn m index = Ok DDyn.
Proof. intros Hp. unfold calculate. by rewrite Hp. Qed.

Lemma conv2d_example n x (σ : gmap node_id ty) k :
  args n !! 0%nat = Some (ANode x) →
  type_at σ x = TensorType k (DInt <$> [1; 3; 32; 32]) →
  type_at σ (name n) = Dyn →
  conv2d_inference_rule n
    (Conv2d 3 16 (mkParams (IntV 0) (IntV 3) (IntV 1) (IntV 1))) σ
  = (Ok (shape [1; 16; 30; 30]),
     <[name n := shape [1; 16; 30; 30]]>
       (<[x := TensorType k (DInt <$> [1; 3; 32; 32])]> σ)).
Proof.
  intros Hargs Hx Hn.
  assert (Hne : x ≠ name n).
  { intros ->. rewrite Hx in Hn. discriminate. }
  unfold conv2d_inference_rule. unfold_M. rewrite Hargs, Hx.
  simpl. rewrite type_at_insert_eq, (type_at_insert_ne _ _ _ _ Hne), Hn. simpl.
  by rewrite type_at_insert_eq.
Qed.

(** C3. For a module with convolution or pooling attributes, scalars
    counting for both axes, an integer input size [d] at axis [index]
    (0 or 1) gives floor((d + 2*p[index] - δ[index]*(k[index]-1) - 1) / s[0])
    + 1, the stride being read at index 0 for either axis (a stride of 0
    there has no quotient); a dynamic input size gives a dynamic output
    size; and a [Conv2d] with 3 input and 16 output channels, kernel 3,
    stride 1, padding 0 and dilation 1 on an input of type (1,3,32,32),
    whichever sequence holds its dimensions, and a node not annotated so
    far sets the node's type to (1,16,30,30). *)
Theorem conv_pool_output_size :
  (∀ m p d index,
     get_conv_params m = Ok p →
     (index < 2)%nat →
     component (stride p) 0 ≠ 0 →
     calculate (DInt d) m index = Ok (DInt (output_size_formula p d index)))
  ∧ (∀ m p index,
     get_conv_params m = Ok p → calculate DDyn m index = Ok DDyn)
  ∧ (∀ n x (σ : gmap node_id ty) k,
     args n !! 0%nat = Some (ANode x) →
     type_at σ x = TensorType k (DInt <$> [1; 3; 32; 32]) →
     type_at σ (name n) = Dyn →
     let r := conv2d_inference_rule n
                (Conv2d 3 16 (mkParams (IntV 0) (IntV 3) (IntV 1) (IntV 1))) σ in
     r.1 = Ok (shape [1; 16; 30; 30])
     ∧ type_at r.2 (name n) = shape [1; 16; 30; 30]).
Proof.
  split; [exact calculate_int|]. split; [exact calculate_Dyn|].
  intros n x σ k Hargs Hx Hn r. subst r.
  rewrite (conv2d_example n x σ k Hargs Hx Hn). cbn [fst snd].
  by rewrite type_at_insert_eq.
Qed.

Lemma conv_pool_output_size_witness :
  calculate (DInt 7) (MaxPool2d (mkParams (PairV 1 0) (IntV 3) (PairV 2 5) (IntV 1))) 1
  = Ok (DInt 3)
  ∧ calculate DDyn (Conv2d 3 16 (mkParams (IntV 0) (IntV 3) (IntV 1) (IntV 1))) 0
    = Ok DDyn
  ∧ type_at
      (conv2d_inference_rule (mkNode "conv" call_module (TStr "conv") [ANode "x"])
         (Conv2d 3 16 (mkParams (IntV 0) (IntV 3) (IntV 1) (IntV 1)))
         {[ "x" := shape [1; 3; 32; 32]; "conv" := Dyn ]}).2 "conv"
    = shape [1; 16; 30; 30].
Proof.
  destruct conv_pool_output_size as (Hint & Hdyn & Hex).
  split; [|split].
  - apply (Hint (MaxPool2d (mkParams (PairV 1 0) (IntV 3) (PairV 2 5) (IntV 1)))
             (mkParams (PairV 1 0) (IntV 3) (PairV 2 5) (IntV 1)) 7 1%nat);
      [reflexivity | lia | discriminate].
  - apply (Hdyn _ (mkParams (IntV 0) (IntV 3) (IntV 1) (IntV 1))). reflexivity.
  - apply (Hex (mkNode "conv" call_module (TStr "conv") [ANode "x"]) "x" _ PyTuple);
      reflexivity.
Defined.

(** ** Max-pooling with a dynamic input *)



Lemma maxpool2d_check_rank4 k b c h w m :
  maxpool2d_check (TensorType k [b; c; h; w]) m
  = (let? h_out := calculate h m 0 in
     let? w_out := calculate w m 1 in
     Ok (TensorType PyTuple [b; c; h_out; w_out])).
Proof.
  unfold maxpool2d_check. simpl.
  destruct (calculate h m 0); [|done]. simpl.
  by destruct (calculate w m 1).
Qed.

Lemma maxpool2d_check_rank3 k c h w m :
  maxpool2d_check (TensorType k [c; h; w]) m
  = (let? h_out := calculate h m 0 in
     let? w_out := calculate w m 1 in
     Ok (TensorType PyTuple [c; h_out; w_out])).
Proof.
  unfold maxpool2d_check. simpl.
  destruct (calculate h m 0); [|done]. simpl.
  by destruct (calculate w m 1).
Qed.



(** ** What a failing convolution rule leaves behind *)

Lemma expand_to_tensor_dim_4 t :
  t = Dyn ∨ (∃ k l, t = TensorType k l ∧ length l = 4%nat) →
  ∃ t4, expand_to_tensor_dim t 4 = Ok t4
        ∧ (t = Dyn → t4 = TensorType PyTuple [DDyn; DDyn; DDyn; DDyn])
        ∧ (∀ k l, t = TensorType k l → t4 = t).
Proof.
  intros [-> | (k & l & -> & Hl)].
  - eexists. split; [reflexivity|]. split; [done | intros k l; discriminate].
  - exists (TensorType k l). unfold expand_to_tensor_dim.
    rewrite bool_decide_eq_false_2 by (intros H; by apply H).
    split; [done|]. split; [discriminate | done].
Qed.

Lemma conv2d_raise_store n m a0 (σ σ' : gmap node_id ty) t4 e :
  args n !! 0%nat = Some (ANode a0) →
  expand_to_tensor_dim (type_at σ a0) 4 = Ok t4 →
  conv2d_inference_rule n m σ = (Raise e, σ') →
  σ' = <[a0 := t4]> σ.
Proof.
  intros Hargs Hexp. unfold conv2d_inference_rule. unfold_M.
  rewrite Hargs, Hexp. intros Hrun.
  repeat case_match; simplify_eq; try done.
Qed.

Lemma conv2d_channel_error n m a0 (σ : gmap node_id ty) k b c h w curr ic :
  args n !! 0%nat = Some (ANode a0) →
  a0 ≠ name n →
  type_at σ a0 = TensorType k [b; c; h; w] →
  expand_to_tensor_dim (type_at σ (name n)) 4 = Ok curr →
  get_in_channels m = Ok ic →
  is_consistent_dim c (DInt ic) = false →
  conv2d_inference_rule n m σ
  = (Raise (TypeError (CannotApply m (TensorType k [b; c; h; w])
                         (type_at σ (name n)) (name n))),
     <[a0 := TensorType k [b; c; h; w]]> σ).
Proof.
  intros Hargs Hne H0 Hcurr Hic Hbad.
  unfold conv2d_inference_rule. unfold_M. rewrite Hargs, H0. simpl.
  rewrite type_at_insert_eq, (type_at_insert_ne _ _ _ _ Hne), Hcurr. simpl.
  rewrite Hic, Hbad. by rewrite (type_at_insert_ne _ _ _ _ Hne).
Qed.

(** C10. On a convolution node whose input node (another node) has the
    dynamic type or a tensor-shape type of rank 4, whenever the rule
    raises, the input node's type holds its expansion to rank 4 (four
    dynamic dimensions for a dynamic input), every other node's type is
    what it was, the node's own included. The rule raises this way, with a
    [TypeError] naming the module, both types and the node, when the
    channel dimension of the input is inconsistent with [in_channels]. *)
Theorem conv2d_failure_mutates_input :
  (∀ n m a0 (σ σ' : gmap node_id ty) e,
     args n !! 0%nat = Some (ANode a0) →
     a0 ≠ name n →
     (type_at σ a0 = Dyn
      ∨ ∃ k l, type_at σ a0 = TensorType k l ∧ length l = 4%nat) →
     conv2d_inference_rule n m σ = (Raise e, σ') →
     ∃ t4, expand_to_tensor_dim (type_at σ a0) 4 = Ok t4
           ∧ (type_at σ a0 = Dyn → t4 = TensorType PyTuple [DDyn; DDyn; DDyn; DDyn])
           ∧ σ' = <[a0 := t4]> σ
           ∧ type_at σ' a0 = t4
           ∧ type_at σ' (name n) = type_at σ (name n))
  ∧ (∀ n m a0 (σ : gmap node_id ty) k b c h w curr ic,
     args n !! 0%nat = Some (ANode a0) →
     a0 ≠ name n →
     type_at σ a0 = TensorType k [b; c; h; w] →
     expand_to_tensor_dim (type_at σ (name n)) 4 = Ok curr →
     get_in_channels m = Ok ic →
     is_consistent_dim c (DInt ic) = false →
     conv2d_inference_rule n m σ
     = (Raise (TypeError (CannotApply m (TensorType k [b; c; h; w])
                            (type_at σ (name n)) (name n))),
        <[a0 := TensorType k [b; c; h; w]]> σ)).
Proof.
  split; [|exact conv2d_channel_error].
  intros n m a0 σ σ' e Hargs Hne Hin Hrun.
  destruct (expand_to_tensor_dim_4 _ Hin) as (t4 & Hexp & Hdyn & _).
  exists t4. split; [done|]. split; [done|].
  pose proof (conv2d_raise_store n m a0 σ σ' t4 e Hargs Hexp Hrun) as ->.
  split; [done|]. split; [apply type_at_insert_eq|].
  by apply type_at_insert_ne.
Qed.

Lemma conv2d_failure_mutates_input_witness :
  (let n := mkNode "conv" call_module (TStr "conv") [ANode "x"] in
   let m := Conv2d 3 16 (mkParams (IntV 0) (IntV 3) (IntV 1) (IntV 1)) in
   let σ : gmap node_id ty := {[ "x" := Dyn; "conv" := shape [1; 16; 30] ]} in
   ∃ t4, expand_to_tensor_dim (type_at σ "x") 4 = Ok t4
         ∧ (type_at σ "x" = Dyn → t4 = TensorType PyTuple [DDyn; DDyn; DDyn; DDyn])
         ∧ (conv2d_inference_rule n m σ).2 = <["x" := t4]> σ
         ∧ type_at (conv2d_inference_rule n m σ).2 "x" = t4
         ∧ type_at (conv2d_inference_rule n m σ).2 "conv" = type_at σ "conv")
  ∧ (let n := mkNode "conv" call_module (TStr "conv") [ANode "x"] in
     let m := Conv2d 3 16 (mkParams (IntV 0) (IntV 3) (IntV 1) (IntV 1)) in
     let σ : gmap node_id ty := {[ "x" := shape [1; 5; 32; 32]; "conv" := Dyn ]} in
     conv2d_inference_rule n m σ
     = (Raise (TypeError (CannotApply m (shape [1; 5; 32; 32]) Dyn "conv")),
        <["x" := shape [1; 5; 32; 32]]> σ)).
Proof.
  destruct conv2d_failure_mutates_input as [Hany Hchan].
  split.
  - apply (Hany (mkNode "conv" call_module (TStr "conv") [ANode "x"])
             (Conv2d 3 16 (mkParams (IntV 0) (IntV 3) (IntV 1) (IntV 1)))
             "x" {[ "x" := Dyn; "conv" := shape [1; 16; 30] ]}
             _ (TypeError (CannotExtend (shape [1; 16; 30]) 3 4)));
      [reflexivity | discriminate | by left | reflexivity].
  - exact (Hchan (mkNode "conv" call_module (TStr "conv") [ANode "x"])
             (Conv2d 3 16 (mkParams (IntV 0) (IntV 3) (IntV 1) (IntV 1)))
             "x" {[ "x" := shape [1; 5; 32; 32]; "conv" := Dyn ]}
             PyTuple (DInt 1) (DInt 5) (DInt 32) (DInt 32)
             (TensorType PyTuple [DDyn; DDyn; DDyn; DDyn]) 3
             eq_refl ltac:(discriminate) eq_refl eq_refl eq_refl eq_refl).
Defined.

(** ** Operators without a rule *)

Lemma type_check_nodes_app self pre post (σ : gmap node_id ty) :
  type_check_nodes self (pre ++ post) σ
  = match type_check_nodes self pre σ with
    | (Ok _, σ1) => type_check_nodes self post σ1
    | (Raise e, σ1) => (Raise e, σ1)
    end.
Proof.
  revert σ. induction pre as [|n pre IH]; intros σ; [done|].
  cbn [app type_check_nodes]. unfold bind.
  destruct (type_check_node self n σ) as [[t|e] σ1]; [apply IH | done].
Qed.

Lemma type_check_node_no_function_rule self n (σ : gmap node_id ty) :
  op n = call_function →
  lookup_rule _INFERENCE_RULES (KTarget (node_target n)) = None →
  type_check_node self n σ
  = (Raise (RuntimeError (NoRuleForTarget (node_target n))), visited n σ).
Proof.
  intros Hop Hrule. unfold type_check_node, visited. unfold_M.
  rewrite Hop, Hrule. by case_bool_decide.
Qed.

Lemma type_check_node_no_class_rule self n m (σ : gmap node_id ty) :
  op n = call_module →
  getattr (traced self) (node_target n) = Ok m →
  lookup_rule _INFERENCE_RULES (KClass (type_of m)) = None →
  type_check_node self n σ
  = (Raise (RuntimeError (NoRuleForClass (type_of m))), visited n σ).
Proof.
  intros Hop Hm Hrule. unfold type_check_node, visited. unfold_M.
  rewrite Hop, Hm, Hrule. by case_bool_decide.
Qed.

Lemma type_check_aborts self pre n post err :
  graph_nodes (traced self) = pre ++ n :: post →
  (∀ σ, type_check_node self n σ = (Raise err, visited n σ)) →
  (∀ σ, ∃ e σ', type_check self σ = (Raise e, σ'))
  ∧ (∀ σ σ1, type_check_nodes self pre σ = (Ok tt, σ1) →
             type_check self σ = (Raise err, visited n σ1)).
Proof.
  intros Hnodes Hn.
  assert (Hrun : ∀ σ,
    type_check self σ
    = match type_check_nodes self pre σ with
      | (Ok _, σ1) => (Raise err, visited n σ1)
      | (Raise e, σ1) => (Raise e, σ1)
      end).
  { intros σ. unfold type_check. unfold bind.
    rewrite Hnodes, type_check_nodes_app.
    destruct (type_check_nodes self pre σ) as [[u|e] σ1]; [|done].
    cbn [type_check_nodes]. unfold bind. by rewrite Hn. }
  split.
  - intros σ. rewrite Hrun.
    destruct (type_check_nodes self pre σ) as [[u|e] σ1]; eauto.
  - intros σ σ1 Hpre. by rewrite Hrun, Hpre.
Qed.

(** C8. If the graph holds a call-function node whose target has no
    inference rule, or a call-module node whose module's class has none,
    [type_check] raises from every store: it never returns [True]. When
    the nodes before that one type-check, the error is the [RuntimeError]
    for that target or class, raised as the node is visited, and no later
    node is visited: the store is the one the earlier nodes left, with at
    most this node's unset type made dynamic. *)
Theorem unregistered_operator_aborts self pre n post :
  graph_nodes (traced self) = pre ++ n :: post →
  (op n = call_function →
   lookup_rule _INFERENCE_RULES (KTarget (node_target n)) = None →
   (∀ σ, ∃ e σ', type_check self σ = (Raise e, σ'))
   ∧ (∀ σ σ1, type_check_nodes self pre σ = (Ok tt, σ1) →
        type_check self σ
        = (Raise (RuntimeError (NoRuleForTarget (node_target n))), visited n σ1)))
  ∧ (∀ m, op n = call_module →
     getattr (traced self) (node_target n) = Ok m →
     lookup_rule _INFERENCE_RULES (KClass (type_of m)) = None →
     (∀ σ, ∃ e σ', type_check self σ = (Raise e, σ'))
     ∧ (∀ σ σ1, type_check_nodes self pre σ = (Ok tt, σ1) →
          type_check self σ
          = (Raise (RuntimeError (NoRuleForClass (type_of m))), visited n σ1))).
Proof.
  intros Hnodes. split.
  - intros Hop Hrule. apply (type_check_aborts self pre n post _ Hnodes).
    intros σ. by apply type_check_node_no_function_rule.
  - intros m Hop Hm Hrule. apply (type_check_aborts self pre n post _ Hnodes).
    intros σ. by apply type_check_node_no_class_rule.
Qed.

Lemma unregistered_operator_aborts_witness :
  (let x := mkNode "x" placeholder (TStr "x") [] in
   let f := mkNode "flatten" call_function
              (TFun (other_function "torch.flatten")) [ANode "x"] in
   let out := mkNode "output" output (TStr "output") [ANode "flatten"] in
   let self := mkGraphTypeChecker ∅ (mkGraphModule [x; f; out] ∅) in
   type_check self ∅
   = (Raise (RuntimeError (NoRuleForTarget (TFun (other_function "torch.flatten")))),
      {[ "x" := Dyn; "flatten" := Dyn ]}))
  ∧ (let x := mkNode "x" placeholder (TStr "x") [] in
     let d := mkNode "drop" call_module (TStr "drop") [ANode "x"] in
     let out := mkNode "output" output (TStr "output") [ANode "drop"] in
     let self := mkGraphTypeChecker ∅
                   (mkGraphModule [x; d; out] {[ "drop" := OtherModule "Dropout" ]}) in
     type_check self {[ "x" := shape [1; 3] ]}
     = (Raise (RuntimeError (NoRuleForClass (Other_cls "Dropout"))),
        {[ "x" := shape [1; 3]; "drop" := Dyn ]})).
Proof.
  split.
  - intros x f out self.
    destruct (unregistered_operator_aborts self [x] f [out] eq_refl) as [Hf _].
    destruct (Hf eq_refl eq_refl) as [_ Hrun].
    assert (Hpre : type_check_nodes self [x] ∅ = (Ok tt, {[ "x" := Dyn ]}))
      by (vm_compute; reflexivity).
    rewrite (Hrun _ _ Hpre). vm_compute. reflexivity.
  - intros x d out self.
    destruct (unregistered_operator_aborts self [x] d [out] eq_refl) as [_ Hm].
    destruct (Hm (OtherModule "Dropout") eq_refl eq_refl eq_refl) as [_ Hrun].
    assert (Hpre : type_check_nodes self [x] {[ "x" := shape [1; 3] ]}
                   = (Ok tt, {[ "x" := shape [1; 3] ]}))
      by (vm_compute; reflexivity).
    rewrite (Hrun _ _ Hpre). vm_compute. reflexivity.
Defined.

(** ** Addition *)

(** Scalar addition: with the type [int] on one operand and a tensor-shape
    type on the other, the node gets the tensor-shape type and nothing
    else is written. *)
Lemma add_scalar_branch n a0 a1 (σ : gmap node_id ty) k l :
  args n !! 0%nat = Some (ANode a0) →
  args n !! 1%nat = Some (ANode a1) →
  (type_at σ a0 = IntT ∧ type_at σ a1 = TensorType k l)
  ∨ (type_at σ a0 = TensorType k l ∧ type_at σ a1 = IntT) →
  add_inference_rule n σ = (Ok (TensorType k l), <[name n := TensorType k l]> σ).
Proof.
  intros H0 H1 [[E0 E1] | [E0 E1]]; unfold add_inference_rule; unfold_M;
    rewrite H0, H1; cbv beta iota zeta; rewrite E0, E1;
    repeat first [ rewrite bool_decide_eq_true_2 by done
                 | rewrite bool_decide_eq_false_2 by discriminate
                 | progress cbn [andb isinstance_TensorType]
                 | progress cbv beta iota zeta ];
    by rewrite type_at_insert_eq.
Qed.

(** Once the operand types are broadcast and found consistent, the node
    gets the second broadcast type when the first is more precise than it,
    and the first otherwise. *)
Lemma add_rule_choice n a0 a1 (σ : gmap node_id ty) k1 l1 k2 l2 new_t1 new_t2 :
  args n !! 0%nat = Some (ANode a0) →
  args n !! 1%nat = Some (ANode a1) →
  type_at σ a0 = TensorType k1 l1 →
  type_at σ a1 = TensorType k2 l2 →
  broadcast_types (TensorType k1 l1) (TensorType k2 l2) = Ok (new_t1, new_t2) →
  is_consistent new_t1 new_t2 = true →
  let r := add_inference_rule n σ in
  let t := if is_more_precise new_t1 new_t2 then new_t2 else new_t1 in
  r.1 = Ok t ∧ type_at r.2 (name n) = t.
Proof.
  intros Hargs0 Hargs1 H0 H1 Hb Hc r t. subst r t.
  unfold add_inference_rule. unfold_M.
  rewrite Hargs0, Hargs1, H0, H1, Hb.
  rewrite !bool_decide_eq_false_2 by discriminate. cbn [andb].
  rewrite Hc.
  destruct (is_more_precise new_t1 new_t2); cbn [fst snd];
    by rewrite type_at_insert_eq.
Qed.

(** C2, at operands of types (2,3) and (Dyn,3): broadcasting leaves both
    as they are, they are consistent and the first is more precise than
    the second, not the second than the first; the rule sets the node's
    type to the second, (Dyn,3), the less precise of the two. *)
Theorem add_rule_keeps_less_precise :
  let n := mkNode "add" call_function (TFun torch_add) [ANode "x"; ANode "y"] in
  let σ : gmap node_id ty :=
    {[ "x" := shape [2; 3]; "y" := TensorType PyTuple [DDyn; DInt 3] ]} in
  broadcast_types (shape [2; 3]) (TensorType PyTuple [DDyn; DInt 3])
  = Ok (shape [2; 3], TensorType PyTuple [DDyn; DInt 3])
  ∧ is_consistent (shape [2; 3]) (TensorType PyTuple [DDyn; DInt 3]) = true
  ∧ is_more_precise (shape [2; 3]) (TensorType PyTuple [DDyn; DInt 3]) = true
  ∧ is_more_precise (TensorType PyTuple [DDyn; DInt 3]) (shape [2; 3]) = false
  ∧ (add_inference_rule n σ).1 = Ok (TensorType PyTuple [DDyn; DInt 3])
  ∧ type_at (add_inference_rule n σ).2 "add" = TensorType PyTuple [DDyn; DInt 3]
  ∧ type_at (add_inference_rule n σ).2 "add" ≠ shape [2; 3].
Proof.
  intros n σ. repeat split; try (vm_compute; reflexivity).
  vm_compute. discriminate.
Qed.

(** The failing input of C9 in a graph: two placeholders of type (2,3),
    each transposed along dimensions 0 and 1, and the sum of the two
    transposes. The operands of the sum have the same type, held in a
    list, and the check raises from [broadcast_types]. *)
Lemma add_of_transposes_raises :
  let x := mkNode "x" placeholder (TStr "x") [] in
  let y := mkNode "y" placeholder (TStr "y") [] in
  let tx := mkNode "tx" call_function (TFun torch_transpose)
              [ANode "x"; AInt 0; AInt 1] in
  let t_y := mkNode "ty" call_function (TFun torch_transpose)
               [ANode "y"; AInt 0; AInt 1] in
  let add := mkNode "add" call_function (TFun torch_add) [ANode "tx"; ANode "ty"] in
  let self := mkGraphTypeChecker ∅ (mkGraphModule [x; y; tx; t_y; add] ∅) in
  let σ : gmap node_id ty := {[ "x" := shape [2; 3]; "y" := shape [2; 3] ]} in
  (type_check_nodes self [x; y; tx; t_y] σ).1 = Ok tt
  ∧ type_at (type_check_nodes self [x; y; tx; t_y] σ).2 "tx"
    = TensorType PyList [DInt 3; DInt 2]
  ∧ type_at (type_check_nodes self [x; y; tx; t_y] σ).2 "ty"
    = TensorType PyList [DInt 3; DInt 2]
  ∧ (type_check self σ).1 = Raise (TypeError InPlaceShape).
Proof. repeat split; vm_compute; reflexivity. Qed.

(** ** Max-pooling with two tensor-shape types *)

(** With tensor-shape types on the input and on the node, the rule
    transforms both and keeps the input's when it is more precise than the
    node's, the node's otherwise; it compares them in no other way. *)
Lemma maxpool2d_both_tensor n m a0 (σ : gmap node_id ty) k0 l0 kn ln
    new_arg new_node_type :
  args n !! 0%nat = Some (ANode a0) →
  type_at σ a0 = TensorType k0 l0 →
  type_at σ (name n) = TensorType kn ln →
  maxpool2d_check (TensorType k0 l0) m = Ok new_arg →
  maxpool2d_check (TensorType kn ln) m = Ok new_node_type →
  let r := maxpool2d_inference_rule n m σ in
  let t := if is_more_precise new_arg new_node_type then new_arg else new_node_type in
  r.1 = Ok t ∧ type_at r.2 (name n) = t.
Proof.
  intros Hargs H0 Hn Ha Hnt r t. subst r t.
  unfold maxpool2d_inference_rule. unfold_M.
  rewrite Hargs, H0, Hn, Ha, Hnt.
  rewrite !bool_decide_eq_false_2 by discriminate. cbn [andb isinstance_TensorType].
  rewrite type_at_insert_eq.
  destruct (is_more_precise new_arg new_node_type); cbn [fst snd];
    by rewrite type_at_insert_eq.
Qed.

(** C4, at an input of type (1,3,8,8) and a node of type (1,5,8,8) under a
    2x2 pool of stride 2: the pooling formula turns them into (1,3,4,4)
    and (1,5,4,4), which are not consistent; the rule raises nothing and
    sets the node's type to (1,5,4,4). *)
Theorem maxpool2d_accepts_inconsistent :
  let n := mkNode "pool" call_module (TStr "pool") [ANode "x"] in
  let m := MaxPool2d (mkParams (IntV 0) (IntV 2) (IntV 2) (IntV 1)) in
  let σ : gmap node_id ty :=
    {[ "x" := shape [1; 3; 8; 8]; "pool" := shape [1; 5; 8; 8] ]} in
  maxpool2d_check (shape [1; 3; 8; 8]) m = Ok (shape [1; 3; 4; 4])
  ∧ maxpool2d_check (shape [1; 5; 8; 8]) m = Ok (shape [1; 5; 4; 4])
  ∧ is_consistent (shape [1; 3; 4; 4]) (shape [1; 5; 4; 4]) = false
  ∧ (maxpool2d_inference_rule n m σ).1 = Ok (shape [1; 5; 4; 4])
  ∧ type_at (maxpool2d_inference_rule n m σ).2 "pool" = shape [1; 5; 4; 4].
Proof. intros n m σ. repeat split; vm_compute; reflexivity. Qed.

(** ** Adaptive average pooling *)

(** A scalar output size goes to both axes, a missing height is taken
    from the width, and a pair of two sizes is used as it is. *)
Lemma adaptiveavgpool2d_check_rank4 k b c h w o :
  adaptiveavgpool2d_check (TensorType k [b; c; h; w]) (AdaptiveAvgPool2d o)
  = Ok (TensorType PyTuple
          match o with
          | OInt z => [b; c; DInt z; DInt z]
          | OTuple None w' => [b; c; dim_of_size w'; dim_of_size w']
          | OTuple (Some h') w' => [b; c; DInt h'; dim_of_size w']
          end).
Proof. destruct o as [z|[h'|] [w'|]]; reflexivity. Qed.

(** C6, at a type (1,3,8,8) and the output size (5, None): the last two
    dimensions become 5 and [None]; the missing width is not taken from
    the height, and the result is not (1,3,5,5). *)
Theorem adaptiveavgpool2d_missing_width :
  adaptiveavgpool2d_check (shape [1; 3; 8; 8]) (AdaptiveAvgPool2d (OTuple (Some 5) None))
  = Ok (TensorType PyTuple [DInt 1; DInt 3; DInt 5; DNone])
  ∧ adaptiveavgpool2d_check (shape [1; 3; 8; 8]) (AdaptiveAvgPool2d (OTuple (Some 5) None))
    ≠ Ok (shape [1; 3; 5; 5])
  ∧ adaptiveavgpool2d_check (shape [1; 3; 8; 8]) (AdaptiveAvgPool2d (OTuple None (Some 5)))
    = Ok (shape [1; 3; 5; 5]).
Proof. repeat split; try (vm_compute; reflexivity). vm_compute. discriminate. Qed.

(** ** Reshaping *)

Lemma reduce_from_ints x (l : list Z) :
  reduce_from (Some x) (Some <$> l) = Ok (Some (x * product l)).
Proof.
  revert x. induction l as [|y l IH]; intros x; cbn.
  - by rewrite Z.mul_1_r.
  - rewrite IH. by rewrite Z.mul_assoc.
Qed.

Lemma reduce_mul_ints (l : list Z) :
  l ≠ [] → reduce_mul (Some <$> l) = Ok (Some (product l)).
Proof.
  destruct l as [|x l]; [done|]. intros _. cbn [fmap list_fmap reduce_mul].
  apply reduce_from_ints.
Qed.

Lemma target_type_no_wildcard (t2 : list Z) :
  -1 ∉ t2 → target_type t2 = TensorType PyList (DInt <$> t2).
Proof.
  unfold target_type. intros Hno. f_equal.
  induction t2 as [|x t2 IH]; [done|].
  cbn [fmap list_fmap]. rewrite not_elem_of_cons in Hno. destruct Hno as [Hx Hno].
  rewrite bool_decide_eq_false_2 by congruence. f_equal. by apply IH.
Qed.

Lemma shape_no_Dyn (l : list Z) : DDyn ∉ DInt <$> l.
Proof. intros (z & Hz & _)%list_elem_of_fmap. discriminate. Qed.

Lemma operands_of_shape (l : list Z) :
  operand_of_dim <$> (DInt <$> l) = Some <$> l.
Proof. by rewrite <- list_fmap_compose. Qed.

(** Known source, no wildcard: the products must be equal. The target
    type is built from a list. *)
Lemma reshape_all_known n a0 (σ : gmap node_id ty) k l1 t2 :
  args n !! 0%nat = Some (ANode a0) →
  args n !! 1%nat = Some (AList t2) →
  type_at σ a0 = TensorType k (DInt <$> l1) →
  l1 ≠ [] → t2 ≠ [] → -1 ∉ t2 →
  reshape_inference_rule n σ
  = if bool_decide (product l1 = product t2)
    then (Ok (TensorType PyList (DInt <$> t2)),
          <[name n := TensorType PyList (DInt <$> t2)]> σ)
    else (Raise (TypeError (CannotReshape (name n) (TensorType k (DInt <$> l1))
                              (TensorType PyList (DInt <$> t2)))), σ).
Proof.
  intros Hargs0 Hargs1 H0 Hl1 Ht2 Hno.
  unfold reshape_inference_rule. unfold_M. rewrite Hargs0, Hargs1, H0.
  fold (target_type t2). rewrite (target_type_no_wildcard _ Hno).
  rewrite bool_decide_eq_false_2 by discriminate.
  cbv iota beta.
  rewrite (bool_decide_eq_false_2 (DDyn ∈ _)) by apply shape_no_Dyn.
  rewrite (bool_decide_eq_false_2 (-1 ∈ t2)) by done. cbn [orb].
  rewrite operands_of_shape, !reduce_mul_ints by done.
  repeat case_bool_decide; simplify_eq; congruence.
Qed.

Lemma operands_of_dims (a1 : list dim) :
  DNone ∉ a1 →
  operand_of_dim <$> ((λ e, if bool_decide (e ≠ DDyn) then e else DInt 1) <$> a1)
  = Some <$> (known_size <$> a1).
Proof.
  induction a1 as [|d a1 IH]; [done|].
  rewrite not_elem_of_cons. intros [Hd Hrest]. cbn [fmap list_fmap].
  f_equal; [|by apply IH].
  destruct d; [done | done | congruence].
Qed.

(** A dynamic dimension in the source or a wildcard in the target: one
    product has to divide the other, provided the product of the target
    list is not 0. *)
Lemma reshape_some_unknown n a0 (σ : gmap node_id ty) k a1 t2 :
  args n !! 0%nat = Some (ANode a0) →
  args n !! 1%nat = Some (AList t2) →
  type_at σ a0 = TensorType k a1 →
  a1 ≠ [] → t2 ≠ [] → DNone ∉ a1 →
  DDyn ∈ a1 ∨ -1 ∈ t2 →
  product t2 ≠ 0 →
  let p1 := product (known_size <$> a1) in
  let p2 := product t2 in
  ((p2 | p1) ∨ (p1 | p2) →
   reshape_inference_rule n σ
   = (Ok (target_type t2), <[name n := target_type t2]> σ))
  ∧ (¬ ((p2 | p1) ∨ (p1 | p2)) →
     reshape_inference_rule n σ
     = (Raise (TypeError (CannotReshape (name n) (TensorType k a1) (target_type t2))),
        σ)).
Proof.
  intros Hargs0 Hargs1 H0 Ha1 Ht2 Hnone Hunk Hp2 p1 p2.
  assert (Hrun : reshape_inference_rule n σ
    = if (p1 mod p2 =? 0) || (p2 mod p1 =? 0)
      then (Ok (target_type t2), <[name n := target_type t2]> σ)
      else (Raise (TypeError (CannotReshape (name n) (TensorType k a1)
                                (target_type t2))),
            σ)).
  { unfold reshape_inference_rule. unfold_M. rewrite Hargs0, Hargs1, H0.
    fold (target_type t2).
    rewrite bool_decide_eq_false_2 by discriminate.
    assert (Hcond : bool_decide (DDyn ∈ a1) || bool_decide (-1 ∈ t2) = true).
    { destruct Hunk as [H|H];
        [rewrite (bool_decide_eq_true_2 _ H) | rewrite (bool_decide_eq_true_2 _ H)];
        [done | apply orb_true_r]. }
    rewrite Hcond.
    assert (Hk : known_size <$> a1 ≠ []) by (by destruct a1).
    rewrite (operands_of_dims _ Hnone), (reduce_mul_ints _ Hk),
      (reduce_mul_ints _ Ht2).
    fold p1 p2. cbn [py_mod].
    rewrite (proj2 (Z.eqb_neq p2 0) Hp2).
    destruct (Z.eqb_spec (p1 mod p2) 0) as [Hr1|Hr1]; [done|].
    assert (Hp1 : p1 ≠ 0) by (intros E; apply Hr1; rewrite E; apply Zmod_0_l).
    rewrite (proj2 (Z.eqb_neq p1 0) Hp1). cbn [orb].
    by destruct (p2 mod p1 =? 0). }
  rewrite Hrun.
  destruct (Z.eqb_spec (p1 mod p2) 0) as [Hr1|Hr1].
  - split; [done|]. intros Hno. destruct Hno. left. by apply Z.mod_divide.
  - cbn [orb]. destruct (Z.eqb_spec (p2 mod p1) 0) as [Hr2|Hr2].
    + split; [done|]. intros Hno. destruct Hno. right.
      apply Z.mod_divide; [|done]. intros E. apply Hr1. rewrite E. apply Zmod_0_l.
    + split; [|done]. intros [Hd|Hd].
      * destruct Hr1. by apply Z.mod_divide.
      * destruct Hr2. apply Z.mod_divide; [|done].
        intros E. apply Hr1. rewrite E. apply Zmod_0_l.
Qed.

(** C5, at a source of type (Dyn,4) and the target [0, 4]: the known sizes
    multiply to 4 on the source side and to 0 on the target side, and 4
    divides 0; the rule neither succeeds nor raises its own error, it
    raises [ZeroDivisionError] from [p1 % p2], and sets no type. The two
    examples of the claim hold: (2,3,4) reshapes to (6,4), and to (5,5)
    it raises the rule's [TypeError]. *)
Theorem reshape_zero_product_target :
  let src : node_id := "x" in
  let n t2 := mkNode "reshape" call_function (TFun torch_reshape)
                [ANode src; AList t2] in
  (product (known_size <$> [DDyn; DInt 4]) | product [0; 4])
  ∧ reshape_inference_rule (n [0; 4]) {[ src := TensorType PyTuple [DDyn; DInt 4] ]}
    = (Raise ZeroDivisionError, {[ src := TensorType PyTuple [DDyn; DInt 4] ]})
  ∧ reshape_inference_rule (n [6; 4]) {[ src := shape [2; 3; 4] ]}
    = (Ok (target_type [6; 4]),
       <["reshape" := target_type [6; 4]]> {[ src := shape [2; 3; 4] ]})
  ∧ target_type [6; 4] = TensorType PyList [DInt 6; DInt 4]
  ∧ reshape_inference_rule (n [5; 5]) {[ src := shape [2; 3; 4] ]}
    = (Raise (TypeError (CannotReshape "reshape" (shape [2; 3; 4]) (target_type [5; 5]))),
       {[ src := shape [2; 3; 4] ]}).
Proof.
  intros src n. split; [by exists 0|].
  repeat split; vm_compute; reflexivity.
Qed.

(** ** Refinement of the annotation *)

Lemma same_type_refl t : same_type t t = true.
Proof. destruct t; cbn; by rewrite bool_decide_eq_true_2. Qed.

Lemma same_type_sym t1 t2 : same_type t1 t2 = same_type t2 t1.
Proof.
  destruct t1, t2; cbn; try done; apply bool_decide_ext; split; congruence.
Qed.

Lemma at_least_as_precise_Dyn t :
  t = Dyn ∨ isinstance_TensorType t = true → at_least_as_precise t Dyn = true.
Proof. intros [-> | Ht]; [done | by destruct t]. Qed.

Lemma more_precise_of_at_least c1 c2 :
  at_least_as_precise c1 c2 || at_least_as_precise c2 c1 = true →
  at_least_as_precise (more_precise_of c1 c2) c1 = true
  ∧ at_least_as_precise (more_precise_of c1 c2) c2 = true.
Proof.
  unfold at_least_as_precise, more_precise_of. intros Hcmp.
  destruct (is_more_precise c1 c2) eqn:H12.
  - rewrite H12, same_type_refl. split; [apply orb_true_r | done].
  - rewrite same_type_refl. split; [|apply orb_true_r].
    cbn [orb] in Hcmp. apply orb_true_iff in Hcmp as [Heq|Hcmp]; [|done].
    rewrite same_type_sym, Heq. apply orb_true_r.
Qed.

Lemma relu_result n m a0 (σ σ' : gmap node_id ty) t :
  args n !! 0%nat = Some (ANode a0) →
  relu_inference_rule n m σ = (Ok t, σ') →
  is_consistent (type_at σ a0) (type_at σ (name n)) = true
  ∧ t = more_precise_of (type_at σ a0) (type_at σ (name n))
  ∧ type_at σ' (name n) = t.
Proof.
  intros Hargs. unfold relu_inference_rule, more_precise_of. unfold_M.
  rewrite Hargs.
  destruct (is_consistent _ _); [|done].
  destruct (is_more_precise _ _); intros [= <- <-];
    by rewrite ?type_at_insert_eq.
Qed.

Lemma bn2d_result n m a0 (σ σ' : gmap node_id ty) t :
  args n !! 0%nat = Some (ANode a0) →
  a0 ≠ name n →
  bn2d_inference_rule n m σ = (Ok t, σ') →
  ∃ arg4 ann4,
    expand_to_tensor_dim (type_at σ a0) 4 = Ok arg4
    ∧ expand_to_tensor_dim (type_at σ (name n)) 4 = Ok ann4
    ∧ is_consistent arg4 ann4 = true
    ∧ t = more_precise_of arg4 ann4
    ∧ type_at σ' (name n) = t.
Proof.
  intros Hargs Hne. unfold bn2d_inference_rule, more_precise_of. unfold_M.
  rewrite Hargs.
  destruct (expand_to_tensor_dim (type_at σ a0) 4) as [arg4|] eqn:E0; [|done].
  rewrite type_at_insert_eq, (type_at_insert_ne _ _ _ _ Hne).
  destruct (expand_to_tensor_dim (type_at σ (name n)) 4) as [ann4|] eqn:En; [|done].
  intros Hrun. exists arg4, ann4. split; [done|]. split; [done|].
  repeat (case_match; simplify_eq; try done).
  all: rewrite ?type_at_insert_eq in *.
  all: first [done | congruence].
Qed.

Lemma gub_dim_at_least d1 d2 :
  d1 ≠ DNone → d2 ≠ DNone →
  is_consistent_dim d1 d2 = true →
  let d := if is_more_precise_dim d1 d2 then d1 else d2 in
  at_least_as_precise_dim d d1 = true ∧ at_least_as_precise_dim d d2 = true.
Proof.
  unfold at_least_as_precise_dim.
  destruct d1 as [|x|], d2 as [|y|]; try done; cbn.
  - intros _ _ _. by rewrite (bool_decide_eq_true_2 (y = y)).
  - intros _ _ _. by rewrite (bool_decide_eq_true_2 (x = x)).
  - intros _ _ Heq%bool_decide_eq_true. simplify_eq.
    rewrite (bool_decide_eq_true_2 (y = y)) by done. cbn.
    by rewrite (bool_decide_eq_true_2 (y = y)).
Qed.

Lemma gub_at_least k1 l1 k2 l2 t :
  DNone ∉ l1 → DNone ∉ l2 →
  is_consistent (TensorType k1 l1) (TensorType k2 l2) = true →
  get_greatest_upper_bound (TensorType k1 l1) (TensorType k2 l2) = Ok t →
  ∃ l, t = TensorType PyTuple l
       ∧ length l = length l1
       ∧ ∀ i d d1 d2,
           l !! i = Some d → l1 !! i = Some d1 → l2 !! i = Some d2 →
           at_least_as_precise_dim d d1 = true
           ∧ at_least_as_precise_dim d d2 = true.
Proof.
  intros Hn1 Hn2 Hcons. unfold get_greatest_upper_bound.
  rewrite !bool_decide_eq_false_2 by discriminate.
  cbn [is_consistent] in Hcons. apply andb_true_iff in Hcons as [Hlen Hall].
  apply bool_decide_eq_true in Hlen. rewrite bool_decide_eq_true_2 by done.
  intros [= <-]. eexists. split; [done|]. split.
  { rewrite length_fmap, length_zip_with. lia. }
  intros i d d1 d2 Hd H1 H2.
  rewrite list_lookup_fmap in Hd.
  assert (Hz : zip l1 l2 !! i = Some (d1, d2)).
  { apply lookup_zip_with_Some. eauto. }
  rewrite Hz in Hd. cbn in Hd. injection Hd as <-.
  apply gub_dim_at_least.
  - intros ->. apply Hn1. by eapply list_elem_of_lookup_2.
  - intros ->. apply Hn2. by eapply list_elem_of_lookup_2.
  - apply Is_true_true_2, forallb_True in Hall.
    rewrite Forall_lookup in Hall. apply Is_true_true_1.
    apply (Hall i (d1, d2) Hz).
Qed.

Lemma expand_to_tensor_dim_rank4 t t4 :
  expand_to_tensor_dim t 4 = Ok t4 →
  ∃ k b c h w, t4 = TensorType k [b; c; h; w]
               ∧ (well_formed t → well_formed t4).
Proof.
  destruct t as [| | |k l]; try done; cbn.
  - intros [= <-]. eexists _, _, _, _, _. split; [done|]. intros _.
    cbn. rewrite !not_elem_of_cons. repeat split; try done. apply not_elem_of_nil.
  - case_bool_decide as Hlen; [done|]. intros [= <-].
    assert (length l = 4%nat) as Hl by (destruct (decide (length l = 4%nat)); done).
    destruct l as [|b [|c [|h [|w [|? ?]]]]]; try done.
    by eexists _, _, _, _, _.
Qed.

Lemma calculate_not_None d m index r :
  d ≠ DNone → calculate d m index = Ok r → r ≠ DNone.
Proof.
  unfold calculate. intros Hd.
  destruct (get_conv_params m); [|done]. cbn [rbind].
  destruct d; [by intros [= <-] | | done].
  intros Hrun.
  repeat match type of Hrun with
         | rbind ?x _ = _ => destruct x; cbn [rbind] in Hrun; [|done]
         end.
  by injection Hrun as <-.
Qed.

Lemma conv2d_result n m a0 (σ σ' : gmap node_id ty) t :
  args n !! 0%nat = Some (ANode a0) →
  a0 ≠ name n →
  conv2d_inference_rule n m σ = (Ok t, σ') →
  ∃ k b c h w oc h_out w_out ann4,
    expand_to_tensor_dim (type_at σ a0) 4 = Ok (TensorType k [b; c; h; w])
    ∧ expand_to_tensor_dim (type_at σ (name n)) 4 = Ok ann4
    ∧ get_out_channels m = Ok oc
    ∧ calculate h m 0 = Ok h_out
    ∧ calculate w m 1 = Ok w_out
    ∧ is_consistent (TensorType PyTuple [b; DInt oc; h_out; w_out]) ann4 = true
    ∧ get_greatest_upper_bound (TensorType PyTuple [b; DInt oc; h_out; w_out]) ann4
      = Ok t
    ∧ type_at σ' (name n) = t.
Proof.
  intros Hargs Hne. unfold conv2d_inference_rule. unfold_M. rewrite Hargs.
  destruct (expand_to_tensor_dim (type_at σ a0) 4) as [arg4|] eqn:E0; [|done].
  destruct (expand_to_tensor_dim_rank4 _ _ E0) as (k & b & c & h & w & -> & _).
  rewrite type_at_insert_eq, (type_at_insert_ne _ _ _ _ Hne).
  destruct (expand_to_tensor_dim (type_at σ (name n)) 4) as [ann4|] eqn:En; [|done].
  cbn [args_of].
  change (getitem [b; c; h; w] 0) with (Ok b).
  change (getitem [b; c; h; w] 1) with (Ok c).
  change (getitem [b; c; h; w] 2) with (Ok h).
  change (getitem [b; c; h; w] 3) with (Ok w).
  destruct (get_in_channels m) as [ic|]; [|done].
  destruct (is_consistent_dim c (DInt ic)); [|done].
  destruct (calculate h m 0) as [h_out|] eqn:Hh; [|done].
  destruct (calculate w m 1) as [w_out|] eqn:Hw; [|done].
  destruct (get_out_channels m) as [oc|] eqn:Hoc; [|done].
  destruct (is_consistent (TensorType PyTuple [b; DInt oc; h_out; w_out]) ann4) eqn:Hc;
    [|done].
  cbn [negb].
  destruct (get_greatest_upper_bound _ ann4) as [gub|] eqn:Hgub; [|done].
  intros [= <- <-]. rewrite type_at_insert_eq.
  exists k, b, c, h, w, oc, h_out, w_out, ann4. repeat split; done.
Qed.

Lemma conv2d_refines n m a0 (σ σ' : gmap node_id ty) t :
  args n !! 0%nat = Some (ANode a0) →
  a0 ≠ name n →
  well_formed (type_at σ a0) →
  well_formed (type_at σ (name n)) →
  conv2d_inference_rule n m σ = (Ok t, σ') →
  ∃ k b c h w oc h_out w_out kn annotation dims,
    expand_to_tensor_dim (type_at σ a0) 4 = Ok (TensorType k [b; c; h; w])
    ∧ get_out_channels m = Ok oc
    ∧ calculate h m 0 = Ok h_out
    ∧ calculate w m 1 = Ok w_out
    ∧ expand_to_tensor_dim (type_at σ (name n)) 4 = Ok (TensorType kn annotation)
    ∧ is_consistent (TensorType PyTuple [b; DInt oc; h_out; w_out])
        (TensorType kn annotation) = true
    ∧ type_at σ' (name n) = TensorType PyTuple dims
    ∧ length dims = 4%nat
    ∧ ∀ i d d1 d2,
        dims !! i = Some d →
        [b; DInt oc; h_out; w_out] !! i = Some d1 →
        annotation !! i = Some d2 →
        at_least_as_precise_dim d d1 = true
        ∧ at_least_as_precise_dim d d2 = true.
Proof.
  intros Hargs Hne Hwf0 Hwfn Hrun.
  destruct (conv2d_result n m a0 σ σ' t Hargs Hne Hrun)
    as (k & b & c & h & w & oc & h_out & w_out & ann4
        & E0 & En & Hoc & Hh & Hw & Hc & Hgub & Ht).
  destruct (expand_to_tensor_dim_rank4 _ _ E0) as (? & ? & ? & ? & ? & _ & Hwf0').
  destruct (expand_to_tensor_dim_rank4 _ _ En)
    as (kn & b' & c' & h' & w' & -> & Hwfn').
  specialize (Hwf0' Hwf0). specialize (Hwfn' Hwfn). cbn [well_formed] in Hwf0', Hwfn'.
  rewrite !not_elem_of_cons in Hwf0'. destruct Hwf0' as (Hb & _ & Hh' & Hw' & _).
  assert (Hnew : DNone ∉ [b; DInt oc; h_out; w_out]).
  { rewrite !not_elem_of_cons. repeat split; try done.
    - intros E. by apply (calculate_not_None h m 0 h_out).
    - intros E. by apply (calculate_not_None w m 1 w_out).
    - apply not_elem_of_nil. }
  destruct (gub_at_least _ _ _ _ _ Hnew Hwfn' Hc Hgub) as (dims & -> & Hlen & Hdims).
  exists k, b, c, h, w, oc, h_out, w_out, kn, [b'; c'; h'; w'], dims.
  repeat (split; [done|]). exact Hdims.
Qed.

Lemma chosen_between_more_precise_of c1 c2 :
  chosen_between (more_precise_of c1 c2) c1 c2.
Proof.
  split; [done|]. intros Hcmp.
  by destruct (more_precise_of_at_least _ _ Hcmp).
Qed.

Lemma maxpool2d_check_isinstance t m r :
  maxpool2d_check t m = Ok r → isinstance_TensorType r = true.
Proof.
  unfold maxpool2d_check. intros Hrun.
  by repeat (case_match || match type of Hrun with
                           | rbind ?x _ = _ => destruct x; cbn [rbind] in Hrun
                           end; simplify_eq; try done).
Qed.

Lemma linear_check_isinstance t m r :
  linear_check t m = Ok r → isinstance_TensorType r = true.
Proof.
  unfold linear_check. intros Hrun.
  by repeat (case_match || match type of Hrun with
                           | rbind ?x _ = _ => destruct x; cbn [rbind] in Hrun
                           end; simplify_eq; try done).
Qed.

Lemma adaptiveavgpool2d_check_isinstance t m r :
  adaptiveavgpool2d_check t m = Ok r → isinstance_TensorType r = true.
Proof.
  unfold adaptiveavgpool2d_check. intros Hrun.
  by repeat (case_match || match type of Hrun with
                           | rbind ?x _ = _ => destruct x; cbn [rbind] in Hrun
                           end; simplify_eq; try done).
Qed.

(** The candidates of a rule that runs to completion: each is the dynamic
    type or a tensor-shape type, so the two compare as soon as one of them
    is dynamic. *)
Lemma candidate_tensor check t m r :
  (∀ t' r', check t' m = Ok r' → isinstance_TensorType r' = true) →
  candidate check t m = Ok r →
  (t = Dyn ∧ r = Dyn) ∨ (t ≠ Dyn ∧ isinstance_TensorType r = true).
Proof.
  intros Hcheck. unfold candidate. case_bool_decide as Ht.
  - intros [= <-]. by left.
  - intros Hr. right. split; [done|]. by eapply Hcheck.
Qed.

Lemma candidates_comparable check m t0 tn fi fa :
  (∀ t' r', check t' m = Ok r' → isinstance_TensorType r' = true) →
  candidate check t0 m = Ok fi →
  candidate check tn m = Ok fa →
  t0 = Dyn ∨ tn = Dyn →
  at_least_as_precise fi fa || at_least_as_precise fa fi = true.
Proof.
  intros Hcheck H0 Hn Hdyn.
  destruct (candidate_tensor _ _ _ _ Hcheck H0) as [[-> ->]|[Hne0 Hfi]];
    destruct (candidate_tensor _ _ _ _ Hcheck Hn) as [[-> ->]|[Hnen Hfa]].
  - done.
  - rewrite (at_least_as_precise_Dyn fa) by (by right). apply orb_true_r.
  - by rewrite (at_least_as_precise_Dyn fi) by (by right).
  - by destruct Hdyn.
Qed.

Lemma more_precise_of_candidates check m t0 tn fi fa :
  (∀ t' r', check t' m = Ok r' → isinstance_TensorType r' = true) →
  candidate check t0 m = Ok fi →
  candidate check tn m = Ok fa →
  (tn = Dyn → more_precise_of fi fa = fi ∧ at_least_as_precise fi tn = true)
  ∧ (t0 = Dyn → more_precise_of fi fa = fa).
Proof.
  intros Hcheck H0 Hn. split.
  - intros ->. injection Hn as <-. unfold more_precise_of.
    destruct (candidate_tensor _ _ _ _ Hcheck H0) as [[-> ->]|[_ Hfi]]; [done|].
    split; [by destruct fi | apply at_least_as_precise_Dyn; by right].
  - intros ->. injection H0 as <-. by unfold more_precise_of.
Qed.

Lemma maxpool2d_result n m a0 (σ σ' : gmap node_id ty) t :
  args n !! 0%nat = Some (ANode a0) →
  maxpool2d_inference_rule n m σ = (Ok t, σ') →
  ∃ from_input from_annotation,
    candidate maxpool2d_check (type_at σ a0) m = Ok from_input
    ∧ candidate maxpool2d_check (type_at σ (name n)) m = Ok from_annotation
    ∧ type_at σ' (name n) = more_precise_of from_input from_annotation.
Proof.
  intros Hargs. unfold maxpool2d_inference_rule, candidate, more_precise_of.
  unfold_M. rewrite Hargs. cbv beta iota zeta.
  destruct (type_at σ a0) as [| | |k0 l0] eqn:E0;
    destruct (type_at σ (name n)) as [| | |kn ln] eqn:En;
    repeat (case_bool_decide; simplify_eq); cbn [andb isinstance_TensorType];
    try done.
  - intros [= <- <-]. exists Dyn, Dyn. by rewrite En.
  - destruct (maxpool2d_check (TensorType kn ln) m) as [r|]; [|done].
    intros [= <- <-]. exists Dyn, r. by rewrite !type_at_insert_eq.
  - destruct (maxpool2d_check (TensorType k0 l0) m) as [r|] eqn:Er; [|done].
    intros [= <- <-]. exists r, Dyn. rewrite !type_at_insert_eq.
    apply maxpool2d_check_isinstance in Er. by destruct r.
  - destruct (maxpool2d_check (TensorType k0 l0) m) as [fi|]; [|done].
    destruct (maxpool2d_check (TensorType kn ln) m) as [fa|]; [|done].
    cbv beta iota zeta. rewrite type_at_insert_eq. exists fi, fa.
    repeat (split; [done|]).
    destruct (is_more_precise fi fa); simplify_eq; by rewrite !type_at_insert_eq.
Qed.

Lemma linear_result n m a0 (σ σ' : gmap node_id ty) t :
  args n !! 0%nat = Some (ANode a0) →
  linear_inference_rule n m σ = (Ok t, σ') →
  ∃ from_input from_annotation,
    is_consistent (type_at σ a0) (type_at σ (name n)) = true
    ∧ candidate linear_check (type_at σ a0) m = Ok from_input
    ∧ candidate linear_check (type_at σ (name n)) m = Ok from_annotation
    ∧ type_at σ' (name n) = more_precise_of from_input from_annotation.
Proof.
  intros Hargs. unfold linear_inference_rule, candidate, more_precise_of.
  unfold_M. rewrite Hargs. cbv beta iota zeta.
  destruct (type_at σ a0) as [| | |k0 l0] eqn:E0;
    destruct (type_at σ (name n)) as [| | |kn ln] eqn:En;
    repeat (case_bool_decide; simplify_eq); cbn [andb isinstance_TensorType];
    try done.
  - intros [= <- <-]. exists Dyn, Dyn. by rewrite En.
  - destruct (linear_check (TensorType kn ln) m) as [r|]; [|done].
    intros [= <- <-]. exists Dyn, r. by rewrite !type_at_insert_eq.
  - destruct (linear_check (TensorType k0 l0) m) as [r|] eqn:Er; [|done].
    intros [= <- <-]. exists r, Dyn. rewrite !type_at_insert_eq.
    apply linear_check_isinstance in Er. by destruct r.
  - destruct (is_consistent (TensorType k0 l0) (TensorType kn ln)); [|done].
    destruct (linear_check (TensorType k0 l0) m) as [fi|]; [|done].
    destruct (linear_check (TensorType kn ln) m) as [fa|]; [|done].
    cbv beta iota zeta. rewrite type_at_insert_eq. exists fi, fa.
    repeat (split; [done|]).
    destruct (is_more_precise fi fa); simplify_eq; by rewrite !type_at_insert_eq.
Qed.

Lemma adaptiveavgpool2d_result n m a0 (σ σ' : gmap node_id ty) t :
  args n !! 0%nat = Some (ANode a0) →
  adaptiveavgpool2d_inference_rule n m σ = (Ok t, σ') →
  ∃ from_input from_annotation,
    is_consistent (type_at σ a0) (type_at σ (name n)) = true
    ∧ candidate adaptiveavgpool2d_check (type_at σ a0) m = Ok from_input
    ∧ candidate adaptiveavgpool2d_check (type_at σ (name n)) m = Ok from_annotation
    ∧ type_at σ' (name n) = more_precise_of from_input from_annotation.
Proof.
  intros Hargs.
  unfold adaptiveavgpool2d_inference_rule, candidate, more_precise_of.
  unfold_M. rewrite Hargs. cbv beta iota zeta.
  destruct (type_at σ a0) as [| | |k0 l0] eqn:E0;
    destruct (type_at σ (name n)) as [| | |kn ln] eqn:En;
    repeat (case_bool_decide; simplify_eq); cbn [andb isinstance_TensorType];
    try done.
  - intros [= <- <-]. exists Dyn, Dyn. by rewrite En.
  - destruct (adaptiveavgpool2d_check (TensorType kn ln) m) as [r|]; [|done].
    intros [= <- <-]. exists Dyn, r. by rewrite !type_at_insert_eq.
  - destruct (adaptiveavgpool2d_check (TensorType k0 l0) m) as [r|] eqn:Er; [|done].
    intros [= <- <-]. exists r, Dyn. rewrite !type_at_insert_eq.
    apply adaptiveavgpool2d_check_isinstance in Er. by destruct r.
  - destruct (is_consistent (TensorType k0 l0) (TensorType kn ln)); [|done].
    destruct (adaptiveavgpool2d_check (TensorType k0 l0) m) as [fi|]; [|done].
    destruct (adaptiveavgpool2d_check (TensorType kn ln) m) as [fa|]; [|done].
    cbv beta iota zeta. rewrite type_at_insert_eq. exists fi, fa.
    repeat (split; [done|]).
    destruct (is_more_precise fi fa); simplify_eq; by rewrite !type_at_insert_eq.
Qed.

(** Transpose and reshape set the node's type to what they return, a
    tensor-shape type or, for a transpose of a dynamic input, the dynamic
    type; the node's annotation is not read. *)
Lemma transpose_completes n a0 (σ σ' : gmap node_id ty) t :
  node_target n = TFun torch_transpose →
  args n !! 0%nat = Some (ANode a0) →
  transpose_inference_rule n σ = (Ok t, σ') →
  type_at σ' (name n) = t ∧ (t = Dyn ∨ isinstance_TensorType t = true).
Proof.
  intros Htgt Hargs. unfold transpose_inference_rule. unfold_M.
  rewrite Htgt, Hargs, bool_decide_eq_true_2 by done. cbv beta iota zeta.
  run_rule; rewrite !type_at_insert_eq; split; first [done | by left | by right].
Qed.

Lemma reshape_completes n a0 (σ σ' : gmap node_id ty) t :
  args n !! 0%nat = Some (ANode a0) →
  reshape_inference_rule n σ = (Ok t, σ') →
  type_at σ' (name n) = t ∧ isinstance_TensorType t = true.
Proof.
  intros Hargs. unfold reshape_inference_rule. unfold_M.
  rewrite Hargs. cbv beta iota zeta.
  run_rule; by rewrite !type_at_insert_eq.
Qed.

(** The outcome of a transpose or a reshape is the same whatever the
    node's annotation was. *)
Lemma transpose_ignores_annotation n a0 (σ σ' : gmap node_id ty) t v :
  node_target n = TFun torch_transpose →
  args n !! 0%nat = Some (ANode a0) →
  a0 ≠ name n →
  transpose_inference_rule n σ = (Ok t, σ') →
  transpose_inference_rule n (<[name n := v]> σ) = (Ok t, σ').
Proof.
  intros Htgt Hargs Hne. unfold transpose_inference_rule. unfold_M.
  rewrite Htgt, Hargs, bool_decide_eq_true_2 by done. cbv beta iota zeta.
  rewrite (type_at_insert_ne _ (name n) a0) by done.
  run_rule; by rewrite !type_at_insert_eq, insert_insert_eq.
Qed.

Lemma reshape_ignores_annotation n a0 (σ σ' : gmap node_id ty) t v :
  args n !! 0%nat = Some (ANode a0) →
  a0 ≠ name n →
  reshape_inference_rule n σ = (Ok t, σ') →
  reshape_inference_rule n (<[name n := v]> σ) = (Ok t, σ').
Proof.
  intros Hargs Hne. unfold reshape_inference_rule. unfold_M.
  rewrite Hargs. cbv beta iota zeta.
  rewrite (type_at_insert_ne _ (name n) a0) by done.
  run_rule; by rewrite ?insert_insert_eq.
Qed.

(** C1, as the code has it. When the rule of a rectified-linear or of a
    batch-norm node runs to completion, the input node's type and the
    node's prior annotation (for batch-norm, both expanded to rank 4) are
    consistent, and the node's type afterwards is the former if it is more
    precise than the latter and the latter otherwise; so it is at least as
    precise as both as soon as one of the two is at least as precise as
    the other. When the rule of a max-pool, linear or adaptive-average-pool
    node runs to completion, in any of its branches, the node's type
    afterwards is chosen in that way between two candidates: what the
    rule's check makes of the input's type and what it makes of the
    annotation, a dynamic type being its own candidate. It is at least as
    precise as both candidates when the input's type or the annotation is
    dynamic; with a dynamic annotation it is the input's candidate, at
    least as precise as the annotation, and with a dynamic input it is the
    annotation's candidate. The linear and the adaptive-average-pool rule
    complete only on an input type and an annotation that are consistent.
    When the rule of a convolution node runs to completion, on types whose
    dimensions are integers or dynamic, the node's type afterwards has
    rank 4 and each of its dimensions is at least as precise as the one of
    the candidate output shape and the one of the rank-4 annotation. When
    the rule of a transpose or of a reshape node runs to completion, the
    node's type afterwards is the type the rule returns, the same whatever
    the annotation was, and at least as precise as the annotation when the
    annotation is dynamic. When one operand of an add node has the type
    [int] and the other a tensor-shape type, the node's type afterwards is
    that tensor-shape type, at least as precise as the annotation when the
    annotation is dynamic. *)
Theorem annotation_refinement :
  (∀ n m a0 (σ σ' : gmap node_id ty) t,
     args n !! 0%nat = Some (ANode a0) →
     relu_inference_rule n m σ = (Ok t, σ') →
     is_consistent (type_at σ a0) (type_at σ (name n)) = true
     ∧ chosen_between (type_at σ' (name n)) (type_at σ a0) (type_at σ (name n)))
  ∧ (∀ n m a0 (σ σ' : gmap node_id ty) t,
     args n !! 0%nat = Some (ANode a0) →
     a0 ≠ name n →
     bn2d_inference_rule n m σ = (Ok t, σ') →
     ∃ input annotation,
       expand_to_tensor_dim (type_at σ a0) 4 = Ok input
       ∧ expand_to_tensor_dim (type_at σ (name n)) 4 = Ok annotation
       ∧ is_consistent input annotation = true
       ∧ chosen_between (type_at σ' (name n)) input annotation)
  ∧ (∀ n m a0 (σ σ' : gmap node_id ty) t,
     args n !! 0%nat = Some (ANode a0) →
     maxpool2d_inference_rule n m σ = (Ok t, σ') →
     ∃ from_input from_annotation,
       candidate maxpool2d_check (type_at σ a0) m = Ok from_input
       ∧ candidate maxpool2d_check (type_at σ (name n)) m = Ok from_annotation
       ∧ chosen_between (type_at σ' (name n)) from_input from_annotation
       ∧ (type_at σ a0 = Dyn ∨ type_at σ (name n) = Dyn →
          at_least_as_precise (type_at σ' (name n)) from_input = true
          ∧ at_least_as_precise (type_at σ' (name n)) from_annotation = true)
       ∧ (type_at σ (name n) = Dyn →
          type_at σ' (name n) = from_input
          ∧ at_least_as_precise (type_at σ' (name n)) (type_at σ (name n)) = true)
       ∧ (type_at σ a0 = Dyn → type_at σ' (name n) = from_annotation))
  ∧ (∀ n m a0 (σ σ' : gmap node_id ty) t,
     args n !! 0%nat = Some (ANode a0) →
     linear_inference_rule n m σ = (Ok t, σ') →
     ∃ from_input from_annotation,
       is_consistent (type_at σ a0) (type_at σ (name n)) = true
       ∧ candidate linear_check (type_at σ a0) m = Ok from_input
       ∧ candidate linear_check (type_at σ (name n)) m = Ok from_annotation
       ∧ chosen_between (type_at σ' (name n)) from_input from_annotation
       ∧ (type_at σ a0 = Dyn ∨ type_at σ (name n) = Dyn →
          at_least_as_precise (type_at σ' (name n)) from_input = true
          ∧ at_least_as_precise (type_at σ' (name n)) from_annotation = true)
       ∧ (type_at σ (name n) = Dyn →
          type_at σ' (name n) = from_input
          ∧ at_least_as_precise (type_at σ' (name n)) (type_at σ (name n)) = true)
       ∧ (type_at σ a0 = Dyn → type_at σ' (name n) = from_annotation))
  ∧ (∀ n m a0 (σ σ' : gmap node_id ty) t,
     args n !! 0%nat = Some (ANode a0) →
     adaptiveavgpool2d_inference_rule n m σ = (Ok t, σ') →
     ∃ from_input from_annotation,
       is_consistent (type_at σ a0) (type_at σ (name n)) = true
       ∧ candidate adaptiveavgpool2d_check (type_at σ a0) m = Ok from_input
       ∧ candidate adaptiveavgpool2d_check (type_at σ (name n)) m
         = Ok from_annotation
       ∧ chosen_between (type_at σ' (name n)) from_input from_annotation
       ∧ (type_at σ a0 = Dyn ∨ type_at σ (name n) = Dyn →
          at_least_as_precise (type_at σ' (name n)) from_input = true
          ∧ at_least_as_precise (type_at σ' (name n)) from_annotation = true)
       ∧ (type_at σ (name n) = Dyn →
          type_at σ' (name n) = from_input
          ∧ at_least_as_precise (type_at σ' (name n)) (type_at σ (name n)) = true)
       ∧ (type_at σ a0 = Dyn → type_at σ' (name n) = from_annotation))
  ∧ (∀ n m a0 (σ σ' : gmap node_id ty) t,
     args n !! 0%nat = Some (ANode a0) →
     a0 ≠ name n →
     well_formed (type_at σ a0) →
     well_formed (type_at σ (name n)) →
     conv2d_inference_rule n m σ = (Ok t, σ') →
     ∃ k b c h w oc h_out w_out kn annotation dims,
       expand_to_tensor_dim (type_at σ a0) 4 = Ok (TensorType k [b; c; h; w])
       ∧ get_out_channels m = Ok oc
       ∧ calculate h m 0 = Ok h_out
       ∧ calculate w m 1 = Ok w_out
       ∧ expand_to_tensor_dim (type_at σ (name n)) 4 = Ok (TensorType kn annotation)
       ∧ is_consistent (TensorType PyTuple [b; DInt oc; h_out; w_out])
           (TensorType kn annotation) = true
       ∧ type_at σ' (name n) = TensorType PyTuple dims
       ∧ length dims = 4%nat
       ∧ ∀ i d d1 d2,
           dims !! i = Some d →
           [b; DInt oc; h_out; w_out] !! i = Some d1 →
           annotation !! i = Some d2 →
           at_least_as_precise_dim d d1 = true
           ∧ at_least_as_precise_dim d d2 = true)
  ∧ (∀ n a0 (σ σ' : gmap node_id ty) t,
     node_target n = TFun torch_transpose →
     args n !! 0%nat = Some (ANode a0) →
     a0 ≠ name n →
     transpose_inference_rule n σ = (Ok t, σ') →
     type_at σ' (name n) = t
     ∧ (∀ v, transpose_inference_rule n (<[name n := v]> σ) = (Ok t, σ'))
     ∧ (type_at σ (name n) = Dyn →
        at_least_as_precise (type_at σ' (name n)) (type_at σ (name n)) = true))
  ∧ (∀ n a0 (σ σ' : gmap node_id ty) t,
     args n !! 0%nat = Some (ANode a0) →
     a0 ≠ name n →
     reshape_inference_rule n σ = (Ok t, σ') →
     type_at σ' (name n) = t
     ∧ (∀ v, reshape_inference_rule n (<[name n := v]> σ) = (Ok t, σ'))
     ∧ (type_at σ (name n) = Dyn →
        at_least_as_precise (type_at σ' (name n)) (type_at σ (name n)) = true))
  ∧ (∀ n a0 a1 (σ : gmap node_id ty) k l,
     args n !! 0%nat = Some (ANode a0) →
     args n !! 1%nat = Some (ANode a1) →
     (type_at σ a0 = IntT ∧ type_at σ a1 = TensorType k l)
     ∨ (type_at σ a0 = TensorType k l ∧ type_at σ a1 = IntT) →
     ∃ σ',
       add_inference_rule n σ = (Ok (TensorType k l), σ')
       ∧ type_at σ' (name n) = TensorType k l
       ∧ (type_at σ (name n) = Dyn →
          at_least_as_precise (type_at σ' (name n)) (type_at σ (name n)) = true)).
Proof.
  split; [|split; [|split; [|split; [|split; [|split; [exact conv2d_refines|]]]]]].
  - intros n m a0 σ σ' t Hargs Hrun.
    destruct (relu_result n m a0 σ σ' t Hargs Hrun) as (Hc & -> & ->).
    split; [done | apply chosen_between_more_precise_of].
  - intros n m a0 σ σ' t Hargs Hne Hrun.
    destruct (bn2d_result n m a0 σ σ' t Hargs Hne Hrun)
      as (input & annotation & E0 & En & Hc & -> & ->).
    exists input, annotation. repeat (split; [done|]).
    apply chosen_between_more_precise_of.
  - intros n m a0 σ σ' t Hargs Hrun.
    destruct (maxpool2d_result n m a0 σ σ' t Hargs Hrun)
      as (fi & fa & Ei & Ea & ->).
    pose proof (λ t' r', maxpool2d_check_isinstance t' m r') as Hcheck.
    destruct (more_precise_of_candidates _ m _ _ _ _ Hcheck Ei Ea) as [Hann Hin].
    exists fi, fa. repeat (split; [done|]).
    split; [apply chosen_between_more_precise_of|]. split; [|split].
    + intros Hdyn. apply more_precise_of_at_least.
      by apply (candidates_comparable _ m _ _ _ _ Hcheck Ei Ea).
    + intros Hn. destruct (Hann Hn) as [-> Hal]. by split.
    + done.
  - intros n m a0 σ σ' t Hargs Hrun.
    destruct (linear_result n m a0 σ σ' t Hargs Hrun)
      as (fi & fa & Hc & Ei & Ea & ->).
    pose proof (λ t' r', linear_check_isinstance t' m r') as Hcheck.
    destruct (more_precise_of_candidates _ m _ _ _ _ Hcheck Ei Ea) as [Hann Hin].
    exists fi, fa. repeat (split; [done|]).
    split; [apply chosen_between_more_precise_of|]. split; [|split].
    + intros Hdyn. apply more_precise_of_at_least.
      by apply (candidates_comparable _ m _ _ _ _ Hcheck Ei Ea).
    + intros Hn. destruct (Hann Hn) as [-> Hal]. by split.
    + done.
  - intros n m a0 σ σ' t Hargs Hrun.
    destruct (adaptiveavgpool2d_result n m a0 σ σ' t Hargs Hrun)
      as (fi & fa & Hc & Ei & Ea & ->).
    pose proof (λ t' r', adaptiveavgpool2d_check_isinstance t' m r') as Hcheck.
    destruct (more_precise_of_candidates _ m _ _ _ _ Hcheck Ei Ea) as [Hann Hin].
    exists fi, fa. repeat (split; [done|]).
    split; [apply chosen_between_more_precise_of|]. split; [|split].
    + intros Hdyn. apply more_precise_of_at_least.
      by apply (candidates_comparable _ m _ _ _ _ Hcheck Ei Ea).
    + intros Hn. destruct (Hann Hn) as [-> Hal]. by split.
    + done.
  - split; [|split].
    + intros n a0 σ σ' t Htgt Hargs Hne Hrun.
      destruct (transpose_completes n a0 σ σ' t Htgt Hargs Hrun) as [Ht Hkind].
      split; [done|]. split.
      * intros v. by apply (transpose_ignores_annotation n a0).
      * intros ->. rewrite Ht. by apply at_least_as_precise_Dyn.
    + intros n a0 σ σ' t Hargs Hne Hrun.
      destruct (reshape_completes n a0 σ σ' t Hargs Hrun) as [Ht Hkind].
      split; [done|]. split.
      * intros v. by apply (reshape_ignores_annotation n a0).
      * intros ->. rewrite Ht. apply at_least_as_precise_Dyn. by right.
    + intros n a0 a1 σ k l H0 H1 Hscalar. eexists.
      split; [by apply (add_scalar_branch n a0 a1)|].
      rewrite type_at_insert_eq. split; [done|]. by intros ->.
Qed.

Lemma annotation_refinement_witness :
  (let σ : gmap node_id ty :=
     {[ "x" := shape [2; 3]; "relu" := TensorType PyTuple [DInt 2; DDyn] ]} in
   let σ' := <["relu" := shape [2; 3]]> σ in
   is_consistent (type_at σ "x") (type_at σ "relu") = true
   ∧ chosen_between (type_at σ' "relu") (type_at σ "x") (type_at σ "relu"))
  ∧ (let σ : gmap node_id ty := {[ "x" := shape [1; 8; 5; 5]; "bn" := Dyn ]} in
     let σ' := <["bn" := shape [1; 8; 5; 5]]> σ in
     ∃ input annotation,
       expand_to_tensor_dim (type_at σ "x") 4 = Ok input
       ∧ expand_to_tensor_dim (type_at σ "bn") 4 = Ok annotation
       ∧ is_consistent input annotation = true
       ∧ chosen_between (type_at σ' "bn") input annotation)
  ∧ (let m := MaxPool2d (mkParams (IntV 0) (IntV 2) (IntV 2) (IntV 1)) in
     let σ : gmap node_id ty := {[ "x" := shape [1; 3; 8; 8]; "pool" := Dyn ]} in
     let σ' := <["pool" := shape [1; 3; 4; 4]]> σ in
     ∃ from_input from_annotation,
       candidate maxpool2d_check (type_at σ "x") m = Ok from_input
       ∧ candidate maxpool2d_check (type_at σ "pool") m = Ok from_annotation
       ∧ chosen_between (type_at σ' "pool") from_input from_annotation
       ∧ (type_at σ "x" = Dyn ∨ type_at σ "pool" = Dyn →
          at_least_as_precise (type_at σ' "pool") from_input = true
          ∧ at_least_as_precise (type_at σ' "pool") from_annotation = true)
       ∧ (type_at σ "pool" = Dyn →
          type_at σ' "pool" = from_input
          ∧ at_least_as_precise (type_at σ' "pool") (type_at σ "pool") = true)
       ∧ (type_at σ "x" = Dyn → type_at σ' "pool" = from_annotation))
  ∧ (let m := Linear 4 8 in
     let σ : gmap node_id ty :=
       {[ "x" := shape [2; 4]; "fc" := TensorType PyTuple [DDyn; DInt 4] ]} in
     let σ' := <["fc" := shape [2; 8]]> σ in
     ∃ from_input from_annotation,
       is_consistent (type_at σ "x") (type_at σ "fc") = true
       ∧ candidate linear_check (type_at σ "x") m = Ok from_input
       ∧ candidate linear_check (type_at σ "fc") m = Ok from_annotation
       ∧ chosen_between (type_at σ' "fc") from_input from_annotation
       ∧ (type_at σ "x" = Dyn ∨ type_at σ "fc" = Dyn →
          at_least_as_precise (type_at σ' "fc") from_input = true
          ∧ at_least_as_precise (type_at σ' "fc") from_annotation = true)
       ∧ (type_at σ "fc" = Dyn →
          type_at σ' "fc" = from_input
          ∧ at_least_as_precise (type_at σ' "fc") (type_at σ "fc") = true)
       ∧ (type_at σ "x" = Dyn → type_at σ' "fc" = from_annotation))
  ∧ (let m := AdaptiveAvgPool2d (OInt 5) in
     let σ : gmap node_id ty := {[ "x" := Dyn; "avg" := shape [1; 3; 8; 8] ]} in
     let σ' := <["avg" := shape [1; 3; 5; 5]]> σ in
     ∃ from_input from_annotation,
       is_consistent (type_at σ "x") (type_at σ "avg") = true
       ∧ candidate adaptiveavgpool2d_check (type_at σ "x") m = Ok from_input
       ∧ candidate adaptiveavgpool2d_check (type_at σ "avg") m = Ok from_annotation
       ∧ chosen_between (type_at σ' "avg") from_input from_annotation
       ∧ (type_at σ "x" = Dyn ∨ type_at σ "avg" = Dyn →
          at_least_as_precise (type_at σ' "avg") from_input = true
          ∧ at_least_as_precise (type_at σ' "avg") from_annotation = true)
       ∧ (type_at σ "avg" = Dyn →
          type_at σ' "avg" = from_input
          ∧ at_least_as_precise (type_at σ' "avg") (type_at σ "avg") = true)
       ∧ (type_at σ "x" = Dyn → type_at σ' "avg" = from_annotation))
  ∧ (let m := Conv2d 3 16 (mkParams (IntV 0) (IntV 3) (IntV 1) (IntV 1)) in
     let σ : gmap node_id ty :=
       {[ "x" := shape [1; 3; 32; 32];
          "conv" := TensorType PyTuple [DDyn; DInt 16; DDyn; DInt 30] ]} in
     let σ' := <["conv" := shape [1; 16; 30; 30]]> σ in
     ∃ k b c h w oc h_out w_out kn annotation dims,
       expand_to_tensor_dim (type_at σ "x") 4 = Ok (TensorType k [b; c; h; w])
       ∧ get_out_channels m = Ok oc
       ∧ calculate h m 0 = Ok h_out
       ∧ calculate w m 1 = Ok w_out
       ∧ expand_to_tensor_dim (type_at σ "conv") 4 = Ok (TensorType kn annotation)
       ∧ is_consistent (TensorType PyTuple [b; DInt oc; h_out; w_out])
           (TensorType kn annotation) = true
       ∧ type_at σ' "conv" = TensorType PyTuple dims
       ∧ length dims = 4%nat
       ∧ ∀ i d d1 d2,
           dims !! i = Some d →
           [b; DInt oc; h_out; w_out] !! i = Some d1 →
           annotation !! i = Some d2 →
           at_least_as_precise_dim d d1 = true
           ∧ at_least_as_precise_dim d d2 = true)
  ∧ (let n := mkNode "t" call_function (TFun torch_transpose)
                [ANode "x"; AInt 0; AInt 1] in
     let σ : gmap node_id ty := {[ "x" := shape [2; 3]; "t" := Dyn ]} in
     let σ' := <["t" := TensorType PyList [DInt 3; DInt 2]]> σ in
     type_at σ' "t" = TensorType PyList [DInt 3; DInt 2]
     ∧ (∀ v, transpose_inference_rule n (<["t" := v]> σ)
             = (Ok (TensorType PyList [DInt 3; DInt 2]), σ'))
     ∧ (type_at σ "t" = Dyn →
        at_least_as_precise (type_at σ' "t") (type_at σ "t") = true))
  ∧ (let n := mkNode "r" call_function (TFun torch_reshape)
                [ANode "x"; AList [6; -1]] in
     let σ : gmap node_id ty := {[ "x" := shape [2; 3; 4]; "r" := Dyn ]} in
     let σ' := <["r" := target_type [6; -1]]> σ in
     type_at σ' "r" = target_type [6; -1]
     ∧ (∀ v, reshape_inference_rule n (<["r" := v]> σ)
             = (Ok (target_type [6; -1]), σ'))
     ∧ (type_at σ "r" = Dyn →
        at_least_as_precise (type_at σ' "r") (type_at σ "r") = true))
  ∧ (let n := mkNode "add" call_function (TFun torch_add) [ANode "x"; ANode "k"] in
     let σ : gmap node_id ty := {[ "x" := shape [2; 3]; "k" := IntT; "add" := Dyn ]} in
     ∃ σ',
       add_inference_rule n σ = (Ok (shape [2; 3]), σ')
       ∧ type_at σ' "add" = shape [2; 3]
       ∧ (type_at σ "add" = Dyn →
          at_least_as_precise (type_at σ' "add") (type_at σ "add") = true)).
Proof.
  destruct annotation_refinement
    as (Hrelu & Hbn & Hpool & Hlinear & Havg & Hconv & Htranspose & Hreshape & Hadd).
  split; [|split; [|split; [|split; [|split; [|split; [|split; [|split]]]]]]].
  - intros σ σ'.
    apply (Hrelu (mkNode "relu" call_module (TStr "relu") [ANode "x"]) ReLU
             "x" σ σ' (shape [2; 3]));
      [reflexivity | vm_compute; reflexivity].
  - intros σ σ'.
    apply (Hbn (mkNode "bn" call_module (TStr "bn") [ANode "x"]) (BatchNorm2d 8)
             "x" σ σ' (shape [1; 8; 5; 5]));
      [reflexivity | discriminate | vm_compute; reflexivity].
  - intros m σ σ'.
    apply (Hpool (mkNode "pool" call_module (TStr "pool") [ANode "x"]) m
             "x" σ σ' (shape [1; 3; 4; 4]));
      [reflexivity | vm_compute; reflexivity].
  - intros m σ σ'.
    apply (Hlinear (mkNode "fc" call_module (TStr "fc") [ANode "x"]) m
             "x" σ σ' (shape [2; 8]));
      [reflexivity | vm_compute; reflexivity].
  - intros m σ σ'.
    apply (Havg (mkNode "avg" call_module (TStr "avg") [ANode "x"]) m
             "x" σ σ' (shape [1; 3; 5; 5]));
      [reflexivity | vm_compute; reflexivity].
  - intros m σ σ'.
    apply (Hconv (mkNode "conv" call_module (TStr "conv") [ANode "x"]) m
             "x" σ σ' (shape [1; 16; 30; 30]));
      [reflexivity | discriminate | | | vm_compute; reflexivity].
    + vm_compute. intros H. by repeat (apply elem_of_cons in H as [H|H]; [done|]);
        apply elem_of_nil in H.
    + vm_compute. intros H. by repeat (apply elem_of_cons in H as [H|H]; [done|]);
        apply elem_of_nil in H.
  - intros n σ σ'.
    apply (Htranspose n "x" σ σ' (TensorType PyList [DInt 3; DInt 2]));
      [reflexivity | reflexivity | discriminate | vm_compute; reflexivity].
  - intros n σ σ'.
    apply (Hreshape n "x" σ σ' (target_type [6; -1]));
      [reflexivity | discriminate | vm_compute; reflexivity].
  - intros n σ.
    apply (Hadd n "x" "k" σ PyTuple (DInt <$> [2; 3]));
      [reflexivity | reflexivity | by right].
Defined.

(** C1 fails as stated. A rectified-linear node with input type (2,Dyn)
    and annotation (Dyn,3): the two are consistent, the rule completes and
    leaves (Dyn,3), which is not at least as precise as the input's type.
    A transpose node with input type (Dyn,Dyn) and annotation (3,2), the
    dimensions 0 and 1 swapped: the type implied by the input, (Dyn,Dyn),
    is consistent with the annotation, the rule completes and overwrites
    the annotation with (Dyn,Dyn), not at least as precise as (3,2). A
    2x2 max-pool node of stride 2 with input type (1,3,8,8) and annotation
    (1,3,4,4): the type implied by the input is the annotation, the rule
    completes and leaves (1,3,2,2), the pooling of the annotation, not at
    least as precise as either. The same node with a dynamic input: the
    annotation (1,3,4,4) is consistent with the dynamic type, the rule
    completes and leaves (1,3,2,2), not at least as precise as the
    annotation. *)
Lemma annotation_refinement_fails :
  (let n := mkNode "relu" call_module (TStr "relu") [ANode "x"] in
   let σ : gmap node_id ty :=
     {[ "x" := TensorType PyTuple [DInt 2; DDyn];
        "relu" := TensorType PyTuple [DDyn; DInt 3] ]} in
   let r := relu_inference_rule n ReLU σ in
   is_consistent (type_at σ "relu") (type_at σ "x") = true
   ∧ r.1 = Ok (TensorType PyTuple [DDyn; DInt 3])
   ∧ type_at r.2 "relu" = TensorType PyTuple [DDyn; DInt 3]
   ∧ at_least_as_precise (type_at r.2 "relu") (type_at σ "x") = false)
  ∧ (let n := mkNode "t" call_function (TFun torch_transpose)
                [ANode "x"; AInt 0; AInt 1] in
     let σ : gmap node_id ty :=
       {[ "x" := TensorType PyTuple [DDyn; DDyn]; "t" := shape [3; 2] ]} in
     let r := transpose_inference_rule n σ in
     is_consistent (type_at σ "t") (TensorType PyList [DDyn; DDyn]) = true
     ∧ r.1 = Ok (TensorType PyList [DDyn; DDyn])
     ∧ type_at r.2 "t" = TensorType PyList [DDyn; DDyn]
     ∧ at_least_as_precise (type_at r.2 "t") (type_at σ "t") = false)
  ∧ (let n := mkNode "pool" call_module (TStr "pool") [ANode "x"] in
     let m := MaxPool2d (mkParams (IntV 0) (IntV 2) (IntV 2) (IntV 1)) in
     let σ : gmap node_id ty :=
       {[ "x" := shape [1; 3; 8; 8]; "pool" := shape [1; 3; 4; 4] ]} in
     let r := maxpool2d_inference_rule n m σ in
     maxpool2d_check (type_at σ "x") m = Ok (shape [1; 3; 4; 4])
     ∧ is_consistent (type_at σ "pool") (shape [1; 3; 4; 4]) = true
     ∧ r.1 = Ok (shape [1; 3; 2; 2])
     ∧ type_at r.2 "pool" = shape [1; 3; 2; 2]
     ∧ at_least_as_precise (type_at r.2 "pool") (type_at σ "pool") = false
     ∧ at_least_as_precise (type_at r.2 "pool") (shape [1; 3; 4; 4]) = false)
  ∧ (let n := mkNode "pool" call_module (TStr "pool") [ANode "x"] in
     let m := MaxPool2d (mkParams (IntV 0) (IntV 2) (IntV 2) (IntV 1)) in
     let σ : gmap node_id ty := {[ "x" := Dyn; "pool" := shape [1; 3; 4; 4] ]} in
     let r := maxpool2d_inference_rule n m σ in
     is_consistent (type_at σ "pool") (type_at σ "x") = true
     ∧ r.1 = Ok (shape [1; 3; 2; 2])
     ∧ type_at r.2 "pool" = shape [1; 3; 2; 2]
     ∧ at_least_as_precise (type_at r.2 "pool") (type_at σ "pool") = false).
Proof. repeat split; vm_compute; reflexivity. Qed.

(** ** Registration *)

(** Registering the ten targets in the order the decorators run, from an
    empty table, raises nothing and yields [_INFERENCE_RULES]. *)
Lemma inference_rules_registered :
  (let? r := register_inference_rule (KTarget (TFun operator_add))
               (NodeRule add_inference_rule) [] in
   let? r := register_inference_rule (KTarget (TFun torch_add))
               (NodeRule add_inference_rule) r in
   let? r := register_inference_rule (KTarget (TFun torch_transpose))
               (NodeRule transpose_inference_rule) r in
   let? r := register_inference_rule (KTarget (TFun torch_reshape))
               (NodeRule reshape_inference_rule) r in
   let? r := register_inference_rule (KClass BatchNorm2d_cls)
               (ModuleRule bn2d_inference_rule) r in
   let? r := register_inference_rule (KClass Conv2d_cls)
               (ModuleRule conv2d_inference_rule) r in
   let? r := register_inference_rule (KClass ReLU_cls)
               (ModuleRule relu_inference_rule) r in
   let? r := register_inference_rule (KClass MaxPool2d_cls)
               (ModuleRule maxpool2d_inference_rule) r in
   let? r := register_inference_rule (KClass Linear_cls)
               (ModuleRule linear_inference_rule) r in
   register_inference_rule (KClass AdaptiveAvgPool2d_cls)
     (ModuleRule adaptiveavgpool2d_inference_rule) r)
  = Ok _INFERENCE_RULES.
Proof. reflexivity. Qed.

Lemma lookup_rule_app_new rules k fn :
  lookup_rule rules k = None → lookup_rule (rules ++ [(k, fn)]) k = Some fn.
Proof.
  induction rules as [|[k' fn'] rules IH]; cbn.
  - intros _. by rewrite bool_decide_eq_true_2.
  - case_bool_decide; [done | apply IH].
Qed.

(** A target registered once cannot be registered again. *)
Lemma register_inference_rule_twice k fn fn' rules rules' :
  register_inference_rule k fn rules = Ok rules' →
  register_inference_rule k fn' rules' = Raise (RuntimeError AlreadyRegistered).
Proof.
  unfold register_inference_rule.
  destruct (lookup_rule rules k) eqn:Hk; [done|]. intros [= <-].
  by rewrite (lookup_rule_app_new _ _ _ Hk).
Qed.

(** * Further properties of the code *)

(** ** Rank expansion *)

(** X1. [expand_to_tensor_dim t n] succeeds exactly on the dynamic type and
    on tensor-shape types of rank [n]; what it returns is a tensor-shape
    type of rank [n], left alone by a second expansion, and equal to [t]
    unless [t] is dynamic. *)
Theorem expand_to_tensor_dim_spec t n :
  ((∃ t', expand_to_tensor_dim t n = Ok t')
   ↔ t = Dyn ∨ ∃ k l, t = TensorType k l ∧ length l = n)
  ∧ (∀ t', expand_to_tensor_dim t n = Ok t' →
       (∃ k l, t' = TensorType k l ∧ length l = n)
       ∧ (t ≠ Dyn → t' = t)
       ∧ expand_to_tensor_dim t' n = Ok t').
Proof.
  split.
  - split.
    + intros [t' H]. destruct t as [| | |k l]; try done; [by left|].
      right. exists k, l. split; [done|]. cbn in H.
      case_bool_decide as Hl; [done|]. by destruct (decide (length l = n)).
    + intros [-> | (k & l & -> & Hl)]; cbn; [by eexists|].
      rewrite bool_decide_eq_false_2 by (intros H; by apply H). by eexists.
  - intros t' H. destruct t as [| | |k l]; try done; cbn in H.
    + injection H as <-. split; [|split; [done|]].
      * eexists _, _. split; [done|]. apply length_replicate.
      * cbn. rewrite length_replicate.
        by rewrite bool_decide_eq_false_2 by (intros H; by apply H).
    + case_bool_decide as Hl; [done|]. injection H as <-.
      assert (length l = n) by (by destruct (decide (length l = n))).
      split; [by exists k, l|]. split; [done|]. cbn.
      by rewrite bool_decide_eq_false_2 by (intros H'; by apply H').
Qed.

Lemma expand_to_tensor_dim_spec_witness :
  (∃ k l, TensorType PyTuple [DDyn; DDyn; DDyn] = TensorType k l ∧ length l = 3%nat)
  ∧ (Dyn ≠ Dyn → TensorType PyTuple [DDyn; DDyn; DDyn] = Dyn)
  ∧ expand_to_tensor_dim (TensorType PyTuple [DDyn; DDyn; DDyn]) 3
    = Ok (TensorType PyTuple [DDyn; DDyn; DDyn]).
Proof.
  apply (proj2 (expand_to_tensor_dim_spec Dyn 3)
           (TensorType PyTuple [DDyn; DDyn; DDyn])).
  reflexivity.
Defined.

(** ** Broadcasting, continued *)

Lemma broadcast_loop_swap (a b : list dim) :
  broadcast_loop b a = ((broadcast_loop a b).2, (broadcast_loop a b).1).
Proof.
  revert b. induction a as [|x a IH]; intros [|y b]; try done.
  cbn [broadcast_loop]. rewrite (IH b).
  destruct (broadcast_loop a b) as [r1 r2]. cbn [fst snd].
  repeat case_bool_decide; simplify_eq; done.
Qed.

Lemma broadcast_loop_length (a b : list dim) :
  length (broadcast_loop a b).1 = length a
  ∧ length (broadcast_loop a b).2 = length b.
Proof.
  revert b. induction a as [|x a IH]; intros [|y b]; try done.
  cbn [broadcast_loop]. destruct (IH b) as [H1 H2].
  destruct (broadcast_loop a b) as [r1 r2]. cbn [fst snd] in *.
  repeat case_bool_decide; cbn; by rewrite H1, H2.
Qed.

Lemma broadcast_loop_ones (a b : list dim) i :
  length a = length b →
  (broadcast_loop a b).1 !! i = Some (DInt 1)
  ↔ (broadcast_loop a b).2 !! i = Some (DInt 1).
Proof.
  revert b i. induction a as [|x a IH]; intros [|y b] i Hlen; try done.
  cbn [broadcast_loop]. injection Hlen as Hlen. specialize (IH b).
  destruct (broadcast_loop a b) as [r1 r2]. cbn [fst snd] in *.
  repeat case_bool_decide; cbn [fst snd]; destruct i as [|i]; cbn;
    try (by apply IH); try done; split; intros [= ?]; congruence.
Qed.

(** X2. Broadcasting does not depend on the order of the operands: if
    [broadcast_types t1 t2] returns [(r1, r2)], then [broadcast_types t2 t1]
    returns [(r2, r1)]. *)
Theorem broadcast_types_swap t1 t2 r1 r2 :
  broadcast_types t1 t2 = Ok (r1, r2) →
  broadcast_types t2 t1 = Ok (r2, r1).
Proof.
  unfold broadcast_types. rewrite (orb_comm (bool_decide (t2 = Dyn))).
  destruct (bool_decide (t1 = Dyn) || bool_decide (t2 = Dyn)).
  { by intros [= <- <-]. }
  destruct t1 as [| | |c1 a1], t2 as [| | |c2 a2]; try done.
  replace (Z.abs (Z.of_nat (length a2) - Z.of_nat (length a1)))
    with (Z.abs (Z.of_nat (length a1) - Z.of_nat (length a2))) by lia.
  rewrite <- (orb_assoc _ (_ =? 0) (_ =? 0)), (orb_comm (_ =? 0) (_ =? 0)), orb_assoc.
  destruct (_ || _ || _); [done|].
  destruct (Z.gtb_spec (Z.of_nat (length a1)) (Z.of_nat (length a2))) as [Hgt|Hle];
    destruct (Z.gtb_spec (Z.of_nat (length a2)) (Z.of_nat (length a1))) as [Hgt'|Hle'];
    try lia.
  - destruct (getitem a1 0) as [x|]; [|done]. cbn [rbind].
    rewrite (broadcast_loop_swap a1 (x :: a2)).
    destruct (broadcast_loop a1 (x :: a2)) as [n1 n2]. cbn [fst snd].
    rewrite andb_comm. by destruct (_ && _); [|intros [= <- <-]].
  - destruct (getitem a2 0) as [x|]; [|done]. cbn [rbind].
    rewrite (broadcast_loop_swap (x :: a1) a2).
    destruct (broadcast_loop (x :: a1) a2) as [n1 n2]. cbn [fst snd].
    rewrite andb_comm. by destruct (_ && _); [|intros [= <- <-]].
  - cbn [rbind]. rewrite (broadcast_loop_swap a1 a2).
    destruct (broadcast_loop a1 a2) as [n1 n2]. cbn [fst snd].
    rewrite andb_comm. by destruct (_ && _); [|intros [= <- <-]].
Qed.

Lemma broadcast_types_swap_witness :
  broadcast_types (shape [4]) (shape [3; 4]) = Ok (shape [3; 4], shape [3; 4]).
Proof. apply (broadcast_types_swap (shape [3; 4]) (shape [4])). reflexivity. Defined.

(** X3. When two tensor-shape types broadcast, the results are
    tensor-shape types of one rank, the larger of the operands' ranks; one
    of the operands comes back unchanged; and a dimension is 1 in one
    result exactly when it is 1 in the other. *)
Theorem broadcast_types_tensors c1 a1 c2 a2 r1 r2 :
  broadcast_types (TensorType c1 a1) (TensorType c2 a2) = Ok (r1, r2) →
  ∃ n1 n2,
    r1 = TensorType PyTuple n1 ∧ r2 = TensorType PyTuple n2
    ∧ length n1 = length n2
    ∧ length n1 = (length a1 `max` length a2)%nat
    ∧ (n1 = a1 ∨ n2 = a2)
    ∧ ∀ i, n1 !! i = Some (DInt 1) ↔ n2 !! i = Some (DInt 1).
Proof.
  unfold broadcast_types. rewrite !bool_decide_eq_false_2 by discriminate.
  cbn [orb].
  destruct (_ || _ || _) eqn:Hrank; [done|].
  apply orb_false_iff in Hrank as [Hrank H2]. apply orb_false_iff in Hrank as [Habs H1].
  rewrite Z.gtb_ltb in Habs. apply Z.ltb_ge in Habs.
  apply Z.eqb_neq in H1, H2.
  assert (Hpad : ∃ p1 p2,
    (if Z.of_nat (length a1) >? Z.of_nat (length a2)
     then let? x := getitem a1 0 in Ok (a1, x :: a2)
     else if Z.of_nat (length a2) >? Z.of_nat (length a1)
          then let? x := getitem a2 0 in Ok (x :: a1, a2)
          else Ok (a1, a2)) = Ok (p1, p2)
    ∧ length p1 = length p2
    ∧ length p1 = (length a1 `max` length a2)%nat
    ∧ (p1 = a1 ∨ p2 = a2)).
  { destruct (Z.gtb_spec (Z.of_nat (length a1)) (Z.of_nat (length a2))) as [Hgt|Hle].
    - destruct a1 as [|x a1]; [done|].
      exists (x :: a1), (x :: a2). cbn [length] in *.
      repeat split; [lia | lia | by left].
    - destruct (Z.gtb_spec (Z.of_nat (length a2)) (Z.of_nat (length a1))) as [Hgt|Hle'].
      + destruct a2 as [|x a2]; [done|].
        exists (x :: a1), (x :: a2). cbn [length] in *.
        repeat split; [lia | lia | by right].
      + exists a1, a2. repeat split; [lia | lia | by left]. }
  destruct Hpad as (p1 & p2 & -> & Hlen & Hmax & Hsame). cbn [rbind].
  destruct (broadcast_loop_length p1 p2) as [Hl1 Hl2].
  pose proof (broadcast_loop_ones p1 p2) as Hones.
  destruct (broadcast_loop p1 p2) as [n1 n2]. cbn [fst snd] in *.
  assert (Hne : ∀ new_t c a, tuple_ne new_t c a = false → new_t = a).
  { intros new_t [] a; [|done]. cbn. intros H%bool_decide_eq_false.
    by destruct (decide (new_t = a)). }
  destruct (tuple_ne n1 c1 a1) eqn:Hn1; destruct (tuple_ne n2 c2 a2) eqn:Hn2;
    cbn [andb]; [done | | |]; intros [= <- <-]; exists n1, n2;
    repeat (split; [done || lia|]); (split; [|intros i; by apply Hones]).
  - right. by apply (Hne _ c2).
  - left. by apply (Hne _ c1).
  - left. by apply (Hne _ c1).
Qed.

Lemma broadcast_types_tensors_witness :
  ∃ n1 n2,
    shape [3; 4] = TensorType PyTuple n1 ∧ shape [3; 4] = TensorType PyTuple n2
    ∧ length n1 = length n2
    ∧ length n1 = (length [DInt 3; DInt 4] `max` length [DInt 1])%nat
    ∧ (n1 = [DInt 3; DInt 4] ∨ n2 = [DInt 1])
    ∧ ∀ i, n1 !! i = Some (DInt 1) ↔ n2 !! i = Some (DInt 1).
Proof.
  apply (broadcast_types_tensors PyTuple [DInt 3; DInt 4] PyList [DInt 1]).
  reflexivity.
Defined.

(** X4. Broadcasting returns its operands as they are when one of them is
    the dynamic type; it raises for two tensor-shape types when one has
    rank 0 or the ranks differ by more than one, and for an operand that is
    neither dynamic nor a tensor-shape type when the other is not dynamic. *)
Theorem broadcast_types_rejects :
  (∀ t, broadcast_types Dyn t = Ok (Dyn, t) ∧ broadcast_types t Dyn = Ok (t, Dyn))
  ∧ (∀ c1 a1 c2 a2,
       a1 = [] ∨ a2 = []
       ∨ (length a2 + 1 < length a1)%nat ∨ (length a1 + 1 < length a2)%nat →
       broadcast_types (TensorType c1 a1) (TensorType c2 a2)
       = Raise (TypeError (CannotBroadcastTensors (TensorType c1 a1)
                             (TensorType c2 a2))))
  ∧ (∀ t1 t2,
       t1 ≠ Dyn → t2 ≠ Dyn →
       isinstance_TensorType t1 && isinstance_TensorType t2 = false →
       broadcast_types t1 t2 = Raise (TypeError (CannotBroadcastTypes t1 t2))).
Proof.
  split; [|split].
  - intros t. unfold broadcast_types. cbn. split; [done|].
    by rewrite orb_true_r.
  - intros c1 a1 c2 a2 Hbad. unfold broadcast_types.
    rewrite !bool_decide_eq_false_2 by discriminate. cbn [orb].
    assert (Hcond : (Z.abs (Z.of_nat (length a1) - Z.of_nat (length a2)) >? 1)
                    || (Z.of_nat (length a1) =? 0) || (Z.of_nat (length a2) =? 0) = true);
      [|by rewrite Hcond].
    rewrite !orb_true_iff, Z.gtb_ltb, Z.ltb_lt, !Z.eqb_eq.
    destruct Hbad as [-> | [-> | [H | H]]]; [left; by right | by right | |];
      left; left; lia.
  - intros t1 t2 H1 H2 Htens. unfold broadcast_types.
    rewrite !bool_decide_eq_false_2 by done. cbn [orb].
    by destruct t1, t2.
Qed.

Lemma broadcast_types_rejects_witness :
  broadcast_types (shape [2; 3; 4]) (shape [4])
  = Raise (TypeError (CannotBroadcastTensors (shape [2; 3; 4]) (shape [4])))
  ∧ broadcast_types IntT (shape [4])
    = Raise (TypeError (CannotBroadcastTypes IntT (shape [4]))).
Proof.
  destruct broadcast_types_rejects as (_ & Hrank & Htype). split.
  - apply (Hrank PyTuple (DInt <$> [2; 3; 4]) PyTuple (DInt <$> [4])).
    right. right. left.
    cbn. lia.
  - apply Htype; [discriminate | discriminate | reflexivity].
Defined.

(** ** What a rule writes *)

Lemma arg_not_elem (n : Node) i a b :
  args n !! i = Some (ANode a) → ANode b ∉ args n → b ≠ a.
Proof. intros Hi Hb ->. apply Hb. by eapply list_elem_of_lookup_2. Qed.

Lemma arg_not_self (n : Node) i a :
  args n !! i = Some (ANode a) → ANode (name n) ∉ args n → a ≠ name n.
Proof. intros Hi Hn ->. apply Hn. by eapply list_elem_of_lookup_2. Qed.

(** Reads a type through the writes to other nodes. *)
Ltac frame_solve :=
  repeat match goal with
         | H : args _ !! _ = Some (ANode ?a), Hb : ANode ?b ∉ args _ |- _ =>
             lazymatch goal with
             | _ : b ≠ a |- _ => fail
             | _ => pose proof (arg_not_elem _ _ _ _ H Hb)
             end
         end;
  rewrite ?type_at_insert_ne by congruence; try done.

Section frame.
Context (n : Node) (σ σ' : gmap node_id ty) (b : node_id).
Context (Hb : b ≠ name n) (Hargs : ANode b ∉ args n).

Lemma add_frame r :
  add_inference_rule n σ = (r, σ') → type_at σ' b = type_at σ b.
Proof. unfold add_inference_rule. run_rule; frame_solve. Qed.

Lemma transpose_frame r :
  transpose_inference_rule n σ = (r, σ') → type_at σ' b = type_at σ b.
Proof. unfold transpose_inference_rule. run_rule; frame_solve. Qed.

Lemma reshape_frame r :
  reshape_inference_rule n σ = (r, σ') → type_at σ' b = type_at σ b.
Proof. unfold reshape_inference_rule. run_rule; frame_solve. Qed.

Lemma bn2d_frame m r :
  bn2d_inference_rule n m σ = (r, σ') → type_at σ' b = type_at σ b.
Proof. unfold bn2d_inference_rule. run_rule; frame_solve. Qed.

Lemma conv2d_frame m r :
  conv2d_inference_rule n m σ = (r, σ') → type_at σ' b = type_at σ b.
Proof. unfold conv2d_inference_rule. run_rule; frame_solve. Qed.

Lemma relu_frame m r :
  relu_inference_rule n m σ = (r, σ') → type_at σ' b = type_at σ b.
Proof. unfold relu_inference_rule. run_rule; frame_solve. Qed.

Lemma maxpool2d_frame m r :
  maxpool2d_inference_rule n m σ = (r, σ') → type_at σ' b = type_at σ b.
Proof. unfold maxpool2d_inference_rule. run_rule; frame_solve. Qed.

Lemma linear_frame m r :
  linear_inference_rule n m σ = (r, σ') → type_at σ' b = type_at σ b.
Proof. unfold linear_inference_rule. run_rule; frame_solve. Qed.

Lemma adaptiveavgpool2d_frame m r :
  adaptiveavgpool2d_inference_rule n m σ = (r, σ') → type_at σ' b = type_at σ b.
Proof. unfold adaptiveavgpool2d_inference_rule. run_rule; frame_solve. Qed.

End frame.

Lemma registered_rule_frame k fn :
  lookup_rule _INFERENCE_RULES k = Some fn →
  match fn with
  | NodeRule f =>
      ∀ n (σ σ' : gmap node_id ty) r b,
        b ≠ name n → ANode b ∉ args n →
        f n σ = (r, σ') → type_at σ' b = type_at σ b
  | ModuleRule f =>
      ∀ n m (σ σ' : gmap node_id ty) r b,
        b ≠ name n → ANode b ∉ args n →
        f n m σ = (r, σ') → type_at σ' b = type_at σ b
  end.
Proof.
  unfold _INFERENCE_RULES. cbn [lookup_rule].
  repeat case_bool_decide; intros [= <-]; intros;
    eauto using add_frame, transpose_frame, reshape_frame, bn2d_frame,
      conv2d_frame, relu_frame, maxpool2d_frame, linear_frame,
      adaptiveavgpool2d_frame.
Qed.

(** X5. Visiting a node, whether it type-checks or raises, changes the
    type of no node other than the node itself and its node operands. *)
Theorem type_check_node_frame self n (σ σ' : gmap node_id ty) r b :
  type_check_node self n σ = (r, σ') →
  b ≠ name n →
  ANode b ∉ args n →
  type_at σ' b = type_at σ b.
Proof.
  intros Hrun Hb Hargs. revert Hrun. unfold type_check_node. unfold_M.
  cbv beta iota zeta. case_bool_decide; cbv beta iota zeta;
    [rewrite <- (type_at_insert_ne σ (name n) b Dyn) by done|].
  all: destruct (op n); try by intros [= <- <-].
  all: try (destruct (lookup_rule _INFERENCE_RULES (KTarget (node_target n)))
              as [[f|f]|] eqn:Hk; [| by intros [= <- <-] | by intros [= <- <-]];
            by apply (registered_rule_frame _ _ Hk)).
  all: try (destruct (getattr (traced self) (node_target n)) as [m|];
              [|by intros [= <- <-]];
            destruct (lookup_rule _INFERENCE_RULES (KClass (type_of m)))
              as [[f|f]|] eqn:Hk; [by intros [= <- <-] | | by intros [= <- <-]];
            by apply (registered_rule_frame _ _ Hk)).
  all: destruct (args n !! 0%nat) as [[a| |]|]; try by intros [= <- <-].
  all: intros [= <- <-]; by rewrite type_at_insert_ne.
Qed.

Lemma type_check_node_frame_witness :
  let self := mkGraphTypeChecker ∅ (mkGraphModule [] ∅) in
  let n := mkNode "add" call_function (TFun torch_add) [ANode "x"; ANode "y"] in
  let σ : gmap node_id ty := {[ "x" := shape [3; 1]; "y" := shape [3; 4]; "z" := IntT ]} in
  type_at (type_check_node self n σ).2 "z" = type_at σ "z".
Proof.
  intros self n σ.
  apply (type_check_node_frame self n σ _ (type_check_node self n σ).1 "z").
  - by destruct (type_check_node self n σ).
  - discriminate.
  - vm_compute. intros H. by repeat (apply elem_of_cons in H as [H|H]; [done|]);
      apply elem_of_nil in H.
Defined.

Lemma type_check_nodes_frame self nodes (σ σ' : gmap node_id ty) r b :
  type_check_nodes self nodes σ = (r, σ') →
  (∀ n, n ∈ nodes → b ≠ name n ∧ ANode b ∉ args n) →
  type_at σ' b = type_at σ b.
Proof.
  revert σ. induction nodes as [|n nodes IH]; intros σ.
  - by intros [= <- <-].
  - cbn [type_check_nodes]. unfold bind.
    destruct (type_check_node self n σ) as [[t|e] σ1] eqn:Hn; intros Hrun Hall.
    + rewrite (IH σ1 Hrun) by (intros n' Hn'; apply Hall; by right).
      destruct (Hall n) as [Hb Hargs]; [by left|].
      by apply (type_check_node_frame self n σ σ1 (Ok t)).
    + injection Hrun as <- <-.
      destruct (Hall n) as [Hb Hargs]; [by left|].
      by apply (type_check_node_frame self n σ σ1 (Raise e)).
Qed.

(** X6. A whole type check, successful or not, changes the type of no
    node that is neither a node of the graph nor a node operand of one. *)
Theorem type_check_frame self (σ σ' : gmap node_id ty) r b :
  type_check self σ = (r, σ') →
  (∀ n, n ∈ graph_nodes (traced self) → b ≠ name n ∧ ANode b ∉ args n) →
  type_at σ' b = type_at σ b.
Proof.
  unfold type_check, bind.
  destruct (type_check_nodes self (graph_nodes (traced self)) σ) as [[u|e] σ1] eqn:Hrun;
    intros [= <- <-] Hall; by apply (type_check_nodes_frame _ _ _ _ _ _ Hrun).
Qed.

Lemma type_check_frame_witness :
  let x := mkNode "x" placeholder (TStr "x") [] in
  let r := mkNode "relu" call_module (TStr "relu") [ANode "x"] in
  let self := mkGraphTypeChecker ∅ (mkGraphModule [x; r] {[ "relu" := ReLU ]}) in
  let σ : gmap node_id ty := {[ "x" := shape [2; 3]; "other" := shape [7] ]} in
  type_at (type_check self σ).2 "other" = type_at σ "other".
Proof.
  intros x r self σ.
  apply (type_check_frame self σ _ (type_check self σ).1 "other").
  - by destruct (type_check self σ).
  - intros n Hn. cbn in Hn.
    repeat (apply elem_of_cons in Hn as [->|Hn]);
      [ | | by apply elem_of_nil in Hn]; (split; [discriminate|]); cbn.
    + apply not_elem_of_nil.
    + intros H. apply elem_of_cons in H as [H|H]; [done | by apply elem_of_nil in H].
Defined.

(** Reads the node's own type through the writes to its operands. *)
Ltac self_solve :=
  repeat match goal with
         | H : args ?n !! _ = Some (ANode ?a), Hn : ANode (name ?n) ∉ args ?n |- _ =>
             lazymatch goal with
             | _ : a ≠ name n |- _ => fail
             | _ => pose proof (arg_not_self _ _ _ H Hn)
             end
         end;
  rewrite ?type_at_insert_ne by congruence; try done.

(** X7. When the rule for add, transpose, reshape, convolution,
    rectified-linear, max-pool, linear or adaptive average pool raises on
    a node that is not its own operand, the node's type is what it was
    before the rule ran. *)
Theorem failing_rule_keeps_annotation n (σ σ' : gmap node_id ty) e :
  ANode (name n) ∉ args n →
  add_inference_rule n σ = (Raise e, σ')
  ∨ transpose_inference_rule n σ = (Raise e, σ')
  ∨ reshape_inference_rule n σ = (Raise e, σ')
  ∨ (∃ m, conv2d_inference_rule n m σ = (Raise e, σ')
          ∨ relu_inference_rule n m σ = (Raise e, σ')
          ∨ maxpool2d_inference_rule n m σ = (Raise e, σ')
          ∨ linear_inference_rule n m σ = (Raise e, σ')
          ∨ adaptiveavgpool2d_inference_rule n m σ = (Raise e, σ')) →
  type_at σ' (name n) = type_at σ (name n).
Proof.
  intros Hself [H | [H | [H | (m & [H | [H | [H | [H | H]]]])]]]; revert H.
  - unfold add_inference_rule. run_rule; self_solve.
  - unfold transpose_inference_rule. run_rule; self_solve.
  - unfold reshape_inference_rule. run_rule; self_solve.
  - unfold conv2d_inference_rule. run_rule; self_solve.
  - unfold relu_inference_rule. run_rule; self_solve.
  - unfold maxpool2d_inference_rule. run_rule; self_solve.
  - unfold linear_inference_rule. run_rule; self_solve.
  - unfold adaptiveavgpool2d_inference_rule. run_rule; self_solve.
Qed.

Lemma failing_rule_keeps_annotation_witness :
  let n := mkNode "add" call_function (TFun torch_add) [ANode "x"; ANode "y"] in
  let σ : gmap node_id ty :=
    {[ "x" := shape [3; 4]; "y" := shape [5; 4]; "add" := shape [3; 4] ]} in
  type_at (<["y" := shape [5; 4]]> (<["x" := shape [3; 4]]> σ)) "add"
  = type_at σ "add".
Proof.
  intros n σ.
  apply (failing_rule_keeps_annotation n σ _
           (TypeError (CannotAdd "x" (shape [3; 4]) "y" (shape [5; 4]) "add"))).
  - vm_compute. intros H. by repeat (apply elem_of_cons in H as [H|H]; [done|]);
      apply elem_of_nil in H.
  - left. vm_compute. reflexivity.
Defined.

(** X8. The batch-norm rule differs: it stores the rank-4 expansion of the
    node's own type before it tests anything, so when it raises after both
    expansions the input node and the node itself are left with their
    expansions, and when the node's type does not expand only the input
    node is. *)
Theorem bn2d_failure_leaves_expansions n m a0 (σ σ' : gmap node_id ty) e e0 :
  args n !! 0%nat = Some (ANode a0) →
  a0 ≠ name n →
  expand_to_tensor_dim (type_at σ a0) 4 = Ok e0 →
  bn2d_inference_rule n m σ = (Raise e, σ') →
  match expand_to_tensor_dim (type_at σ (name n)) 4 with
  | Ok en => σ' = <[name n := en]> (<[a0 := e0]> σ)
  | Raise e' => e = e' ∧ σ' = <[a0 := e0]> σ
  end.
Proof.
  intros Hargs Hne E0. unfold bn2d_inference_rule. unfold_M.
  rewrite Hargs, E0. cbv beta iota zeta.
  rewrite type_at_insert_eq, (type_at_insert_ne _ _ _ _ Hne).
  destruct (expand_to_tensor_dim (type_at σ (name n)) 4) as [en|e'];
    [|by intros [= <- <-]].
  run_rule.
Qed.

Lemma bn2d_failure_leaves_expansions_witness :
  let n := mkNode "bn" call_module (TStr "bn") [ANode "x"] in
  let σ : gmap node_id ty := {[ "x" := shape [1; 8; 5; 5]; "bn" := Dyn ]} in
  match expand_to_tensor_dim (type_at σ "bn") 4 with
  | Ok en =>
      <["bn" := TensorType PyTuple [DDyn; DDyn; DDyn; DDyn]]> (<["x" := shape [1; 8; 5; 5]]> σ)
      = <["bn" := en]> (<["x" := shape [1; 8; 5; 5]]> σ)
  | Raise e' =>
      TypeError (CannotApply (BatchNorm2d 3) (shape [1; 8; 5; 5])
                   (TensorType PyTuple [DDyn; DDyn; DDyn; DDyn]) "bn") = e'
      ∧ <["bn" := TensorType PyTuple [DDyn; DDyn; DDyn; DDyn]]> (<["x" := shape [1; 8; 5; 5]]> σ)
        = <["x" := shape [1; 8; 5; 5]]> σ
  end.
Proof.
  intros n σ.
  apply (bn2d_failure_leaves_expansions n (BatchNorm2d 3) "x" σ);
    [reflexivity | discriminate | reflexivity | vm_compute; reflexivity].
Defined.

(** ** Transposition *)

Lemma py_index_in_range {A} (l : list A) i :
  0 ≤ i < Z.of_nat (length l) → py_index l i = Some (Z.to_nat i).
Proof.
  intros [H0 Hlen]. unfold py_index.
  destruct (Z.ltb_spec i 0) as [?|_]; [lia|].
  destruct (Z.leb_spec 0 i) as [_|?]; [|lia].
  by destruct (Z.ltb_spec i (Z.of_nat (length l))) as [_|?]; [|lia].
Qed.

Lemma getitem_in_range {A} (l : list A) i :
  0 ≤ i < Z.of_nat (length l) →
  ∃ x, l !! Z.to_nat i = Some x ∧ getitem l i = Ok x.
Proof.
  intros Hi. unfold getitem. rewrite (py_index_in_range _ _ Hi).
  destruct (lookup_lt_is_Some_2 l (Z.to_nat i)) as [x Hx]; [lia|].
  exists x. by rewrite Hx.
Qed.

Lemma transpose_result n x (σ : gmap node_id ty) k a dim1 dim2 :
  node_target n = TFun torch_transpose →
  args n !! 0%nat = Some (ANode x) →
  args n !! 1%nat = Some (AInt dim1) →
  args n !! 2%nat = Some (AInt dim2) →
  type_at σ x = TensorType k a →
  0 ≤ dim1 < Z.of_nat (length a) →
  0 ≤ dim2 < Z.of_nat (length a) →
  ∃ a',
    transpose_inference_rule n σ
    = (Ok (TensorType PyList a'), <[name n := TensorType PyList a']> σ)
    ∧ length a' = length a
    ∧ a' !! Z.to_nat dim1 = a !! Z.to_nat dim2
    ∧ a' !! Z.to_nat dim2 = a !! Z.to_nat dim1
    ∧ ∀ i, i ≠ Z.to_nat dim1 → i ≠ Z.to_nat dim2 → a' !! i = a !! i.
Proof.
  intros Htgt H0 H1 H2 Hx Hd1 Hd2.
  destruct (getitem_in_range a dim1 Hd1) as (v1 & Hv1 & Hg1).
  destruct (getitem_in_range a dim2 Hd2) as (v2 & Hv2 & Hg2).
  exists (<[Z.to_nat dim2 := v1]> (<[Z.to_nat dim1 := v2]> a)).
  split; [|split; [|split; [|split]]].
  - unfold transpose_inference_rule. unfold_M.
    rewrite Htgt, H0, H1, H2.
    rewrite bool_decide_eq_true_2 by done. cbv beta iota zeta. rewrite Hx.
    rewrite bool_decide_eq_false_2 by discriminate.
    cbv beta iota zeta.
    assert (Hrange : (0 <=? dim1) && (dim1 <? Z.of_nat (length a))
                     && (0 <=? dim2) && (dim2 <? Z.of_nat (length a)) = true).
    { rewrite !andb_true_iff, !Z.leb_le, !Z.ltb_lt. lia. }
    rewrite Hrange, Hg2, Hg1. cbv beta iota zeta.
    unfold setitem. rewrite (py_index_in_range _ _ Hd1). cbv beta iota zeta.
    rewrite py_index_in_range by (by rewrite length_insert).
    cbv beta iota zeta. by rewrite type_at_insert_eq.
  - by rewrite !length_insert.
  - destruct (decide (Z.to_nat dim1 = Z.to_nat dim2)) as [E|E].
    + rewrite E, list_lookup_insert_eq by (rewrite length_insert; lia). congruence.
    + rewrite list_lookup_insert_ne by done.
      rewrite list_lookup_insert_eq by lia. done.
  - rewrite list_lookup_insert_eq by (rewrite length_insert; lia). done.
  - intros i Hi1 Hi2. by rewrite !list_lookup_insert_ne.
Qed.

(** X9. Transposing a tensor-shape type along two dimensions in range
    gives the node a type of the same rank, built from a list, in which
    the entries at the two dimensions have changed places and every other
    entry is as before; the input node's type is not written. *)
Theorem transpose_swaps_dimensions n x (σ : gmap node_id ty) k a dim1 dim2 :
  node_target n = TFun torch_transpose →
  args n !! 0%nat = Some (ANode x) →
  args n !! 1%nat = Some (AInt dim1) →
  args n !! 2%nat = Some (AInt dim2) →
  type_at σ x = TensorType k a →
  0 ≤ dim1 < Z.of_nat (length a) →
  0 ≤ dim2 < Z.of_nat (length a) →
  ∃ a',
    transpose_inference_rule n σ
    = (Ok (TensorType PyList a'), <[name n := TensorType PyList a']> σ)
    ∧ length a' = length a
    ∧ a' !! Z.to_nat dim1 = a !! Z.to_nat dim2
    ∧ a' !! Z.to_nat dim2 = a !! Z.to_nat dim1
    ∧ ∀ i, i ≠ Z.to_nat dim1 → i ≠ Z.to_nat dim2 → a' !! i = a !! i.
Proof. apply transpose_result. Qed.

Lemma transpose_swaps_dimensions_witness :
  let n := mkNode "t" call_function (TFun torch_transpose)
             [ANode "x"; AInt 0; AInt 2] in
  let σ : gmap node_id ty := {[ "x" := shape [2; 3; 4] ]} in
  ∃ a',
    transpose_inference_rule n σ
    = (Ok (TensorType PyList a'), <["t" := TensorType PyList a']> σ)
    ∧ length a' = length (DInt <$> [2; 3; 4])
    ∧ a' !! Z.to_nat 0 = (DInt <$> [2; 3; 4]) !! Z.to_nat 2
    ∧ a' !! Z.to_nat 2 = (DInt <$> [2; 3; 4]) !! Z.to_nat 0
    ∧ ∀ i, i ≠ Z.to_nat 0 → i ≠ Z.to_nat 2 → a' !! i = (DInt <$> [2; 3; 4]) !! i.
Proof.
  intros n σ.
  apply (transpose_swaps_dimensions n "x" σ PyTuple (DInt <$> [2; 3; 4]) 0 2);
    try reflexivity; cbn; lia.
Defined.

(** X10. Transposing twice along the same two dimensions gives back the
    type one started from: if a node transposes [x] and a second node
    transposes the first along the same dimensions, the second node gets
    the dimensions of the type of [x], entry by entry, in a type built
    from a list. *)
Theorem transpose_twice n1 n2 x (σ : gmap node_id ty) k a dim1 dim2 :
  node_target n1 = TFun torch_transpose →
  node_target n2 = TFun torch_transpose →
  args n1 = [ANode x; AInt dim1; AInt dim2] →
  args n2 = [ANode (name n1); AInt dim1; AInt dim2] →
  type_at σ x = TensorType k a →
  0 ≤ dim1 < Z.of_nat (length a) →
  0 ≤ dim2 < Z.of_nat (length a) →
  ∃ σ1 t1 σ2,
    transpose_inference_rule n1 σ = (Ok t1, σ1)
    ∧ transpose_inference_rule n2 σ1 = (Ok (TensorType PyList a), σ2)
    ∧ type_at σ2 (name n2) = TensorType PyList a
    ∧ same_type (type_at σ2 (name n2)) (type_at σ x) = true.
Proof.
  intros Ht1 Ht2 Ha1 Ha2 Hx Hd1 Hd2.
  destruct (transpose_result n1 x σ k a dim1 dim2)
    as (a' & Hrun1 & Hlen & H1 & H2 & Hrest);
    try done; try (by rewrite Ha1).
  destruct (transpose_result n2 (name n1) (<[name n1 := TensorType PyList a']> σ)
              PyList a' dim1 dim2)
    as (a'' & Hrun2 & Hlen' & H1' & H2' & Hrest');
    try done; try (by rewrite Ha2); try (by rewrite Hlen).
  { apply type_at_insert_eq. }
  assert (a'' = a) as ->.
  { apply list_eq. intros i.
    destruct (decide (i = Z.to_nat dim1)) as [->|Hi1]; [congruence|].
    destruct (decide (i = Z.to_nat dim2)) as [->|Hi2]; [congruence|].
    by rewrite Hrest', Hrest. }
  eexists _, _, _. split; [done|]. split; [done|].
  rewrite type_at_insert_eq, Hx. split; [done|]. cbn.
  by rewrite bool_decide_eq_true_2.
Qed.

Lemma transpose_twice_witness :
  let n1 := mkNode "t1" call_function (TFun torch_transpose)
              [ANode "x"; AInt 0; AInt 1] in
  let n2 := mkNode "t2" call_function (TFun torch_transpose)
              [ANode "t1"; AInt 0; AInt 1] in
  let σ : gmap node_id ty := {[ "x" := TensorType PyTuple [DInt 2; DDyn; DInt 4] ]} in
  ∃ σ1 t1 σ2,
    transpose_inference_rule n1 σ = (Ok t1, σ1)
    ∧ transpose_inference_rule n2 σ1 = (Ok (TensorType PyList [DInt 2; DDyn; DInt 4]), σ2)
    ∧ type_at σ2 "t2" = TensorType PyList [DInt 2; DDyn; DInt 4]
    ∧ same_type (type_at σ2 "t2") (type_at σ "x") = true.
Proof.
  intros n1 n2 σ.
  apply (transpose_twice n1 n2 "x" σ PyTuple [DInt 2; DDyn; DInt 4] 0 1);
    try reflexivity; cbn; lia.
Defined.

(** X11. Transposition accepts only dimensions from 0 to the rank minus
    one: for a tensor-shape input with a negative or too large dimension,
    and for an input that is neither dynamic nor a tensor-shape type, the
    rule raises its [TypeError] and writes nothing. For a dynamic input it
    sets the node's type to the dynamic type whatever the dimensions. *)
Theorem transpose_rejects n x (σ : gmap node_id ty) dim1 dim2 :
  node_target n = TFun torch_transpose →
  args n !! 0%nat = Some (ANode x) →
  args n !! 1%nat = Some (AInt dim1) →
  args n !! 2%nat = Some (AInt dim2) →
  (type_at σ x = Dyn →
   transpose_inference_rule n σ = (Ok Dyn, <[name n := Dyn]> σ))
  ∧ (type_at σ x ≠ Dyn →
     (∀ k a, type_at σ x = TensorType k a →
           ¬ (0 ≤ dim1 < Z.of_nat (length a) ∧ 0 ≤ dim2 < Z.of_nat (length a))) →
     transpose_inference_rule n σ
     = (Raise (TypeError (CannotTranspose dim1 dim2 (type_at σ x) (name n))), σ)).
Proof.
  intros Htgt H0 H1 H2. split.
  - intros Hx. unfold transpose_inference_rule. unfold_M.
    rewrite Htgt, H0, H1, H2. rewrite bool_decide_eq_true_2 by done.
    cbv beta iota zeta. rewrite Hx. rewrite bool_decide_eq_true_2 by done.
    cbv beta iota zeta. by rewrite type_at_insert_eq.
  - intros Hx Hbad. unfold transpose_inference_rule. unfold_M.
    rewrite Htgt, H0, H1, H2. rewrite bool_decide_eq_true_2 by done.
    cbv beta iota zeta. rewrite bool_decide_eq_false_2 by done.
    destruct (type_at σ x) as [| | |k a] eqn:E; try done.
    specialize (Hbad k a eq_refl).
    assert (Hrange : (0 <=? dim1) && (dim1 <? Z.of_nat (length a))
                     && (0 <=? dim2) && (dim2 <? Z.of_nat (length a)) = false);
      [|by rewrite Hrange].
    apply not_true_is_false. rewrite !andb_true_iff, !Z.leb_le, !Z.ltb_lt. lia.
Qed.

Lemma transpose_rejects_witness :
  let n := mkNode "t" call_function (TFun torch_transpose)
             [ANode "x"; AInt 0; AInt (-1)] in
  let σ : gmap node_id ty := {[ "x" := shape [2; 3] ]} in
  transpose_inference_rule n σ
  = (Raise (TypeError (CannotTranspose 0 (-1) (shape [2; 3]) "t")), σ).
Proof.
  intros n σ.
  apply (proj2 (transpose_rejects n "x" σ 0 (-1) eq_refl eq_refl eq_refl eq_refl)).
  - discriminate.
  - intros k a [= <- <-]. cbn. lia.
Defined.

(** ** Reshaping, continued *)

Lemma reshape_all_known_witness :
  reshape_inference_rule
    (mkNode "r" call_function (TFun torch_reshape) [ANode "x"; AList [4; 0; 6]])
    {[ "x" := shape [0; 5] ]}
  = if bool_decide (product [0; 5] = product [4; 0; 6])
    then (Ok (TensorType PyList (DInt <$> [4; 0; 6])),
          <["r" := TensorType PyList (DInt <$> [4; 0; 6])]> {[ "x" := shape [0; 5] ]})
    else (Raise (TypeError (CannotReshape "r" (TensorType PyTuple (DInt <$> [0; 5]))
                              (TensorType PyList (DInt <$> [4; 0; 6])))),
          {[ "x" := shape [0; 5] ]}).
Proof.
  apply (reshape_all_known
           (mkNode "r" call_function (TFun torch_reshape) [ANode "x"; AList [4; 0; 6]])
           "x" {[ "x" := shape [0; 5] ]} PyTuple [0; 5] [4; 0; 6]);
    try reflexivity; try discriminate.
  intros H. by repeat (apply elem_of_cons in H as [H|H]; [done|]);
    apply elem_of_nil in H.
Defined.

Lemma reshape_some_unknown_witness :
  let n := mkNode "r" call_function (TFun torch_reshape) [ANode "x"; AList [-1; 6]] in
  let σ : gmap node_id ty := {[ "x" := TensorType PyTuple [DDyn; DInt 3; DInt 4] ]} in
  let p1 := product (known_size <$> [DDyn; DInt 3; DInt 4]) in
  let p2 := product [-1; 6] in
  ((p2 | p1) ∨ (p1 | p2) →
   reshape_inference_rule n σ
   = (Ok (target_type [-1; 6]), <["r" := target_type [-1; 6]]> σ))
  ∧ (¬ ((p2 | p1) ∨ (p1 | p2)) →
     reshape_inference_rule n σ
     = (Raise (TypeError (CannotReshape "r" (TensorType PyTuple [DDyn; DInt 3; DInt 4])
                            (target_type [-1; 6]))), σ)).
Proof.
  intros n σ.
  apply (reshape_some_unknown n "x" σ PyTuple [DDyn; DInt 3; DInt 4] [-1; 6]);
    try reflexivity; try discriminate.
  - intros H. by repeat (apply elem_of_cons in H as [H|H]; [done|]);
      apply elem_of_nil in H.
  - left. apply elem_of_cons. by left.
Defined.

(** X14. Whenever the reshape rule succeeds, what it returns is the target
    list read as a type, built from a list, each [-1] becoming a dynamic
    dimension, and the store is the initial one with the node's type set
    to it: the source node's type is only read. *)
Theorem reshape_success n x (σ σ' : gmap node_id ty) t2 t :
  args n !! 0%nat = Some (ANode x) →
  args n !! 1%nat = Some (AList t2) →
  reshape_inference_rule n σ = (Ok t, σ') →
  t = target_type t2
  ∧ σ' = <[name n := target_type t2]> σ
  ∧ ∃ dims, t = TensorType PyList dims
            ∧ length dims = length t2
            ∧ ∀ i z, t2 !! i = Some z →
                     dims !! i = Some (if bool_decide (z = -1) then DDyn else DInt z).
Proof.
  intros H0 H1 Hrun.
  assert (Hres : t = target_type t2 ∧ σ' = <[name n := target_type t2]> σ).
  { revert Hrun. unfold reshape_inference_rule, target_type. unfold_M.
    rewrite H0, H1. cbv beta iota zeta. run_rule. }
  destruct Hres as [-> ->]. split; [done|]. split; [done|].
  eexists. split; [done|]. split; [by rewrite length_fmap|].
  intros i z Hz. by rewrite list_lookup_fmap, Hz.
Qed.

Lemma reshape_success_witness :
  let n := mkNode "r" call_function (TFun torch_reshape) [ANode "x"; AList [-1; 4]] in
  let σ : gmap node_id ty := {[ "x" := Dyn ]} in
  TensorType PyList [DDyn; DInt 4] = target_type [-1; 4]
  ∧ <["r" := TensorType PyList [DDyn; DInt 4]]> σ = <["r" := target_type [-1; 4]]> σ
  ∧ ∃ dims, TensorType PyList [DDyn; DInt 4] = TensorType PyList dims
            ∧ length dims = length [-1; 4]
            ∧ ∀ i z, [-1; 4] !! i = Some z →
                     dims !! i = Some (if bool_decide (z = -1) then DDyn else DInt z).
Proof.
  intros n σ.
  apply (reshape_success n "x" σ (<["r" := TensorType PyList [DDyn; DInt 4]]> σ) [-1; 4]);
    reflexivity.
Defined.

(** X15. Edge cases of reshape. A dynamic source accepts every target
    list, the empty one included. A tensor-shape source of rank at least 1
    with an empty target list raises the [TypeError] of [reduce] on an
    empty sequence. A source that is neither dynamic nor a tensor-shape
    type fails the rule's assertion when the target has a wildcard and
    raises the rule's [TypeError] when it has none. Nothing is written in
    the three failing cases. *)
Theorem reshape_edge_cases n x (σ : gmap node_id ty) t2 :
  args n !! 0%nat = Some (ANode x) →
  args n !! 1%nat = Some (AList t2) →
  (type_at σ x = Dyn →
   reshape_inference_rule n σ
   = (Ok (target_type t2), <[name n := target_type t2]> σ))
  ∧ (∀ k d a, type_at σ x = TensorType k (d :: a) → t2 = [] →
       (∀ d', d' ∈ d :: a → d' ≠ DNone) →
       reshape_inference_rule n σ = (Raise (TypeError ReduceEmpty), σ))
  ∧ (type_at σ x = IntT ∨ type_at σ x = NoneT →
     reshape_inference_rule n σ
     = (if bool_decide (-1 ∈ t2)
        then (Raise AssertionError, σ)
        else (Raise (TypeError (CannotReshape (name n) (type_at σ x) (target_type t2))),
              σ))).
Proof.
  intros H0 H1. split; [|split].
  - intros Hx. unfold reshape_inference_rule. unfold_M.
    rewrite H0, H1. cbv beta iota zeta. by rewrite Hx.
  - intros k d a Hx -> Hdims. unfold reshape_inference_rule. unfold_M.
    rewrite H0, H1. cbv beta iota zeta. rewrite Hx.
    rewrite bool_decide_eq_false_2 by discriminate.
    rewrite (bool_decide_eq_false_2 (-1 ∈ [])) by apply not_elem_of_nil.
    rewrite orb_false_r.
    assert (Hnone : DNone ∉ d :: a) by (intros H; by apply (Hdims DNone)).
    case_bool_decide as HDyn; cbv beta iota zeta.
    + assert (Hk : known_size <$> (d :: a) ≠ []) by done.
      by rewrite (operands_of_dims _ Hnone), (reduce_mul_ints _ Hk).
    + assert (Hints : operand_of_dim <$> (d :: a) = Some <$> (known_size <$> (d :: a))).
      { rewrite <- (operands_of_dims _ Hnone). rewrite <- !list_fmap_compose.
        apply list_fmap_ext. intros i d' Hd'. cbn.
        case_bool_decide as E; [done|]. destruct HDyn.
        assert (d' = DDyn) as <- by (by destruct (decide (d' = DDyn))).
        by eapply list_elem_of_lookup_2. }
      assert (Hk : known_size <$> (d :: a) ≠ []) by done.
      by rewrite Hints, (reduce_mul_ints _ Hk).
  - intros Hx. unfold reshape_inference_rule. unfold_M.
    rewrite H0, H1. cbv beta iota zeta.
    fold (target_type t2).
    destruct Hx as [Hx|Hx]; rewrite Hx;
      rewrite bool_decide_eq_false_2 by discriminate; cbn [orb];
      by case_bool_decide.
Qed.

Lemma reshape_edge_cases_witness :
  let n := mkNode "r" call_function (TFun torch_reshape) [ANode "x"; AList []] in
  reshape_inference_rule n {[ "x" := Dyn ]}
  = (Ok (target_type []), <["r" := target_type []]> {[ "x" := Dyn ]})
  ∧ reshape_inference_rule n {[ "x" := shape [1] ]}
    = (Raise (TypeError ReduceEmpty), {[ "x" := shape [1] ]})
  ∧ reshape_inference_rule n {[ "x" := IntT ]}
    = (Raise (TypeError (CannotReshape "r" IntT (target_type []))), {[ "x" := IntT ]}).
Proof.
  intros n. split; [|split].
  - apply (proj1 (reshape_edge_cases n "x" {[ "x" := Dyn ]} [] eq_refl eq_refl)).
    reflexivity.
  - apply (proj1 (proj2 (reshape_edge_cases n "x" {[ "x" := shape [1] ]} []
                          eq_refl eq_refl)) PyTuple (DInt 1) []); try reflexivity.
    intros d' Hd'. apply elem_of_cons in Hd' as [->|Hd']; [done|].
    by apply elem_of_nil in Hd'.
  - assert (Hx : type_at ({[ "x" := IntT ]} : gmap node_id ty) "x" = IntT
                 ∨ type_at ({[ "x" := IntT ]} : gmap node_id ty) "x" = NoneT)
      by (left; reflexivity).
    rewrite (proj2 (proj2 (reshape_edge_cases n "x" {[ "x" := IntT ]} []
                            eq_refl eq_refl)) Hx).
    reflexivity.
Defined.

(** ** Output sizes, continued *)

(** X16. With a positive stride, a larger input size never gives a
    smaller output size. *)
Theorem calculate_monotone m p index d d' r r' :
  get_conv_params m = Ok p →
  0 < component (stride p) 0 →
  d ≤ d' →
  calculate (DInt d) m index = Ok (DInt r) →
  calculate (DInt d') m index = Ok (DInt r') →
  r ≤ r'.
Proof.
  intros Hp Hs Hd.
  destruct (decide (index < 2)%nat) as [Hi|Hi].
  - rewrite !(calculate_int m p _ index Hp Hi) by lia.
    intros [= <-] [= <-]. unfold output_size_formula.
    apply Z.add_le_mono_r, Z.div_le_mono; lia.
  - unfold calculate. rewrite Hp. cbn [rbind].
    by destruct index as [|[|k]]; [lia | lia |].
Qed.

Lemma calculate_monotone_witness : 3 ≤ 4.
Proof.
  apply (calculate_monotone
           (MaxPool2d (mkParams (IntV 0) (IntV 2) (IntV 2) (IntV 1)))
           (mkParams (IntV 0) (IntV 2) (IntV 2) (IntV 1)) 0%nat 7 8 3 4);
    [reflexivity | reflexivity | lia | reflexivity | reflexivity].
Defined.

(** ** The greatest upper bound *)

(** X17. The dynamic type is neutral for [get_greatest_upper_bound] on
    either side, a tensor-shape type joined with itself is itself (its
    dimensions, in a tuple), and two tensor-shape types of different ranks
    fail the assertion. *)
Theorem get_greatest_upper_bound_basics :
  (∀ t, get_greatest_upper_bound Dyn t = Ok t
        ∧ get_greatest_upper_bound t Dyn = Ok t)
  ∧ (∀ k1 k2 a,
       get_greatest_upper_bound (TensorType k1 a) (TensorType k2 a)
       = Ok (TensorType PyTuple a))
  ∧ (∀ k1 a1 k2 a2, length a1 ≠ length a2 →
       get_greatest_upper_bound (TensorType k1 a1) (TensorType k2 a2)
       = Raise AssertionError).
Proof.
  split; [|split].
  - intros t. unfold get_greatest_upper_bound. split; [done|].
    by case_bool_decide; [subst|].
  - intros k1 k2 a. unfold get_greatest_upper_bound.
    rewrite !bool_decide_eq_false_2 by discriminate.
    rewrite bool_decide_eq_true_2 by done. do 2 f_equal.
    induction a as [|d a IH]; [done|]. cbn. rewrite IH.
    by destruct (is_more_precise_dim d d).
  - intros k1 a1 k2 a2 Hlen. unfold get_greatest_upper_bound.
    rewrite !bool_decide_eq_false_2 by discriminate.
    by rewrite bool_decide_eq_false_2.
Qed.

Lemma get_greatest_upper_bound_basics_witness :
  get_greatest_upper_bound (shape [1; 2]) (shape [1; 2; 3]) = Raise AssertionError.
Proof.
  apply (proj2 (proj2 get_greatest_upper_bound_basics)
           PyTuple (DInt <$> [1; 2]) PyTuple (DInt <$> [1; 2; 3])).
  discriminate.
Defined.

Lemma gub_dim_commutes d1 d2 :
  d1 ≠ DNone → d2 ≠ DNone →
  is_consistent_dim d1 d2 = true →
  (if is_more_precise_dim d1 d2 then d1 else d2)
  = (if is_more_precise_dim d2 d1 then d2 else d1)
  ∧ is_consistent_dim (if is_more_precise_dim d1 d2 then d1 else d2) d1 = true
  ∧ is_consistent_dim (if is_more_precise_dim d1 d2 then d1 else d2) d2 = true.
Proof.
  destruct d1 as [|x|], d2 as [|y|]; try done; cbn; intros _ _ Hc;
    repeat case_bool_decide; simplify_eq; try done.
  by rewrite is_consistent_dim_refl.
Qed.

Lemma gub_list_commutes (a1 a2 : list dim) :
  DNone ∉ a1 → DNone ∉ a2 →
  length a1 = length a2 →
  forallb (λ p, is_consistent_dim p.1 p.2) (zip a1 a2) = true →
  let pick := λ p : dim * dim, if is_more_precise_dim p.1 p.2 then p.1 else p.2 in
  pick <$> zip a2 a1 = pick <$> zip a1 a2
  ∧ forallb (λ p, is_consistent_dim p.1 p.2) (zip (pick <$> zip a1 a2) a1) = true
  ∧ forallb (λ p, is_consistent_dim p.1 p.2) (zip (pick <$> zip a1 a2) a2) = true.
Proof.
  revert a2. induction a1 as [|d1 a1 IH]; intros [|d2 a2] Hn1 Hn2 Hlen Hall;
    try done.
  rewrite not_elem_of_cons in Hn1, Hn2. destruct Hn1 as [Hd1 Hn1], Hn2 as [Hd2 Hn2].
  cbn in Hall. apply andb_true_iff in Hall as [Hd Hall].
  injection Hlen as Hlen.
  destruct (IH a2 Hn1 Hn2 Hlen Hall) as (Hswap & Hc1 & Hc2).
  destruct (gub_dim_commutes d1 d2 (not_eq_sym Hd1) (not_eq_sym Hd2) Hd)
    as (Hdswap & Hdc1 & Hdc2).
  cbn in *. rewrite Hswap, <- Hdswap, Hdc1, Hdc2, Hc1, Hc2. done.
Qed.

(** X18. On two consistent tensor-shape types whose dimensions are
    integers or dynamic, [get_greatest_upper_bound] succeeds, gives the
    same type whichever operand comes first, and that type is consistent
    with both operands. *)
Theorem get_greatest_upper_bound_consistent k1 a1 k2 a2 :
  DNone ∉ a1 → DNone ∉ a2 →
  is_consistent (TensorType k1 a1) (TensorType k2 a2) = true →
  ∃ l,
    get_greatest_upper_bound (TensorType k1 a1) (TensorType k2 a2)
    = Ok (TensorType PyTuple l)
    ∧ get_greatest_upper_bound (TensorType k2 a2) (TensorType k1 a1)
      = Ok (TensorType PyTuple l)
    ∧ is_consistent (TensorType PyTuple l) (TensorType k1 a1) = true
    ∧ is_consistent (TensorType PyTuple l) (TensorType k2 a2) = true.
Proof.
  intros Hn1 Hn2 Hcons. cbn [is_consistent] in Hcons.
  apply andb_true_iff in Hcons as [Hlen Hall]. apply bool_decide_eq_true in Hlen.
  destruct (gub_list_commutes a1 a2 Hn1 Hn2 Hlen Hall) as (Hswap & Hc1 & Hc2).
  unfold get_greatest_upper_bound.
  rewrite !bool_decide_eq_false_2 by discriminate.
  rewrite !bool_decide_eq_true_2 by done.
  eexists. split; [done|]. split; [by rewrite Hswap|].
  cbn [is_consistent]. rewrite Hc1, Hc2.
  rewrite !length_fmap, !length_zip_with.
  by rewrite !bool_decide_eq_true_2 by lia.
Qed.

Lemma get_greatest_upper_bound_consistent_witness :
  ∃ l,
    get_greatest_upper_bound (TensorType PyTuple [DInt 1; DDyn; DInt 30])
      (TensorType PyTuple [DDyn; DInt 16; DInt 30]) = Ok (TensorType PyTuple l)
    ∧ get_greatest_upper_bound (TensorType PyTuple [DDyn; DInt 16; DInt 30])
        (TensorType PyTuple [DInt 1; DDyn; DInt 30]) = Ok (TensorType PyTuple l)
    ∧ is_consistent (TensorType PyTuple l)
        (TensorType PyTuple [DInt 1; DDyn; DInt 30]) = true
    ∧ is_consistent (TensorType PyTuple l)
        (TensorType PyTuple [DDyn; DInt 16; DInt 30]) = true.
Proof.
  apply get_greatest_upper_bound_consistent; [| | reflexivity];
    intros H; by repeat (apply elem_of_cons in H as [H|H]; [done|]);
      apply elem_of_nil in H.
Defined.

(** ** Convolution, continued *)

Lemma conv2d_success_store n m a0 (σ σ' : gmap node_id ty) t :
  args n !! 0%nat = Some (ANode a0) →
  conv2d_inference_rule n m σ = (Ok t, σ') →
  ∃ e0, expand_to_tensor_dim (type_at σ a0) 4 = Ok e0
        ∧ σ' = <[name n := t]> (<[a0 := e0]> σ).
Proof.
  intros Hargs. unfold conv2d_inference_rule. unfold_M. rewrite Hargs.
  cbv beta iota zeta.
  destruct (expand_to_tensor_dim (type_at σ a0) 4) as [e0|]; [|done].
  intros Hrun. exists e0. split; [done|]. revert Hrun.
  run_rule. by rewrite type_at_insert_eq.
Qed.

(** X19. When the convolution rule succeeds on a node that is not its own
    input, the node's type is a tensor-shape type of rank 4 whose channel
    dimension is the module's [out_channels], whatever the annotation was,
    and the input node is left with the rank-4 expansion of its type. *)
Theorem conv2d_success_shape n m a0 (σ σ' : gmap node_id ty) t :
  args n !! 0%nat = Some (ANode a0) →
  a0 ≠ name n →
  conv2d_inference_rule n m σ = (Ok t, σ') →
  ∃ oc b h w e0,
    get_out_channels m = Ok oc
    ∧ t = TensorType PyTuple [b; DInt oc; h; w]
    ∧ type_at σ' (name n) = t
    ∧ expand_to_tensor_dim (type_at σ a0) 4 = Ok e0
    ∧ type_at σ' a0 = e0.
Proof.
  intros Hargs Hne Hrun.
  destruct (conv2d_success_store n m a0 σ σ' t Hargs Hrun) as (e0 & E0 & Hσ').
  destruct (conv2d_result n m a0 σ σ' t Hargs Hne Hrun)
    as (k & b & c & h & w & oc & h_out & w_out & ann4
        & _ & En & Hoc & _ & _ & Hc & Hgub & Ht).
  destruct (expand_to_tensor_dim_rank4 _ _ En) as (kn & b' & c' & h' & w' & -> & _).
  revert Hgub. unfold get_greatest_upper_bound.
  rewrite !bool_decide_eq_false_2 by discriminate.
  rewrite bool_decide_eq_true_2 by done. cbn. intros [= <-].
  cbn in Hc. rewrite !andb_true_iff in Hc. destruct Hc as (_ & _ & Hch & _).
  eexists oc, _, _, _, e0. split; [done|]. split.
  - do 2 f_equal. f_equal.
    destruct c' as [|z|]; cbn in *; [done | | done].
    apply bool_decide_eq_true in Hch as [= ->].
    by rewrite bool_decide_eq_true_2.
  - split; [by rewrite Ht|]. split; [done|].
    subst σ'. rewrite type_at_insert_ne by done. apply type_at_insert_eq.
Qed.

Lemma conv2d_success_shape_witness :
  let n := mkNode "conv" call_module (TStr "conv") [ANode "x"] in
  let m := Conv2d 3 16 (mkParams (IntV 1) (IntV 3) (IntV 2) (IntV 1)) in
  let σ : gmap node_id ty :=
    {[ "x" := Dyn; "conv" := TensorType PyTuple [DInt 8; DDyn; DDyn; DInt 5] ]} in
  let t := TensorType PyTuple [DInt 8; DInt 16; DDyn; DInt 5] in
  let σ' :=
    <["conv" := t]> (<["x" := TensorType PyTuple [DDyn; DDyn; DDyn; DDyn]]> σ) in
  ∃ oc b h w e0,
    get_out_channels m = Ok oc
    ∧ t = TensorType PyTuple [b; DInt oc; h; w]
    ∧ type_at σ' "conv" = t
    ∧ expand_to_tensor_dim (type_at σ "x") 4 = Ok e0
    ∧ type_at σ' "x" = e0.
Proof.
  intros n m σ t σ'.
  apply (conv2d_success_shape n m "x" σ σ' t);
    [reflexivity | discriminate | vm_compute; reflexivity].
Defined.

(** ** Rectified-linear activation, continued *)

(** X20. Running the rectified-linear rule again on the store it produced
    succeeds with the same type and leaves that store as it is. *)
Theorem relu_rule_stable n m a0 (σ σ' : gmap node_id ty) t :
  args n !! 0%nat = Some (ANode a0) →
  relu_inference_rule n m σ = (Ok t, σ') →
  relu_inference_rule n m σ' = (Ok t, σ').
Proof.
  intros Hargs. unfold relu_inference_rule. unfold_M. rewrite Hargs.
  cbv beta iota zeta.
  destruct (is_consistent (type_at σ a0) (type_at σ (name n))) eqn:Hc; [|done].
  destruct (is_more_precise (type_at σ a0) (type_at σ (name n))) eqn:Hmp.
  - cbv beta iota zeta. rewrite type_at_insert_eq. intros [= <- <-].
    assert (Ha0 : type_at (<[name n:=type_at σ a0]> σ) a0 = type_at σ a0).
    { destruct (decide (name n = a0)) as [<-|Hne];
        [apply type_at_insert_eq | by apply type_at_insert_ne]. }
    rewrite Ha0, type_at_insert_eq, is_consistent_refl.
    destruct (is_more_precise (type_at σ a0) (type_at σ a0));
      cbv beta iota zeta; rewrite ?insert_insert_eq, type_at_insert_eq; done.
  - cbv beta iota zeta. intros [= <- <-]. by rewrite Hc, Hmp.
Qed.

Lemma relu_rule_stable_witness :
  let n := mkNode "relu" call_module (TStr "relu") [ANode "x"] in
  let σ : gmap node_id ty := {[ "x" := shape [2; 3]; "relu" := Dyn ]} in
  relu_inference_rule n ReLU (<["relu" := shape [2; 3]]> σ)
  = (Ok (shape [2; 3]), <["relu" := shape [2; 3]]> σ).
Proof.
  intros n σ.
  apply (relu_rule_stable n ReLU "x" σ); [reflexivity | vm_compute; reflexivity].
Defined.

(** ** Pooling checks *)

(** X21. [maxpool2d_check] accepts tensor-shape types of rank 3 and 4 only,
    raising its [TypeError] on any other rank; when it succeeds the result
    has the rank of its argument and the same dimensions except the last
    two. *)
Theorem maxpool2d_check_shape k l m :
  (length l ≠ 3%nat → length l ≠ 4%nat →
   maxpool2d_check (TensorType k l) m
   = Raise (TypeError (WrongSize (TensorType k l) m)))
  ∧ (∀ t, maxpool2d_check (TensorType k l) m = Ok t →
       ∃ l', t = TensorType PyTuple l'
             ∧ length l' = length l
             ∧ (length l = 3%nat ∨ length l = 4%nat)
             ∧ ∀ i, (i + 2 < length l)%nat → l' !! i = l !! i).
Proof.
  split.
  - intros H3 H4. unfold maxpool2d_check. cbn [args_of rbind].
    by rewrite !bool_decide_eq_false_2.
  - intros t. destruct l as [|a [|b [|c [|d [|e l]]]]]; try done.
    + rewrite maxpool2d_check_rank3.
      destruct (calculate b m 0) as [h|]; [|done]. cbn [rbind].
      destruct (calculate c m 1) as [w|]; [|done]. intros [= <-].
      eexists. split; [done|]. split; [done|]. split; [by left|].
      intros [|i] Hi; [done | cbn in Hi; lia].
    + rewrite maxpool2d_check_rank4.
      destruct (calculate c m 0) as [h|]; [|done]. cbn [rbind].
      destruct (calculate d m 1) as [w|]; [|done]. intros [= <-].
      eexists. split; [done|]. split; [done|]. split; [by right|].
      intros [|[|i]] Hi; [done | done | cbn in Hi; lia].
Qed.

Lemma maxpool2d_check_shape_witness :
  maxpool2d_check (shape [8; 8]) (MaxPool2d (mkParams (IntV 0) (IntV 2) (IntV 2) (IntV 1)))
  = Raise (TypeError (WrongSize (shape [8; 8])
                        (MaxPool2d (mkParams (IntV 0) (IntV 2) (IntV 2) (IntV 1)))))
  ∧ ∃ l', shape [3; 4; 4] = TensorType PyTuple l'
          ∧ length l' = length [DInt 3; DInt 8; DInt 8]
          ∧ (length [DInt 3; DInt 8; DInt 8] = 3%nat
             ∨ length [DInt 3; DInt 8; DInt 8] = 4%nat)
          ∧ ∀ i, (i + 2 < length [DInt 3; DInt 8; DInt 8])%nat →
                 l' !! i = [DInt 3; DInt 8; DInt 8] !! i.
Proof.
  split.
  - apply (proj1 (maxpool2d_check_shape PyTuple [DInt 8; DInt 8] _)); discriminate.
  - apply (proj2 (maxpool2d_check_shape PyTuple [DInt 3; DInt 8; DInt 8]
                    (MaxPool2d (mkParams (IntV 0) (IntV 2) (IntV 2) (IntV 1))))).
    reflexivity.
Defined.

(** X22. [adaptiveavgpool2d_check] accepts tensor-shape types of rank 3
    and 4 only, raising its [TypeError] on any other rank; when it succeeds
    the result has the rank of its argument and the same dimensions except
    the last two, and with an [int] output size both of these are that
    size, whatever they were. *)
Theorem adaptiveavgpool2d_check_shape k l o :
  (length l ≠ 3%nat → length l ≠ 4%nat →
   adaptiveavgpool2d_check (TensorType k l) (AdaptiveAvgPool2d o)
   = Raise (TypeError (RankNot3Or4 (TensorType k l))))
  ∧ (∀ t, adaptiveavgpool2d_check (TensorType k l) (AdaptiveAvgPool2d o) = Ok t →
       ∃ l', t = TensorType PyTuple l'
             ∧ length l' = length l
             ∧ (∀ i, (i + 2 < length l)%nat → l' !! i = l !! i)
             ∧ ∀ z, o = OInt z →
                    l' !! (length l - 2)%nat = Some (DInt z)
                    ∧ l' !! (length l - 1)%nat = Some (DInt z)).
Proof.
  split.
  - intros H3 H4. unfold adaptiveavgpool2d_check.
    destruct o as [z|[h|] [w|]]; cbn -[bool_decide];
      by rewrite !bool_decide_eq_false_2 by done.
  - intros t Hrun.
    destruct l as [|a [|b [|c [|d [|e l]]]]]; destruct o as [z|[h|] [w|]];
      vm_compute in Hrun; simplify_eq.
    all: eexists; split; [done|]; split; [done|]; split;
      [ intros i Hi; destruct i as [|[|i]]; cbn in *; try done; lia
      | intros z' E; by simplify_eq ].
Qed.

Lemma adaptiveavgpool2d_check_shape_witness :
  adaptiveavgpool2d_check (shape [8; 8]) (AdaptiveAvgPool2d (OInt 5))
  = Raise (TypeError (RankNot3Or4 (shape [8; 8])))
  ∧ ∃ l', shape [3; 5; 5] = TensorType PyTuple l'
          ∧ length l' = length [DInt 3; DInt 8; DInt 8]
          ∧ (∀ i, (i + 2 < length [DInt 3; DInt 8; DInt 8])%nat →
                  l' !! i = [DInt 3; DInt 8; DInt 8] !! i)
          ∧ ∀ z, OInt 5 = OInt z →
                 l' !! (length [DInt 3; DInt 8; DInt 8] - 2)%nat = Some (DInt z)
                 ∧ l' !! (length [DInt 3; DInt 8; DInt 8] - 1)%nat = Some (DInt z).
Proof.
  split.
  - apply (proj1 (adaptiveavgpool2d_check_shape PyTuple [DInt 8; DInt 8] (OInt 5)));
      discriminate.
  - apply (proj2 (adaptiveavgpool2d_check_shape PyTuple [DInt 3; DInt 8; DInt 8]
                    (OInt 5))).
    reflexivity.
Defined.

(** ** The linear transform *)

Lemma py_index_last {A} (front : list A) (x : A) :
  py_index (front ++ [x]) (-1) = Some (length front).
Proof.
  unfold py_index. rewrite length_app. cbn [length].
  replace (-1 <? 0) with true by done.
  replace (-1 + Z.of_nat (length front + 1)) with (Z.of_nat (length front)) by lia.
  destruct (Z.leb_spec 0 (Z.of_nat (length front))) as [_|?]; [|lia].
  destruct (Z.ltb_spec (Z.of_nat (length front)) (Z.of_nat (length front + 1)))
    as [_|?]; [|lia].
  cbn. by rewrite Nat2Z.id.
Qed.

Lemma linear_check_cases k l inf outf :
  match linear_check (TensorType k l) (Linear inf outf) with
  | Ok t =>
      ∃ front last,
        l = front ++ [last] ∧ front ≠ []
        ∧ is_consistent_dim (DInt inf) last = true
        ∧ t = TensorType PyTuple (front ++ [DInt outf])
  | Raise e =>
      ((length l < 2)%nat ∧ e = TypeError (RankBelowTwo (TensorType k l)))
      ∨ ∃ front last,
          l = front ++ [last] ∧ front ≠ []
          ∧ is_consistent_dim (DInt inf) last = false
          ∧ e = TypeError (InconsistentFeatures inf last (Linear inf outf))
  end.
Proof.
  unfold linear_check. cbn [args_of rbind get_in_features get_out_features].
  case_bool_decide as Hlen; [|left; split; [lia | done]].
  destruct l as [|last front _] using rev_ind; [cbn in Hlen; lia|].
  assert (Hfront : front ≠ []).
  { intros ->. cbn in Hlen. lia. }
  unfold getitem, setitem. rewrite py_index_last.
  rewrite lookup_app_r, Nat.sub_diag by done. cbn [lookup list_lookup rbind].
  destruct (is_consistent_dim (DInt inf) last) eqn:Hc.
  - exists front, last. repeat (split; [done|]).
    by rewrite insert_app_r_alt, Nat.sub_diag by done.
  - right. by exists front, last.
Qed.

(** X23. [linear_check] on a tensor-shape type and a linear module
    succeeds exactly when the rank is at least 2 and the last dimension is
    consistent with [in_features]; the result then is the same type with
    its last dimension replaced by [out_features], in a tuple. *)
Theorem linear_check_spec k l inf outf :
  ((∃ t, linear_check (TensorType k l) (Linear inf outf) = Ok t)
   ↔ (2 ≤ length l)%nat
     ∧ ∃ d, last l = Some d ∧ is_consistent_dim (DInt inf) d = true)
  ∧ (∀ t, linear_check (TensorType k l) (Linear inf outf) = Ok t →
       ∃ front d,
         l = front ++ [d] ∧ t = TensorType PyTuple (front ++ [DInt outf])).
Proof.
  pose proof (linear_check_cases k l inf outf) as Hcases.
  destruct (linear_check (TensorType k l) (Linear inf outf)) as [t|e]; split.
  - destruct Hcases as (front & d & -> & Hfront & Hc & ->).
    split; [|by eexists]. intros _. split.
    + rewrite length_app. cbn. destruct front; [done | cbn; lia].
    + exists d. by rewrite last_snoc.
  - intros t' [= <-]. destruct Hcases as (front & d & -> & _ & _ & ->).
    by exists front, d.
  - split; [by intros [t Ht]|]. intros (Hlen & d & Hlast & Hc).
    destruct Hcases as [[Hshort _] | (front & d' & -> & _ & Hbad & _)]; [lia|].
    rewrite last_snoc in Hlast. congruence.
  - done.
Qed.

Lemma linear_check_spec_witness :
  ∃ front d, (DInt <$> [2; 3; 4]) = front ++ [d]
             ∧ TensorType PyTuple [DInt 2; DInt 3; DInt 8]
               = TensorType PyTuple (front ++ [DInt 8]).
Proof.
  apply (proj2 (linear_check_spec PyList (DInt <$> [2; 3; 4]) 4 8)). reflexivity.
Defined.

(** X24. When the linear rule succeeds, either the input node and the node
    both had the dynamic type, it returns the dynamic type and writes
    nothing, or the node's type is a tensor-shape type of rank at least 2
    whose last dimension is the module's [out_features]. *)
Theorem linear_rule_output n inf outf a0 (σ σ' : gmap node_id ty) t :
  args n !! 0%nat = Some (ANode a0) →
  linear_inference_rule n (Linear inf outf) σ = (Ok t, σ') →
  (t = Dyn ∧ σ' = σ ∧ type_at σ a0 = Dyn ∧ type_at σ (name n) = Dyn)
  ∨ ∃ front, front ≠ []
             ∧ t = TensorType PyTuple (front ++ [DInt outf])
             ∧ type_at σ' (name n) = t.
Proof.
  intros Hargs. unfold linear_inference_rule. unfold_M. rewrite Hargs.
  cbv beta iota zeta.
  pose proof (linear_check_cases) as Hcases.
  assert (Hok : ∀ k l r, linear_check (TensorType k l) (Linear inf outf) = Ok r →
                 ∃ front, front ≠ [] ∧ r = TensorType PyTuple (front ++ [DInt outf])).
  { intros k l r Hr. specialize (Hcases k l inf outf). rewrite Hr in Hcases.
    destruct Hcases as (front & d & _ & Hfront & _ & ->). by exists front. }
  destruct (type_at σ a0) as [| | |k0 l0] eqn:E0;
    destruct (type_at σ (name n)) as [| | |kn ln] eqn:En;
    cbn [isinstance_TensorType andb]; try done;
    rewrite ?bool_decide_eq_true_2 by done;
    rewrite ?bool_decide_eq_false_2 by discriminate; cbn [andb]; try done.
  - intros [= <- <-]. by left.
  - destruct (linear_check (TensorType kn ln) _) as [r|] eqn:Hr; [|done].
    cbv beta iota zeta. rewrite type_at_insert_eq. intros [= <- <-].
    right. destruct (Hok _ _ _ Hr) as (front & ? & ->).
    exists front. by rewrite type_at_insert_eq.
  - destruct (linear_check (TensorType k0 l0) _) as [r|] eqn:Hr; [|done].
    cbv beta iota zeta. rewrite type_at_insert_eq. intros [= <- <-].
    right. destruct (Hok _ _ _ Hr) as (front & ? & ->).
    exists front. by rewrite type_at_insert_eq.
  - destruct (is_consistent _ _); [|done].
    destruct (linear_check (TensorType k0 l0) _) as [r0|] eqn:Hr0; [|done].
    destruct (linear_check (TensorType kn ln) _) as [rn|] eqn:Hrn; [|done].
    cbv beta iota zeta. rewrite type_at_insert_eq.
    destruct (Hok _ _ _ Hr0) as (f0 & ? & ->).
    destruct (Hok _ _ _ Hrn) as (fn & ? & ->).
    destruct (is_more_precise _ _); cbv beta iota zeta;
      rewrite ?type_at_insert_eq; intros [= <- <-]; right;
      [exists f0 | exists fn]; by rewrite ?type_at_insert_eq.
Qed.

Lemma linear_rule_output_witness :
  let n := mkNode "fc" call_module (TStr "fc") [ANode "x"] in
  let σ : gmap node_id ty :=
    {[ "x" := TensorType PyTuple [DDyn; DInt 4]; "fc" := Dyn ]} in
  let σ' := <["fc" := TensorType PyTuple [DDyn; DInt 8]]> σ in
  (TensorType PyTuple [DDyn; DInt 8] = Dyn ∧ σ' = σ ∧ type_at σ "x" = Dyn
   ∧ type_at σ "fc" = Dyn)
  ∨ ∃ front, front ≠ []
             ∧ TensorType PyTuple [DDyn; DInt 8] = TensorType PyTuple (front ++ [DInt 8])
             ∧ type_at σ' "fc" = TensorType PyTuple [DDyn; DInt 8].
Proof.
  intros n σ σ'.
  apply (linear_rule_output n 4 8 "x" σ σ');
    [reflexivity | vm_compute; reflexivity].
Defined.

(** ** Registration, continued *)

Lemma lookup_rule_app_other rules k k' fn :
  k' ≠ k → lookup_rule (rules ++ [(k, fn)]) k' = lookup_rule rules k'.
Proof.
  intros Hne. induction rules as [|[k0 fn0] rules IH]; cbn.
  - by rewrite bool_decide_eq_false_2 by congruence.
  - by rewrite IH.
Qed.

(** X25. Registering a rule for a target that has none succeeds; the
    target then looks up to that rule, every other target looks up as
    before, and a second registration for the target raises. Registering
    for a target that already has a rule raises. *)
Theorem register_inference_rule_spec k fn rules :
  match register_inference_rule k fn rules with
  | Ok rules' =>
      lookup_rule rules k = None
      ∧ lookup_rule rules' k = Some fn
      ∧ (∀ k', k' ≠ k → lookup_rule rules' k' = lookup_rule rules k')
      ∧ ∀ fn', register_inference_rule k fn' rules'
               = Raise (RuntimeError AlreadyRegistered)
  | Raise e =>
      e = RuntimeError AlreadyRegistered ∧ ∃ fn0, lookup_rule rules k = Some fn0
  end.
Proof.
  unfold register_inference_rule.
  destruct (lookup_rule rules k) as [fn0|] eqn:Hk; [by eauto|].
  split; [done|]. split; [by apply lookup_rule_app_new|].
  split; [intros k' Hne; by apply lookup_rule_app_other|].
  intros fn'. by rewrite (lookup_rule_app_new _ _ _ Hk).
Qed.

(** ** Node kinds the driver does not handle *)

(** X26. A node whose kind is [call_method] or [get_attr] makes the driver
    raise [NotImplementedError], and a call-module node whose target is
    not a submodule of the traced module makes it raise [AttributeError];
    in both cases a graph holding such a node never type-checks, and when
    the nodes before it do, nothing but the replacement of this node's
    unset type by the dynamic type is added to what they wrote. *)
Theorem type_check_unsupported_node self pre n post :
  graph_nodes (traced self) = pre ++ n :: post →
  (op n = call_method ∨ op n = get_attr →
   (∀ σ, ∃ e σ', type_check self σ = (Raise e, σ'))
   ∧ ∀ σ σ1, type_check_nodes self pre σ = (Ok tt, σ1) →
             type_check self σ = (Raise NotImplementedError, visited n σ1))
  ∧ (op n = call_module →
     getattr (traced self) (node_target n) = Raise AttributeError →
     (∀ σ, ∃ e σ', type_check self σ = (Raise e, σ'))
     ∧ ∀ σ σ1, type_check_nodes self pre σ = (Ok tt, σ1) →
               type_check self σ = (Raise AttributeError, visited n σ1)).
Proof.
  intros Hnodes. split.
  - intros Hop. apply (type_check_aborts self pre n post _ Hnodes).
    intros σ. unfold type_check_node, visited. unfold_M. cbv beta iota zeta.
    by destruct Hop as [-> | ->]; case_bool_decide.
  - intros Hop Hattr. apply (type_check_aborts self pre n post _ Hnodes).
    intros σ. unfold type_check_node, visited. unfold_M. cbv beta iota zeta.
    rewrite Hop, Hattr. by case_bool_decide.
Qed.

Lemma type_check_unsupported_node_witness :
  (let w := mkNode "w" get_attr (TStr "weight") [] in
   let self := mkGraphTypeChecker ∅ (mkGraphModule [w] ∅) in
   type_check self ∅ = (Raise NotImplementedError, {[ "w" := Dyn ]}))
  ∧ (let x := mkNode "x" placeholder (TStr "x") [] in
     let c := mkNode "conv" call_module (TStr "features.conv") [ANode "x"] in
     let self := mkGraphTypeChecker ∅
                   (mkGraphModule [x; c] {[ "conv" := ReLU ]}) in
     type_check self ∅ = (Raise AttributeError, {[ "x" := Dyn; "conv" := Dyn ]})).
Proof.
  split.
  - intros w self.
    destruct (type_check_unsupported_node self [] w [] eq_refl) as [Hkind _].
    destruct (Hkind (or_intror eq_refl)) as [_ Hrun].
    rewrite (Hrun ∅ ∅ eq_refl). vm_compute. reflexivity.
  - intros x c self.
    destruct (type_check_unsupported_node self [x] c [] eq_refl) as [_ Hattr].
    destruct (Hattr eq_refl eq_refl) as [_ Hrun].
    assert (Hpre : type_check_nodes self [x] ∅ = (Ok tt, {[ "x" := Dyn ]}))
      by (vm_compute; reflexivity).
    rewrite (Hrun _ _ Hpre). vm_compute. reflexivity.
Defined.

(** ** Every node gets a type *)

Lemma type_at_insert_populated (σ : gmap node_id ty) a b v :
  v ≠ NoneT → type_at σ b ≠ NoneT → type_at (<[a := v]> σ) b ≠ NoneT.
Proof.
  intros Hv Hb. destruct (decide (a = b)) as [->|Hne].
  - by rewrite type_at_insert_eq.
  - by rewrite type_at_insert_ne.
Qed.

Lemma expand_isinstance t n r :
  expand_to_tensor_dim t n = Ok r → isinstance_TensorType r = true.
Proof. destruct t; cbn; try done; [|case_bool_decide]; by intros [= <-]. Qed.

Lemma isinstance_not_None r : isinstance_TensorType r = true → r ≠ NoneT.
Proof. by destruct r. Qed.

Lemma broadcast_not_None t1 t2 r1 r2 :
  broadcast_types t1 t2 = Ok (r1, r2) →
  t1 ≠ NoneT → t2 ≠ NoneT → r1 ≠ NoneT ∧ r2 ≠ NoneT.
Proof.
  unfold broadcast_types. destruct (_ || _); [by intros [= <- <-]|].
  destruct t1 as [| | |c1 a1], t2 as [| | |c2 a2]; try done.
  intros Hrun _ _. revert Hrun.
  destruct (_ || _ || _); [done|].
  match goal with
  | |- context [rbind ?x _] => destruct x as [[p1 p2]|]; [|done]
  end.
  cbn [rbind]. destruct (broadcast_loop p1 p2). destruct (_ && _); [done|].
  by intros [= <- <-].
Qed.

Lemma gub_isinstance k l t2 r :
  get_greatest_upper_bound (TensorType k l) t2 = Ok r →
  isinstance_TensorType t2 = true → isinstance_TensorType r = true.
Proof.
  destruct t2 as [| | |k2 l2]; try done. unfold get_greatest_upper_bound.
  rewrite !bool_decide_eq_false_2 by discriminate.
  case_bool_decide; by intros [= <-].
Qed.

Create HintDb populated.
#[local] Hint Resolve isinstance_not_None expand_isinstance gub_isinstance
  maxpool2d_check_isinstance linear_check_isinstance
  adaptiveavgpool2d_check_isinstance : populated.
#[local] Hint Extern 1 (_ ≠ NoneT) => discriminate : populated.

Ltac populated_solve :=
  repeat match goal with
         | H : args ?n !! _ = Some (ANode ?a),
           Hall : ∀ a, ANode a ∈ args ?n → type_at ?σ a ≠ NoneT |- _ =>
             lazymatch goal with
             | _ : type_at σ a ≠ NoneT |- _ => fail
             | _ => pose proof (Hall a (list_elem_of_lookup_2 _ _ _ H))
             end
         | H : broadcast_types ?t1 ?t2 = Ok (?r1, ?r2) |- _ =>
             lazymatch goal with
             | _ : r1 ≠ NoneT |- _ => fail
             | _ => let H1 := fresh in let H2 := fresh in
                    destruct (broadcast_not_None _ _ _ _ H) as [H1 H2]; [done | done |]
             end
         end;
  repeat (apply type_at_insert_populated); eauto with populated.

Section populated.
Context (n : Node) (σ σ' : gmap node_id ty) (t : ty).
Context (Hall : ∀ a, ANode a ∈ args n → type_at σ a ≠ NoneT).
Context (Hn : type_at σ (name n) ≠ NoneT).
Context (b : node_id) (Hb : type_at σ b ≠ NoneT).

Lemma add_populated :
  add_inference_rule n σ = (Ok t, σ') → type_at σ' b ≠ NoneT.
Proof. unfold add_inference_rule. run_rule; populated_solve. Qed.

Lemma transpose_populated :
  transpose_inference_rule n σ = (Ok t, σ') → type_at σ' b ≠ NoneT.
Proof. unfold transpose_inference_rule. run_rule; populated_solve. Qed.

Lemma reshape_populated :
  reshape_inference_rule n σ = (Ok t, σ') → type_at σ' b ≠ NoneT.
Proof. unfold reshape_inference_rule. run_rule; populated_solve. Qed.

Lemma bn2d_populated m :
  bn2d_inference_rule n m σ = (Ok t, σ') → type_at σ' b ≠ NoneT.
Proof. unfold bn2d_inference_rule. run_rule; populated_solve. Qed.

Lemma conv2d_populated m :
  conv2d_inference_rule n m σ = (Ok t, σ') → type_at σ' b ≠ NoneT.
Proof. unfold conv2d_inference_rule. run_rule; populated_solve. Qed.

Lemma relu_populated m :
  relu_inference_rule n m σ = (Ok t, σ') → type_at σ' b ≠ NoneT.
Proof. unfold relu_inference_rule. run_rule; populated_solve. Qed.

Lemma maxpool2d_populated m :
  maxpool2d_inference_rule n m σ = (Ok t, σ') → type_at σ' b ≠ NoneT.
Proof. unfold maxpool2d_inference_rule. run_rule; populated_solve. Qed.

Lemma linear_populated m :
  linear_inference_rule n m σ = (Ok t, σ') → type_at σ' b ≠ NoneT.
Proof. unfold linear_inference_rule. run_rule; populated_solve. Qed.

Lemma adaptiveavgpool2d_populated m :
  adaptiveavgpool2d_inference_rule n m σ = (Ok t, σ') → type_at σ' b ≠ NoneT.
Proof. unfold adaptiveavgpool2d_inference_rule. run_rule; populated_solve. Qed.

End populated.

Lemma registered_rule_populated k fn :
  lookup_rule _INFERENCE_RULES k = Some fn →
  match fn with
  | NodeRule f =>
      ∀ n (σ σ' : gmap node_id ty) t b,
        (∀ a, ANode a ∈ args n → type_at σ a ≠ NoneT) →
        type_at σ (name n) ≠ NoneT → type_at σ b ≠ NoneT →
        f n σ = (Ok t, σ') → type_at σ' b ≠ NoneT
  | ModuleRule f =>
      ∀ n m (σ σ' : gmap node_id ty) t b,
        (∀ a, ANode a ∈ args n → type_at σ a ≠ NoneT) →
        type_at σ (name n) ≠ NoneT → type_at σ b ≠ NoneT →
        f n m σ = (Ok t, σ') → type_at σ' b ≠ NoneT
  end.
Proof.
  unfold _INFERENCE_RULES. cbn [lookup_rule].
  repeat case_bool_decide; intros [= <-]; intros;
    first [ by eapply add_populated | by eapply transpose_populated
          | by eapply reshape_populated | by eapply bn2d_populated
          | by eapply conv2d_populated | by eapply relu_populated
          | by eapply maxpool2d_populated | by eapply linear_populated
          | by eapply adaptiveavgpool2d_populated ].
Qed.

Lemma visited_populated n (σ : gmap node_id ty) :
  type_at (visited n σ) (name n) ≠ NoneT
  ∧ ∀ b, type_at σ b ≠ NoneT → type_at (visited n σ) b ≠ NoneT.
Proof.
  unfold visited. case_bool_decide as Hn.
  - split; [by rewrite type_at_insert_eq|].
    intros b Hb. by apply type_at_insert_populated.
  - done.
Qed.

Lemma type_check_node_visited self n (σ : gmap node_id ty) :
  type_check_node self n σ
  = match op n with
    | placeholder => (Ok (type_at (visited n σ) (name n)), visited n σ)
    | call_function =>
        match lookup_rule _INFERENCE_RULES (KTarget (node_target n)) with
        | Some (NodeRule fn) => fn n (visited n σ)
        | Some (ModuleRule _) => (Raise (TypeError WrongArity), visited n σ)
        | None => (Raise (RuntimeError (NoRuleForTarget (node_target n))), visited n σ)
        end
    | call_module =>
        match getattr (traced self) (node_target n) with
        | Ok module_instance =>
            match lookup_rule _INFERENCE_RULES (KClass (type_of module_instance)) with
            | Some (ModuleRule fn) => fn n module_instance (visited n σ)
            | Some (NodeRule _) => (Raise (TypeError WrongArity), visited n σ)
            | None => (Raise (RuntimeError (NoRuleForClass (type_of module_instance))),
                       visited n σ)
            end
        | Raise e => (Raise e, visited n σ)
        end
    | output =>
        match args n !! 0%nat with
        | Some (ANode a0) =>
            (Ok (type_at (visited n σ) a0),
             <[name n := type_at (visited n σ) a0]> (visited n σ))
        | Some _ => (Raise AssertionError, visited n σ)
        | None => (Raise IndexError, visited n σ)
        end
    | _ => (Raise NotImplementedError, visited n σ)
    end.
Proof.
  unfold type_check_node, visited. unfold_M. cbv beta iota zeta.
  case_bool_decide; cbv beta iota zeta; destruct (op n); try done.
  all: try (by repeat case_match).
  all: destruct (args n !! 0%nat) as [[a| |]|]; try done;
    by rewrite type_at_insert_eq.
Qed.

Lemma type_check_node_populated self n (σ σ' : gmap node_id ty) t :
  type_check_node self n σ = (Ok t, σ') →
  (∀ a, ANode a ∈ args n → type_at σ a ≠ NoneT) →
  type_at σ' (name n) ≠ NoneT
  ∧ ∀ b, type_at σ b ≠ NoneT → type_at σ' b ≠ NoneT.
Proof.
  rewrite type_check_node_visited. intros Hrun Hall.
  destruct (visited_populated n σ) as [Hn Hkeep].
  assert (Hall' : ∀ a, ANode a ∈ args n → type_at (visited n σ) a ≠ NoneT)
    by (intros a Ha; by apply Hkeep, Hall).
  assert (Hgoal : ∀ b, type_at (visited n σ) b ≠ NoneT → type_at σ' b ≠ NoneT);
    [|split; [by apply Hgoal | intros b Hb; by apply Hgoal, Hkeep]].
  intros b Hb. revert Hrun. destruct (op n); try done.
  - by intros [= <- <-].
  - destruct (lookup_rule _INFERENCE_RULES (KTarget (node_target n)))
      as [[f|f]|] eqn:Hk; [|done|done].
    by apply (registered_rule_populated _ _ Hk).
  - destruct (getattr (traced self) (node_target n)) as [m|]; [|done].
    destruct (lookup_rule _INFERENCE_RULES (KClass (type_of m)))
      as [[f|f]|] eqn:Hk; [done| |done].
    by apply (registered_rule_populated _ _ Hk).
  - destruct (args n !! 0%nat) as [[a| |]|] eqn:Ha; try done.
    intros [= <- <-]. apply type_at_insert_populated; [|done].
    apply Hall'. by eapply list_elem_of_lookup_2.
Qed.

Lemma type_check_nodes_populated self nodes seen (σ σ' : gmap node_id ty) :
  type_check_nodes self nodes σ = (Ok tt, σ') →
  operands_defined seen nodes →
  (∀ a, a ∈ seen → type_at σ a ≠ NoneT) →
  (∀ a, a ∈ seen → type_at σ' a ≠ NoneT)
  ∧ ∀ n, n ∈ nodes → type_at σ' (name n) ≠ NoneT.
Proof.
  revert seen σ. induction nodes as [|n nodes IH]; intros seen σ.
  - intros [= <-] _ Hseen. split; [done|]. by intros n Hn%elem_of_nil.
  - cbn [type_check_nodes operands_defined]. unfold bind.
    destruct (type_check_node self n σ) as [[t|e] σ1] eqn:Hn; [|done].
    intros Hrun [Hops Hrest] Hseen.
    destruct (type_check_node_populated self n σ σ1 t Hn) as [Hn1 Hkeep].
    { intros a Ha. by apply Hseen, Hops. }
    destruct (IH (name n :: seen) σ1 Hrun Hrest) as [Hseen' Hnodes].
    { intros a [->|Ha]%elem_of_cons; [done | by apply Hkeep, Hseen]. }
    split.
    + intros a Ha. apply Hseen'. by right.
    + intros n' [->|Hn']%elem_of_cons; [apply Hseen'; by left | by apply Hnodes].
Qed.

(** X27. If every node operand in the graph is an earlier node of the
    graph and the type check succeeds, then every node of the graph ends
    with a type: none is left unset. *)
Theorem type_check_populates self (σ σ' : gmap node_id ty) r :
  operands_defined [] (graph_nodes (traced self)) →
  type_check self σ = (Ok r, σ') →
  ∀ n, n ∈ graph_nodes (traced self) → type_at σ' (name n) ≠ NoneT.
Proof.
  intros Hops. unfold type_check, bind.
  destruct (type_check_nodes self (graph_nodes (traced self)) σ)
    as [[[]|e] σ1] eqn:Hrun; [|done].
  intros [= <- <-].
  apply (type_check_nodes_populated self _ [] σ σ1 Hrun Hops).
  by intros a Ha%elem_of_nil.
Qed.

Lemma type_check_populates_witness :
  let x := mkNode "x" placeholder (TStr "x") [] in
  let c := mkNode "conv" call_module (TStr "conv") [ANode "x"] in
  let out := mkNode "output" output (TStr "output") [ANode "conv"] in
  let self := mkGraphTypeChecker ∅
                (mkGraphModule [x; c; out]
                   {[ "conv" := Conv2d 3 16 (mkParams (IntV 0) (IntV 3) (IntV 1) (IntV 1)) ]}) in
  type_at (type_check self ∅).2 "x" ≠ NoneT
  ∧ type_at (type_check self ∅).2 "conv" ≠ NoneT
  ∧ type_at (type_check self ∅).2 "output" ≠ NoneT.
Proof.
  intros x c out self.
  assert (H : ∀ n, n ∈ [x; c; out] →
                   type_at (type_check self ∅).2 (name n) ≠ NoneT).
  { apply (type_check_populates self ∅ (type_check self ∅).2 true).
    - cbn. repeat split.
      + by intros a Ha%elem_of_nil.
      + intros a [[= ->]|Ha%elem_of_nil]%elem_of_cons; [by left | done].
      + intros a [[= ->]|Ha%elem_of_nil]%elem_of_cons; [by left | done].
    - vm_compute. reflexivity. }
  repeat split.
  - apply (H x). by left.
  - apply (H c). right. by left.
  - apply (H out). right. right. by left.
Defined.

(** ** Addition, continued *)

(** X28. When the add rule succeeds on operands that are distinct nodes,
    neither of them the node itself nor of scalar type, the operand types
    broadcast, the two results are consistent, each operand node is left
    with its broadcast type, and the node's type is one of the two. *)
Theorem add_broadcast_effects n a0 a1 (σ σ' : gmap node_id ty) t :
  args n !! 0%nat = Some (ANode a0) →
  args n !! 1%nat = Some (ANode a1) →
  a0 ≠ a1 → a0 ≠ name n → a1 ≠ name n →
  type_at σ a0 ≠ IntT → type_at σ a1 ≠ IntT →
  add_inference_rule n σ = (Ok t, σ') →
  ∃ r1 r2,
    broadcast_types (type_at σ a0) (type_at σ a1) = Ok (r1, r2)
    ∧ is_consistent r1 r2 = true
    ∧ type_at σ' a0 = r1
    ∧ type_at σ' a1 = r2
    ∧ (t = r1 ∨ t = r2)
    ∧ type_at σ' (name n) = t.
Proof.
  intros H0 H1 H01 H0n H1n Hs0 Hs1. unfold add_inference_rule. unfold_M.
  rewrite H0, H1. cbv beta iota zeta.
  rewrite (bool_decide_eq_false_2 (type_at σ a0 = IntT)),
    (bool_decide_eq_false_2 (type_at σ a1 = IntT)) by done. cbn [andb].
  destruct (broadcast_types (type_at σ a0) (type_at σ a1)) as [[r1 r2]|] eqn:Hb;
    [|done].
  cbv beta iota zeta. destruct (is_consistent r1 r2) eqn:Hc; [|done].
  destruct (is_more_precise r1 r2); cbv beta iota zeta;
    rewrite type_at_insert_eq; intros [= <- <-]; exists r1, r2;
    rewrite type_at_insert_eq;
    rewrite (type_at_insert_ne _ (name n) a0), (type_at_insert_ne _ (name n) a1),
      (type_at_insert_ne _ a1 a0), !type_at_insert_eq by done;
    repeat (split; [done|]); (split; [|done]); first [by right | by left].
Qed.

Lemma add_broadcast_effects_witness :
  let n := mkNode "add" call_function (TFun operator_add) [ANode "x"; ANode "y"] in
  let σ : gmap node_id ty := {[ "x" := shape [3; 4]; "y" := shape [1] ]} in
  let σ' :=
    <["add" := shape [3; 4]]> (<["y" := shape [3; 4]]> (<["x" := shape [3; 4]]> σ)) in
  ∃ r1 r2,
    broadcast_types (type_at σ "x") (type_at σ "y") = Ok (r1, r2)
    ∧ is_consistent r1 r2 = true
    ∧ type_at σ' "x" = r1
    ∧ type_at σ' "y" = r2
    ∧ (shape [3; 4] = r1 ∨ shape [3; 4] = r2)
    ∧ type_at σ' "add" = shape [3; 4].
Proof.
  intros n σ σ'.
  apply (add_broadcast_effects n "x" "y" σ σ');
    try reflexivity; discriminate.
Defined.

(** X29. Scalar addition: when one operand has the type [int] and the
    other a tensor-shape type, the node gets the tensor-shape type, no
    broadcasting takes place and the operands' types are not written;
    when both operands have the type [int] the rule raises. *)
Theorem add_scalar n a0 a1 (σ : gmap node_id ty) :
  args n !! 0%nat = Some (ANode a0) →
  args n !! 1%nat = Some (ANode a1) →
  (∀ k l, (type_at σ a0 = IntT ∧ type_at σ a1 = TensorType k l)
          ∨ (type_at σ a0 = TensorType k l ∧ type_at σ a1 = IntT) →
          add_inference_rule n σ
          = (Ok (TensorType k l), <[name n := TensorType k l]> σ))
  ∧ (type_at σ a0 = IntT → type_at σ a1 = IntT →
     add_inference_rule n σ = (Raise (TypeError (CannotBroadcastTypes IntT IntT)), σ)).
Proof.
  intros H0 H1. split.
  - intros k l Hscalar. by apply (add_scalar_branch n a0 a1).
  - intros E0 E1. unfold add_inference_rule. unfold_M.
    rewrite H0, H1. cbv beta iota zeta. by rewrite E0, E1.
Qed.

Lemma add_scalar_witness :
  let n := mkNode "add" call_function (TFun torch_add) [ANode "x"; ANode "k"] in
  let σ : gmap node_id ty := {[ "x" := TensorType PyList [] ; "k" := IntT ]} in
  add_inference_rule n σ
  = (Ok (TensorType PyList []), <["add" := TensorType PyList []]> σ).
Proof.
  intros n σ.
  apply (proj1 (add_scalar n "x" "k" σ eq_refl eq_refl)). right. by split.
Defined.
